(** * ESPP2: the command-line wrapper, the web endpoints and the holdings core

    A shallow embedding of [espp2/espp2.py] (the typer command [main]) and of
    [espp2/web/main.py] (the FastAPI endpoints), followed by the parts of the
    holdings engine ([espp2.main], [espp2.datamodels]) that the two adapters
    call and that the design document describes.

    Layout: Part I holds the models (one module per source file), Part II the
    properties proved about them. *)

From Stdlib Require Import ZArith List Ascii String Bool Lia.
From stdpp Require Import base option list strings gmap pretty.
Import ListNotations.

Set Default Proof Using "Type".

Local Open Scope string_scope.
Local Open Scope Z_scope.
Local Open Scope list_scope.

(** Two equations on one term: the second is rewritten with the first. *)
Ltac clash :=
  repeat match goal with
         | H1 : ?x = _, H2 : ?x = _ |- _ => rewrite H1 in H2; simplify_eq
         end.

(** Splits the disjunctions a membership in a short event list unfolds to. *)
Ltac split_in :=
  repeat match goal with
         | H : _ \/ _ |- _ => destruct H
         | H : False |- _ => destruct H
         end.

(* ===================================================================== *)
(** * Part I: models                                                      *)
(* ===================================================================== *)

(** ** Python values shared by both adapters *)

Module Py.

(** An exception raised by code that is called from the adapters but lives
    outside them (the holdings engine, [json], [pydantic]).  The adapters only
    look at three things: whether it derives from [Exception] (what
    [except Exception] catches), [str(e)], and the traceback text that
    [logger.exception] appends to the log line. *)
Record ForeignError := {
  is_Exception : bool;
  str : string;
  traceback : string;
}.

(** The exceptions the adapters raise themselves, and foreign ones passing
    through. *)
Inductive Exc :=
| BadParameter (message : string)
| UnboundLocalError (name : string)
| AttributeError (name : string)
| HTTPException (status_code : Z) (detail : string)
| Foreign (e : ForeignError).

(** What running adapter code yields: a value, or a raised exception. *)
Inductive result (A : Type) :=
| Return (a : A)
| Raise (e : Exc).
Arguments Return {A} a.
Arguments Raise {A} e.

(** What a call into foreign code yields. *)
Inductive called (A : Type) :=
| Returned (a : A)
| Raised (e : ForeignError).
Arguments Returned {A} a.
Arguments Raised {A} e.

(** Python numbers as far as the adapters handle them: a finite
    [decimal.Decimal], [coefficient * 10 ^ exponent], or the float [nan]
    imported from numpy.  (A [Decimal] zero also has a sign; [abs] is the
    only operation applied here and gives the same for both.) *)
Record Decimal := { coefficient : Z; exponent : Z }.

Inductive number :=
| Finite (d : Decimal)
| nan.

(** The arithmetic context of [decimal], which nothing in the adapters
    changes: 28 significant digits, rounding half to even, exponents between
    [Emin] and [Emax], and [Overflow] among the signals that raise. *)
Definition prec : Z := 28.
Definition Emax : Z := 999999.
Definition Emin : Z := -999999.
Definition Etiny : Z := Emin - prec + 1.
Definition Etop : Z := Emax - prec + 1.

Definition Overflow : ForeignError :=
  {| is_Exception := true; str := "[<class 'decimal.Overflow'>]";
     traceback := "" |}.

(** The number of decimal digits of a positive integer. *)
Fixpoint ndigits_fuel (fuel : nat) (n : Z) : Z :=
  match fuel with
  | O => 0
  | S fuel' => if n <=? 0 then 0 else 1 + ndigits_fuel fuel' (n / 10)
  end.

Definition ndigits (n : Z) : Z := ndigits_fuel (S (Z.to_nat (Z.log2 n))) n.

(** [n / d] rounded to the nearest integer, a half going to the even one
    ([ROUND_HALF_EVEN]); [n] is not negative and [d] is positive. *)
Definition round_half_even (n d : Z) : Z :=
  let q := n / d in
  let r := n mod d in
  if (d <? 2 * r) || ((2 * r =? d) && Z.odd q) then q + 1 else q.

(** What the context makes of the result [c * 10 ^ e] of an operation, [c]
    not negative: the coefficient is rounded to [prec] digits, a result beyond
    [Emax] raises, one below [Emin] is rounded at [Etiny]. *)
Definition Decimal_fix (c e : Z) : called Decimal :=
  if c =? 0 then
    Returned {| coefficient := 0; exponent := Z.min (Z.max e Etiny) Emax |}
  else
    let exp_min := ndigits c + e - prec in
    if Etop <? exp_min then Raised Overflow
    else
      let exp_min := Z.max exp_min Etiny in
      if e <? exp_min then
        let c' := round_half_even c (10 ^ (exp_min - e)) in
        let '(c', exp_min) :=
          if 10 ^ prec <=? c' then (c' / 10, exp_min + 1) else (c', exp_min) in
        if Etop <? exp_min then Raised Overflow
        else Returned {| coefficient := c'; exponent := exp_min |}
      else Returned {| coefficient := c; exponent := e |}.

(** [abs(x)]: for a [Decimal] an operation of the context, so the result is
    rounded, or the call raises; for the float [nan] it is [nan]. *)
Definition abs (x : number) : called number :=
  match x with
  | Finite d =>
      match Decimal_fix (Z.abs (coefficient d)) (exponent d) with
      | Returned d' => Returned (Finite d')
      | Raised e => Raised e
      end
  | nan => Returned nan
  end.

(** The absolute value of [x] as a number, with nothing rounded. *)
Definition exact_abs (x : number) : number :=
  match x with
  | Finite d =>
      Finite {| coefficient := Z.abs (coefficient d); exponent := exponent d |}
  | nan => nan
  end.

(** [x < 0]. *)
Definition is_negative (x : number) : bool :=
  match x with
  | Finite d => coefficient d <? 0
  | nan => false
  end.

(** The context holds [x] as it is: a coefficient of at most [prec] digits
    and an exponent within its range. *)
Definition fits_context (x : number) : bool :=
  match x with
  | Finite d =>
      let c := Z.abs (coefficient d) in
      if c =? 0 then (Etiny <=? exponent d) && (exponent d <=? Emax)
      else (ndigits c <=? prec) && (Etiny <=? exponent d)
           && (ndigits c + exponent d - 1 <=? Emax)
  | nan => true
  end.

(** [y] is [x] to within half a unit of the last digit of [y]. *)
Definition within_half_unit (x y : number) : Prop :=
  match x, y with
  | Finite d, Finite d' =>
      let m := Z.min (exponent d) (exponent d') in
      2 * Z.abs (coefficient d' * 10 ^ (exponent d' - m)
                 - coefficient d * 10 ^ (exponent d - m))
        <= 10 ^ (exponent d' - m)
  | nan, nan => True
  | _, _ => False
  end.

(** [x == y] for finite decimals: the same number, whatever the exponents. *)
Definition same_number (x y : number) : bool :=
  match x, y with
  | Finite d, Finite d' =>
      let m := Z.min (exponent d) (exponent d') in
      coefficient d * 10 ^ (exponent d - m)
        =? coefficient d' * 10 ^ (exponent d' - m)
  | _, _ => false
  end.

Definition zero : number := Finite {| coefficient := 0; exponent := 0 |}.

(** The numeric value of a finite decimal is zero exactly when its coefficient
    is. *)
Definition is_zero (x : number) : bool :=
  match x with
  | Finite d => coefficient d =? 0
  | nan => false
  end.

(** Truthiness of [str] and [list] objects ([if s:], [if l:]). *)
Definition truthy_str (s : string) : bool :=
  match s with
  | EmptyString => false
  | String _ _ => true
  end.

Definition truthy_list {A} (l : list A) : bool :=
  match l with
  | [] => false
  | _ :: _ => true
  end.

End Py.

(** ** The records of [espp2.datamodels] the adapters touch *)

Module DataModels.
Import Py.

(** A calendar date, as [datetime.date]. *)
Record date := { year : Z; month : Z; day : Z }.

(** Modelled from the spec: the class [Wire] of [espp2.datamodels] is not
    among the sources.  The command-line wrapper reads and assigns the fields
    [value] and [nok_value]; the spec's WireRecord is "a bank transfer (date,
    amount, currency, direction)", the direction being the sign of the
    amount. *)
Record Wire := {
  wire_date : date;
  currency : string;
  nok_value : number;
  value : number;
}.

End DataModels.

(** ** [espp2/espp2.py]: the command-line wrapper

    The typer command [main].  Calls into typer, logging, json, pydantic and
    the engine are taken to behave as the interfaces the file is written
    against; where [main] does not look at a result it is a parameter.  The
    eager [--version] option is served by [version_callback] before [main]
    runs and is left out. *)

Module Cli.
Import Py DataModels.

(** [class BrokerEnum(str, Enum)]. *)
Inductive BrokerEnum := schwab | td | morgan.

(** pydantic 1's [Config.copy_on_model_validation]: what validating a field
    does with a value that is a model of the field's class already.  ['none']
    takes the object itself; ['shallow'], the default of pydantic 1.10, makes
    a new object on the same [__dict__]; ['deep'] makes a copy with attributes
    of its own. *)
Inductive CopyOnModelValidation := copy_none | copy_shallow | copy_deep.

(** Whether an assignment to an attribute of the validated model is seen
    through the model that was passed in. *)
Definition shares_attributes (c : CopyOnModelValidation) : bool :=
  match c with
  | copy_none | copy_shallow => true
  | copy_deep => false
  end.

(** A [typer.FileTextWrite] argument: the wrapper uses its [name] and writes
    one text to it. *)
Record FileTextWrite := { name : string }.

(** [logging.getLevelNamesMapping()]. *)
Definition getLevelNamesMapping : gmap string Z :=
  list_to_map
    [("CRITICAL", 50); ("FATAL", 50); ("ERROR", 40); ("WARN", 30);
     ("WARNING", 30); ("INFO", 20); ("DEBUG", 10); ("NOTSET", 0)].

Definition INFO : Z := 20.

Section Main.

(** The classes of [espp2.datamodels] that the wrapper passes along without
    looking inside, the input streams typer opens, and the object
    [json.loads] returns. *)
Context {Holdings Summary ReportBody FileBinaryRead FileText PyObject : Type}.

(** [TaxReport]: the wrapper reads [unmatched_wires]; the rest of the report
    is carried along. *)
Record TaxReport := {
  unmatched_wires : list Wire;
  report_body : ReportBody;
}.

(** What [do_taxes] returns when it does not return a [Holdings]: an object
    with the attributes [summary], [report] and [holdings]. *)
Record TaxReportReturn := {
  summary : Summary;
  report : TaxReport;
  holdings : Holdings;
}.

Inductive TaxResult :=
| is_Holdings (h : Holdings)
| is_TaxReportReturn (r : TaxReportReturn).

(** The [opening_balance] keyword argument handed to [do_taxes]: [None], the
    string as given (only the falsy, empty one gets this far), or the parsed
    [Holdings]. *)
Inductive OpeningBalance :=
| ob_None
| ob_str (s : string)
| ob_Holdings (h : Holdings).

(** The command's parameters, with typer's defaults ([None] as [None]). *)
Record Args := {
  transaction_files : list FileBinaryRead;
  output : option FileTextWrite;
  year : Z;
  broker : BrokerEnum;
  wires : option FileText;
  inholdings : option FileText;
  outholdings : option FileTextWrite;
  outwires : option FileTextWrite;
  verbose : bool;
  opening_balance : option string;
  loglevel : string;
}.

(** A text written to a file is [model.json(indent=4)] of one of three
    models; the text is represented by the model it serialises. *)
Inductive Json :=
| Holdings_json (h : Holdings)
| Wires_json (root : list Wire)
| TaxReport_json (r : TaxReport).

(** What a run does to the outside, in order. *)
Inductive Event :=
| ev_basicConfig (level : Z)
| ev_do_taxes (b : BrokerEnum) (files : list FileBinaryRead)
    (inholdings wires : option FileText) (year : Z) (verbose : bool)
    (opening_balance : OpeningBalance) (res : called TaxResult)
| ev_print_report (year : Z) (s : Summary) (r : TaxReport) (h : Holdings)
    (verbose : bool)
| ev_log_info (message : string)
| ev_write (f : FileTextWrite) (j : Json).

(** The foreign code [main] calls. *)
Variable json_loads : string -> called PyObject.
Variable parse_obj_as_Holdings : PyObject -> called Holdings.
Variable do_taxes :
  BrokerEnum -> list FileBinaryRead -> option FileText -> option FileText ->
  Z -> bool -> OpeningBalance -> called TaxResult.

(** What the wrapper asks of the pydantic that is installed.  The wrapper is
    written against pydantic 1 ([parse_obj_as], [.json(indent=4)],
    [Wires(__root__=...)]); the web endpoints use the same classes of
    [espp2.datamodels] through pydantic 2 ([TypeAdapter], [Wires(root=...)],
    [model_dump_json]).

    [json_raises j] is the exception [model.json(indent=4)] raises for the
    model of [j], if it raises one: pydantic 2 takes no [indent] there and
    raises [TypeError].  [Wires_raises ws] is the exception
    [Wires(__root__=ws)] raises, if any: pydantic 2 knows the field as [root]
    and raises a validation error. *)
Record Pydantic := {
  copy_on_model_validation : CopyOnModelValidation;
  json_raises : Json -> option ForeignError;
  Wires_raises : list Wire -> option ForeignError;
}.

Variable pydantic : Pydantic.

(** Runs: the events so far and how the run stands. *)
Definition M (A : Type) : Type := list Event * result A.

Definition ret {A} (a : A) : M A := ([], Return a).
Definition raise {A} (e : Exc) : M A := ([], Raise e).
Definition emit (ev : Event) : M unit := ([ev], Return tt).

Definition trace {A} (m : M A) : list Event := fst m.
Definition outcome {A} (m : M A) : result A := snd m.

Definition bind {A B} (m : M A) (k : A -> M B) : M B :=
  match m with
  | (t, Return a) => let (t', r) := k a in (t ++ t', r)
  | (t, Raise e) => (t, Raise e)
  end.

Notation "x <- m ;; k" := (bind m (fun x => k))
  (at level 100, m at next level, right associativity).
Notation "m ;;; k" := (bind m (fun _ => k))
  (at level 100, right associativity).

(** A foreign call that is not inside a [try]: its exception propagates. *)
Definition call {A} (c : called A) : M A :=
  match c with
  | Returned a => ret a
  | Raised e => raise (Foreign e)
  end.

(** [logger.info(...)]: a record is emitted when the level set by
    [basicConfig] lets INFO through. *)
Definition logger_info (level : Z) (message : string) : M unit :=
  if level <=? INFO then emit (ev_log_info message) else ret tt.

(** [result.report]: a [Holdings] has no such attribute. *)
Definition get_report (result : TaxResult) : M TaxReport :=
  match result with
  | is_TaxReportReturn r => ret (report r)
  | is_Holdings _ => raise (AttributeError "report")
  end.

(** [model.json(indent=4)]: the text, or the exception. *)
Definition dot_json (j : Json) : M Json :=
  match json_raises pydantic j with
  | None => ret j
  | Some e => raise (Foreign e)
  end.

(** The body of the loop at lines 74-76, on one wire: [abs] is the last thing
    it does, and may raise. *)
Definition normalise (w : Wire) : called Wire :=
  let w := {| wire_date := wire_date w; currency := currency w;
              nok_value := nan; value := value w |} in
  match abs (value w) with
  | Returned v =>
      Returned {| wire_date := wire_date w; currency := currency w;
                  nok_value := nok_value w; value := v |}
  | Raised e => Raised e
  end.

(** The loop at lines 74-76: the wires as it leaves them, or the exception
    that ends it. *)
Fixpoint loop (ws : list Wire) : called (list Wire) :=
  match ws with
  | [] => Returned []
  | w :: ws' =>
      match normalise w with
      | Returned w' =>
          match loop ws' with
          | Returned ws'' => Returned (w' :: ws'')
          | Raised e => Raised e
          end
      | Raised e => Raised e
      end
  end.

(** [result] after a loop that ran to its end: the wires of the report are
    the wires of [outw] when the two share their attributes, and are
    untouched when [outw] holds deep copies. *)
Definition after_loop (result : TaxResult) (outw : list Wire) : TaxResult :=
  if shares_attributes (copy_on_model_validation pydantic) then
    match result with
    | is_TaxReportReturn r =>
        is_TaxReportReturn
          {| summary := summary r;
             report := {| unmatched_wires := outw;
                          report_body := report_body (report r) |};
             holdings := holdings r |}
    | is_Holdings h => is_Holdings h
    end
  else result.

(** Lines 47-50: the level [basicConfig] is given. *)
Definition configure_logging (a : Args) : M Z :=
  level <- match getLevelNamesMapping !! loglevel a with
           | None => raise (BadParameter ("Invalid loglevel: " +:+ loglevel a))
           | Some l => ret l
           end ;;
  emit (ev_basicConfig level) ;;;
  ret level.

(** Lines 52-54: [opening_balance] as [do_taxes] gets it. *)
Definition read_opening_balance (a : Args) : M OpeningBalance :=
  match opening_balance a with
  | None => ret ob_None
  | Some s =>
      if truthy_str s then
        o <- call (json_loads s) ;;
        h <- call (parse_obj_as_Holdings o) ;;
        ret (ob_Holdings h)
      else ret (ob_str s)
  end.

(** Lines 58-63: the local [holdings] is bound in the first branch only;
    [None] stands for the unbound local. *)
Definition bind_holdings (a : Args) (result : TaxResult) : M (option Holdings) :=
  match result with
  | is_Holdings h => ret (Some h)
  | is_TaxReportReturn r =>
      emit (ev_print_report (year a) (summary r) (report r) (holdings r)
              (verbose a)) ;;;
      ret None
  end.

(** Lines 66-70. *)
Definition write_holdings (a : Args) (level : Z)
    (holdings_local : option Holdings) : M unit :=
  match outholdings a with
  | None => ret tt
  | Some f =>
      logger_info level ("Writing new holdings to " +:+ name f) ;;;
      h <- match holdings_local with
           | Some h => ret h
           | None => raise (UnboundLocalError "holdings")
           end ;;
      j <- dot_json (Holdings_json h) ;;
      emit (ev_write f j)
  end.

(** Lines 71-79; yields [result] as the loop leaves it. *)
Definition write_wires (a : Args) (level : Z) (result : TaxResult) : M TaxResult :=
  match outwires a with
  | None => ret result
  | Some f =>
      rep <- get_report result ;;
      if truthy_list (unmatched_wires rep) then
        logger_info level ("Writing unmatched wires to " +:+ name f) ;;;
        match Wires_raises pydantic (unmatched_wires rep) with
        | Some e => raise (Foreign e)
        | None =>
            outw <- call (loop (unmatched_wires rep)) ;;
            j <- dot_json (Wires_json outw) ;;
            emit (ev_write f j) ;;;
            ret (after_loop result outw)
        end
      else ret result
  end.

(** Lines 82-86. *)
Definition write_report (a : Args) (level : Z) (result : TaxResult) : M unit :=
  match output a with
  | None => ret tt
  | Some f =>
      rep <- get_report result ;;
      j <- dot_json (TaxReport_json rep) ;;
      logger_info level ("Writing tax report to: " +:+ name f) ;;;
      emit (ev_write f j)
  end.

(** Lines 58-86: [main] from the return of [do_taxes] on. *)
Definition after_do_taxes (a : Args) (level : Z) (result : TaxResult) : M unit :=
  holdings_local <- bind_holdings a result ;;
  write_holdings a level holdings_local ;;;
  result <- write_wires a level result ;;
  write_report a level result.

(** [main], lines 47-86. *)
Definition main (a : Args) : M unit :=
  level <- configure_logging a ;;
  ob <- read_opening_balance a ;;
  let res := do_taxes (broker a) (transaction_files a) (inholdings a) (wires a)
               (year a) (verbose a) ob in
  emit (ev_do_taxes (broker a) (transaction_files a) (inholdings a) (wires a)
          (year a) (verbose a) ob res) ;;;
  result <- call res ;;
  after_do_taxes a level result.

(** The unmatched-wires texts a run wrote. *)
Definition wires_written (t : list Event) : list (list Wire) :=
  omap (fun ev => match ev with
                  | ev_write _ (Wires_json ws) => Some ws
                  | _ => None
                  end) t.

(** [do_taxes] was called in the run of [main a] and returned [res]. *)
Definition do_taxes_returned (a : Args) (res : TaxResult) : Prop :=
  exists ob,
    In (ev_do_taxes (broker a) (transaction_files a) (inholdings a) (wires a)
          (year a) (verbose a) ob (Returned res)) (trace (main a)).

(** What the loop at lines 74-76 leaves of a wire [w] in [w']. *)
Definition sign_normalised (w w' : Wire) : Prop :=
  abs (value w) = Returned (value w') /\ nok_value w' = nan /\
  wire_date w' = wire_date w /\ currency w' = currency w.

(** The texts a run wrote, in order, each with its destination. *)
Definition writes (t : list Event) : list (FileTextWrite * Json) :=
  omap (fun ev => match ev with
                  | ev_write f j => Some (f, j)
                  | _ => None
                  end) t.

(** The calls of [do_taxes] in a run: the opening balance passed and how the
    call ended. *)
Definition do_taxes_calls (t : list Event)
    : list (OpeningBalance * called TaxResult) :=
  omap (fun ev => match ev with
                  | ev_do_taxes _ _ _ _ _ _ ob res => Some (ob, res)
                  | _ => None
                  end) t.

(** The records [logger.info] emitted in a run. *)
Definition info_records (t : list Event) : list string :=
  omap (fun ev => match ev with
                  | ev_log_info message => Some message
                  | _ => None
                  end) t.

End Main.

Arguments TaxReport : clear implicits.
Arguments TaxReportReturn : clear implicits.
Arguments TaxResult : clear implicits.
Arguments OpeningBalance : clear implicits.
Arguments Args : clear implicits.
Arguments Json : clear implicits.
Arguments Pydantic : clear implicits.
Arguments Event : clear implicits.

(** *** A concrete setting, for examples *)

(** A wire of 1250.50 paid out (negative), with a reporting-currency value
    already filled in. *)
Definition wire_out : Wire :=
  {| wire_date := {| DataModels.year := 2022; month := 3; day := 14 |};
     currency := "USD";
     nok_value := Finite {| coefficient := -1100440; exponent := -2 |};
     value := Finite {| coefficient := -125050; exponent := -2 |} |}.

(** A [do_taxes] that returns a report with that one unmatched wire. *)
Definition do_taxes_one_wire
    (_ : BrokerEnum) (_ : list unit) (_ _ : option unit) (_ : Z) (_ : bool)
    (_ : OpeningBalance unit) : called (TaxResult unit unit unit) :=
  Returned (is_TaxReportReturn
    {| summary := tt;
       report := {| unmatched_wires := [wire_out]; report_body := tt |};
       holdings := tt |}).

Definition no_json (_ : string) : called unit := Returned tt.
Definition no_parse (_ : unit) : called unit := Returned tt.

(** pydantic 1 with a given [copy_on_model_validation], on models that it
    serialises: the calls the wrapper makes return. *)
Definition pydantic_1 {Holdings ReportBody} (c : CopyOnModelValidation)
    : Pydantic Holdings ReportBody :=
  {| copy_on_model_validation := c;
     json_raises := fun _ => None;
     Wires_raises := fun _ => None |}.

(** pydantic 1.10 as it comes. *)
Definition pydantic_1_10 : Pydantic unit unit := pydantic_1 copy_shallow.

(** And set to copy a validated model in depth. *)
Definition pydantic_1_deep : Pydantic unit unit := pydantic_1 copy_deep.

(** pydantic 2: [.json(indent=4)] and [Wires(__root__=...)] raise. *)
Definition dumps_kwargs_TypeError : ForeignError :=
  {| is_Exception := true;
     str := "`dumps_kwargs` keyword arguments are no longer supported.";
     traceback := "" |}.

Definition root_ValidationError : ForeignError :=
  {| is_Exception := true;
     str := "1 validation error for Wires";
     traceback := "" |}.

Definition pydantic_2 : Pydantic unit unit :=
  {| copy_on_model_validation := copy_none;
     json_raises := fun _ => Some dumps_kwargs_TypeError;
     Wires_raises := fun _ => Some root_ValidationError |}.

(** A wire whose amount has more digits than the decimal context keeps, and
    a [do_taxes] that returns a report with it. *)
Definition wire_long : Wire :=
  {| wire_date := {| DataModels.year := 2022; month := 3; day := 14 |};
     currency := "USD";
     nok_value := Finite {| coefficient := 0; exponent := 0 |};
     value := Finite {| coefficient := -123456789012345678901234567890125;
                        exponent := -1 |} |}.

Definition do_taxes_long_wire
    (_ : BrokerEnum) (_ : list unit) (_ _ : option unit) (_ : Z) (_ : bool)
    (_ : OpeningBalance unit) : called (TaxResult unit unit unit) :=
  Returned (is_TaxReportReturn
    {| summary := tt;
       report := {| unmatched_wires := [wire_long]; report_body := tt |};
       holdings := tt |}).

(** [wire_out] as the loop leaves it. *)
Definition wire_out_normalised : Wire :=
  {| wire_date := {| DataModels.year := 2022; month := 3; day := 14 |};
     currency := "USD";
     nok_value := nan;
     value := Finite {| coefficient := 125050; exponent := -2 |} |}.

Definition args_outwires : Args unit unit :=
  {| transaction_files := [tt]; output := None; year := 2022; broker := schwab;
     wires := None; inholdings := None; outholdings := None;
     outwires := Some {| name := "wires.json" |}; verbose := false;
     opening_balance := None; loglevel := "WARNING" |}.

Definition args_outwires_output : Args unit unit :=
  {| transaction_files := [tt]; output := Some {| name := "report.json" |};
     year := 2022; broker := schwab; wires := None; inholdings := None;
     outholdings := None; outwires := Some {| name := "wires.json" |};
     verbose := false; opening_balance := None; loglevel := "INFO" |}.

(** A [do_taxes] that returns a report with no unmatched wire. *)
Definition do_taxes_no_wire
    (_ : BrokerEnum) (_ : list unit) (_ _ : option unit) (_ : Z) (_ : bool)
    (_ : OpeningBalance unit) : called (TaxResult unit unit unit) :=
  Returned (is_TaxReportReturn
    {| summary := tt;
       report := {| unmatched_wires := []; report_body := tt |};
       holdings := tt |}).

Definition args_outholdings_outwires : Args unit unit :=
  {| transaction_files := [tt]; output := None; year := 2022; broker := schwab;
     wires := None; inholdings := None;
     outholdings := Some {| name := "holdings.json" |};
     outwires := Some {| name := "wires.json" |}; verbose := false;
     opening_balance := None; loglevel := "WARNING" |}.

(** The default arguments but for a level name in lower case. *)
Definition args_loglevel_lower_case : Args unit unit :=
  {| transaction_files := [tt]; output := None; year := 2022; broker := schwab;
     wires := None; inholdings := None; outholdings := None; outwires := None;
     verbose := false; opening_balance := None; loglevel := "warning" |}.

(** An opening balance cut short, and a [json.loads] that refuses it. *)
Definition args_opening_balance_cut : Args unit unit :=
  {| transaction_files := [tt]; output := None; year := 2022; broker := schwab;
     wires := None; inholdings := None;
     outholdings := Some {| name := "holdings.json" |}; outwires := None;
     verbose := false; opening_balance := Some "{"; loglevel := "WARNING" |}.

Definition JSONDecodeError : ForeignError :=
  {| is_Exception := true;
     str := "Expecting property name enclosed in double quotes";
     traceback := "" |}.

Definition json_refuses (_ : string) : called unit := Raised JSONDecodeError.

(** An empty opening balance. *)
Definition args_opening_balance_empty : Args unit unit :=
  {| transaction_files := [tt]; output := None; year := 2022; broker := schwab;
     wires := None; inholdings := None; outholdings := None; outwires := None;
     verbose := false; opening_balance := Some EmptyString;
     loglevel := "WARNING" |}.

(** A [do_taxes] that raises. *)
Definition no_transactions : ForeignError :=
  {| is_Exception := true; str := "No transactions"; traceback := "" |}.

Definition do_taxes_raises
    (_ : BrokerEnum) (_ : list unit) (_ _ : option unit) (_ : Z) (_ : bool)
    (_ : OpeningBalance unit) : called (TaxResult unit unit unit) :=
  Raised no_transactions.

(** A [do_taxes] that returns a [Holdings]. *)
Definition do_taxes_returns_Holdings
    (_ : BrokerEnum) (_ : list unit) (_ _ : option unit) (_ : Z) (_ : bool)
    (_ : OpeningBalance unit) : called (TaxResult unit unit unit) :=
  Returned (is_Holdings tt).

Definition args_outholdings_output : Args unit unit :=
  {| transaction_files := [tt]; output := Some {| name := "report.json" |};
     year := 2022; broker := schwab; wires := None; inholdings := None;
     outholdings := Some {| name := "holdings.json" |}; outwires := None;
     verbose := false; opening_balance := None; loglevel := "WARNING" |}.

End Cli.

(** ** [espp2/web/main.py]: the web endpoints

    The five POST handlers and the two log-capture helpers.  The engine,
    [get_zipdata], [jsonable_encoder], [json.loads] and the pydantic
    validators are parameters; a call into the engine is a function of its
    arguments, and what it logs goes to its own loggers.  The static routes
    ([/bundle.js] and the mount of [public]) are left out. *)

Module Web.
Import Py DataModels.

(** The module-level [logger] with the handlers [capture_logs_start] adds to
    it, shared by every request the process serves.  [streams] holds the
    [StringIO] objects allocated so far; a handler is named by the index of
    its stream. *)
Record Logging := {
  handlers : list nat;
  streams : list string;
}.

(** The state of a freshly started server. *)
Definition fresh_logging : Logging := {| handlers := []; streams := [] |}.

(** The handlers on the logger are distinct and each writes to a stream that
    has been allocated. *)
Definition logging_ok (s : Logging) : Prop :=
  NoDup (handlers s) /\
  Forall (fun h => (h < length (streams s))%nat) (handlers s).

Section Endpoints.

(** The pydantic models and foreign objects the endpoints pass along:
    the four results of [do_taxes], the models parsed from form fields, the
    stream behind an upload, and the container [get_zipdata] builds. *)
Context {Holdings TaxReport Summary ExcelData ExpectedBalance Wires
         SpooledFile PyObject ZipData ZipStr : Type}.

(** [fastapi.UploadFile]: the endpoints read [filename] and [file]. *)
Record UploadFile := {
  filename : option string;
  file : SpooledFile;
}.

(** The [expected_balance] argument [do_holdings_2] gets: the validated model,
    or the form string itself when it is falsy. *)
Inductive ExpectedBalanceArg :=
| eb_str (s : string)
| eb_model (e : ExpectedBalance).

(** The [wires] argument [do_taxes] gets: likewise. *)
Inductive WiresArg :=
| wires_str (s : string)
| wires_model (w : Wires).

(** The contents handed to [get_zipdata]: a model dumped as JSON text
    ([model_dump_json(indent=4)], represented by the model), or the
    spreadsheet bytes as [do_taxes] returned them. *)
Inductive Content :=
| Holdings_json (h : Holdings)
| TaxReport_json (r : TaxReport)
| spreadsheet (x : ExcelData).

(** [ESPPResponse]. *)
Record ESPPResponse := {
  tax_report : TaxReport;
  holdings : Holdings;
  zip : ZipStr;
  summary : Summary;
  log : string;
}.

(** The calls into [espp2.main], with their arguments. *)
Inductive CoreCall :=
| call_do_holdings_1 (broker : string) (transaction_files : list UploadFile)
    (holdfile : option SpooledFile) (year : Z) (opening_balance : option Holdings)
| call_do_holdings_2 (broker : string) (transaction_files : list UploadFile)
    (year : Z) (expected_balance : ExpectedBalanceArg)
| call_do_holdings_3 (broker : string) (transaction_file : UploadFile)
    (year : Z) (expected_balance : ExpectedBalance)
| call_do_holdings_4 (broker : string) (transaction_file : UploadFile) (year : Z)
| call_do_taxes (broker : string) (transaction_file : UploadFile)
    (holdfile : option SpooledFile) (wires : WiresArg) (year : Z)
    (portfolio_engine : bool).

(** What a request does besides answering: calls into the core (with the
    exception, if one came back), the call of [get_zipdata], and the records
    passed to [logger.exception]. *)
Inductive Event :=
| ev_core (c : CoreCall) (raised : option ForeignError)
| ev_get_zipdata (files : list (string * Content))
| ev_logger_exception (e : ForeignError).

(** The foreign code the endpoints call. *)
Variable do_holdings_1 :
  string -> list UploadFile -> option SpooledFile -> Z -> option Holdings ->
  called Holdings.
Variable do_holdings_2 :
  string -> list UploadFile -> Z -> ExpectedBalanceArg -> called Holdings.
Variable do_holdings_3 :
  string -> UploadFile -> Z -> ExpectedBalance -> called Holdings.
Variable do_holdings_4 : string -> UploadFile -> Z -> called Holdings.
Variable do_taxes :
  string -> UploadFile -> option SpooledFile -> WiresArg -> Z -> bool ->
  called (TaxReport * Holdings * ExcelData * Summary).
Variable get_zipdata : list (string * Content) -> ZipData.
Variable jsonable_encoder : ZipData -> ZipStr.
Variable json_loads : string -> called PyObject.
Variable Wires_root : PyObject -> called Wires.
Variable validate_json_ExpectedBalance : string -> called ExpectedBalance.

(** A run of handler code from a logging state. *)
Record Run (A : Type) := {
  events : list Event;
  logging : Logging;
  outcome : result A;
}.
Arguments events {A} _.
Arguments logging {A} _.
Arguments outcome {A} _.

Definition M (A : Type) : Type := Logging -> Run A.

Definition ret {A} (a : A) : M A :=
  fun s => {| events := []; logging := s; outcome := Return a |}.
Definition raise {A} (e : Exc) : M A :=
  fun s => {| events := []; logging := s; outcome := Raise e |}.
Definition emit (ev : Event) : M unit :=
  fun s => {| events := [ev]; logging := s; outcome := Return tt |}.

Definition bind {A B} (m : M A) (k : A -> M B) : M B :=
  fun s =>
    match m s with
    | {| events := t; logging := s1; outcome := Return a |} =>
        match k a s1 with
        | {| events := t'; logging := s2; outcome := r |} =>
            {| events := t ++ t'; logging := s2; outcome := r |}
        end
    | {| events := t; logging := s1; outcome := Raise e |} =>
        {| events := t; logging := s1; outcome := Raise e |}
    end.

Notation "x <- m ;; k" := (bind m (fun x => k))
  (at level 100, m at next level, right associativity).
Notation "m ;;; k" := (bind m (fun _ => k))
  (at level 100, right associativity).

(** A foreign call outside any [try]. *)
Definition call {A} (c : called A) : M A :=
  match c with
  | Returned a => ret a
  | Raised e => raise (Foreign e)
  end.

(** The text one [logger.exception(e)] adds to a capturing stream: the record
    formatted with ["%(levelname)s: %(message)s"], the traceback on a line of
    its own, and the handler's terminator. *)
Definition ends_with_newline (s : string) : bool :=
  match rev (list_ascii_of_string s) with
  | c :: _ => Ascii.eqb c "010"%char
  | [] => false
  end.

Definition format_exception (e : ForeignError) : string :=
  let s := "ERROR: " +:+ str e in
  let s :=
    if truthy_str (traceback e) then
      (if ends_with_newline s then s else s +:+ String "010"%char "")
        +:+ traceback e
    else s in
  s +:+ String "010"%char "".

(** [capture_logs_start], lines 35-41. *)
Definition capture_logs_start : M nat :=
  fun s =>
    let log_handler := length (streams s) in
    {| events := [];
       logging := {| handlers := handlers s ++ [log_handler];
                     streams := streams s ++ [""] |};
       outcome := Return log_handler |}.

(** [list.remove]: the first occurrence goes. *)
Fixpoint remove_first (h : nat) (l : list nat) : list nat :=
  match l with
  | [] => []
  | x :: l' => if Nat.eqb x h then l' else x :: remove_first h l'
  end.

(** [capture_logs_stop], lines 43-47. *)
Definition capture_logs_stop (log_handler : nat) : M string :=
  fun s =>
    {| events := [];
       logging := {| handlers := remove_first log_handler (handlers s);
                     streams := streams s |};
       outcome := Return (default "" (streams s !! log_handler)) |}.

(** [logger.exception(e)]: every handler on the logger writes the record to
    its stream. *)
Definition logger_exception (e : ForeignError) : M unit :=
  fun s =>
    {| events := [ev_logger_exception e];
       logging :=
         {| handlers := handlers s;
            streams := foldr (fun h ss => alter (fun t => t +:+ format_exception e) h ss)
                         (streams s) (handlers s) |};
       outcome := Return tt |}.

(** [try: <core call> except Exception as e: logger.exception(e);
    raise HTTPException(status_code=500, detail=str(e)) from e]. *)
Definition try_core {A} (c : CoreCall) (res : called A) : M A :=
  match res with
  | Returned a => emit (ev_core c None) ;;; ret a
  | Raised e =>
      emit (ev_core c (Some e)) ;;;
      if is_Exception e then
        logger_exception e ;;;
        raise (HTTPException 500 (str e))
      else raise (Foreign e)
  end.

(** Lines 60-63 and 150-153: what [holdfile] is when the core is called. *)
Definition holdfile_stream (holdfile : option UploadFile) : option SpooledFile :=
  match holdfile with
  | Some u =>
      if bool_decide (filename u = Some "") then None else Some (file u)
  | None => None
  end.

(** [generate_holdings_1], lines 50-70. *)
Definition generate_holdings_1 (transaction_files : list UploadFile)
    (broker : string) (holdfile : option UploadFile) (year : Z) : M Holdings :=
  let opening_balance := None in
  let holdfile := holdfile_stream holdfile in
  try_core (call_do_holdings_1 broker transaction_files holdfile year opening_balance)
    (do_holdings_1 broker transaction_files holdfile year opening_balance).

(** [generate_holdings_2], lines 74-90. *)
Definition generate_holdings_2 (transaction_files : list UploadFile)
    (broker : string) (year : Z) (expected_balance : string) : M Holdings :=
  expected_balance <-
    (if truthy_str expected_balance then
       e <- call (validate_json_ExpectedBalance expected_balance) ;;
       ret (eb_model e)
     else ret (eb_str expected_balance)) ;;
  try_core (call_do_holdings_2 broker transaction_files year expected_balance)
    (do_holdings_2 broker transaction_files year expected_balance).

(** [generate_holdings_3], lines 94-113. *)
Definition generate_holdings_3 (transaction_file : UploadFile)
    (broker : string) (year : Z) (expected_balance : string) : M Holdings :=
  expected_balance <- call (validate_json_ExpectedBalance expected_balance) ;;
  try_core (call_do_holdings_3 broker transaction_file year expected_balance)
    (do_holdings_3 broker transaction_file year expected_balance).

(** [generate_holdings_4], lines 117-127. *)
Definition generate_holdings_4 (transaction_file : UploadFile)
    (broker : string) (year : Z) : M Holdings :=
  try_core (call_do_holdings_4 broker transaction_file year)
    (do_holdings_4 broker transaction_file year).

(** The list given to [get_zipdata], lines 163-169. *)
Definition zip_files (year : Z) (holdings : Holdings) (exceldata : ExcelData)
    : list (string * Content) :=
  [ ("espp-holdings-" +:+ pretty year +:+ ".json", Holdings_json holdings);
    ("espp-portfolio-" +:+ pretty year +:+ ".xlsx", spreadsheet exceldata) ].

(** [taxreport], lines 131-175.  [opening_balance] is [None] throughout, so
    the block at lines 146-148 never runs. *)
Definition taxreport (transaction_file : UploadFile) (broker : string)
    (holdfile : option UploadFile) (wires : string) (year : Z)
    : M ESPPResponse :=
  log_handler <- capture_logs_start ;;
  wires <-
    (if truthy_str wires then
       wires_list <- call (json_loads wires) ;;
       w <- call (Wires_root wires_list) ;;
       ret (wires_model w)
     else ret (wires_str wires)) ;;
  let holdfile := holdfile_stream holdfile in
  returned <-
    try_core (call_do_taxes broker transaction_file holdfile wires year true)
      (do_taxes broker transaction_file holdfile wires year true) ;;
  let '(report, holdings, exceldata, summary) := returned in
  let files := zip_files year holdings exceldata in
  emit (ev_get_zipdata files) ;;;
  let zipdata := get_zipdata files in
  let zipstr := jsonable_encoder zipdata in
  logstr <- capture_logs_stop log_handler ;;
  ret {| tax_report := report; holdings := holdings; zip := zipstr;
         summary := summary; log := logstr |}.

(** The routes of [app]. *)
Inductive Request :=
| POST_holdings_1 (transaction_files : list UploadFile) (broker : string)
    (holdfile : option UploadFile) (year : Z)
| POST_holdings_2 (transaction_files : list UploadFile) (broker : string)
    (year : Z) (expected_balance : string)
| POST_holdings_3 (transaction_file : UploadFile) (broker : string) (year : Z)
    (expected_balance : string)
| POST_holdings_4 (transaction_file : UploadFile) (broker : string) (year : Z)
| POST_taxreport (transaction_file : UploadFile) (broker : string)
    (holdfile : option UploadFile) (wires : string) (year : Z).

Inductive Response :=
| response_Holdings (h : Holdings)
| response_ESPPResponse (r : ESPPResponse).

Definition app (req : Request) : M Response :=
  match req with
  | POST_holdings_1 fs b hf y =>
      h <- generate_holdings_1 fs b hf y ;; ret (response_Holdings h)
  | POST_holdings_2 fs b y eb =>
      h <- generate_holdings_2 fs b y eb ;; ret (response_Holdings h)
  | POST_holdings_3 f b y eb =>
      h <- generate_holdings_3 f b y eb ;; ret (response_Holdings h)
  | POST_holdings_4 f b y =>
      h <- generate_holdings_4 f b y ;; ret (response_Holdings h)
  | POST_taxreport f b hf w y =>
      r <- taxreport f b hf w y ;; ret (response_ESPPResponse r)
  end.

(** Requests served by one process.  Every handler is an [async def] without
    an [await]: once the event loop has started one, it runs to its end
    before another starts.  Requests sent in parallel are therefore served
    one after the other, each from the logger as the one before left it, in
    the order the loop takes them up. *)
Fixpoint serve_in_turn (reqs : list Request) (s : Logging)
    : list (Run Response) :=
  match reqs with
  | [] => []
  | req :: rest =>
      let run := app req s in
      run :: serve_in_turn rest (logging run)
  end.

(** The calls into the core among the events of a run. *)
Definition core_calls (evs : list Event) : list (CoreCall * option ForeignError) :=
  omap (fun ev => match ev with
                  | ev_core c r => Some (c, r)
                  | _ => None
                  end) evs.

(** The bundles assembled in a run: the lists given to [get_zipdata]. *)
Definition bundles (evs : list Event) : list (list (string * Content)) :=
  omap (fun ev => match ev with
                  | ev_get_zipdata files => Some files
                  | _ => None
                  end) evs.

(** The kinds of artifact the spec names for the export bundle. *)
Inductive Artifact :=
| holdings_as_structured_text
| tabular_portfolio_export
| the_tax_report.

Definition artifact_of (c : Content) : Artifact :=
  match c with
  | Holdings_json _ => holdings_as_structured_text
  | spreadsheet _ => tabular_portfolio_export
  | TaxReport_json _ => the_tax_report
  end.

Definition artifacts (files : list (string * Content)) : list Artifact :=
  map (fun nc => artifact_of (snd nc)) files.

(** The holdings function of [espp2.main] that a recorded call names, applied
    to the arguments recorded. *)
Definition holdings_core (c : CoreCall) : option (called Holdings) :=
  match c with
  | call_do_holdings_1 b fs hf y ob => Some (do_holdings_1 b fs hf y ob)
  | call_do_holdings_2 b fs y eb => Some (do_holdings_2 b fs y eb)
  | call_do_holdings_3 b f y eb => Some (do_holdings_3 b f y eb)
  | call_do_holdings_4 b f y => Some (do_holdings_4 b f y)
  | call_do_taxes _ _ _ _ _ _ => None
  end.

(** The records passed to [logger.exception] in a run. *)
Definition logged_exceptions (evs : list Event) : list ForeignError :=
  omap (fun ev => match ev with
                  | ev_logger_exception e => Some e
                  | _ => None
                  end) evs.

End Endpoints.

Arguments UploadFile : clear implicits.
Arguments ExpectedBalanceArg : clear implicits.
Arguments WiresArg : clear implicits.
Arguments Content : clear implicits.
Arguments ESPPResponse : clear implicits.
Arguments CoreCall : clear implicits.
Arguments Event : clear implicits.
Arguments Run : clear implicits.
Arguments events {_ _ _ _ _ _ _} _.
Arguments logging {_ _ _ _ _ _ _} _.
Arguments outcome {_ _ _ _ _ _ _} _.
Arguments M : clear implicits.
Arguments Request : clear implicits.
Arguments Response : clear implicits.

(** *** A concrete setting, for examples *)

Definition upload_csv : UploadFile unit := {| filename := Some "schwab.csv"; file := tt |}.
Definition upload_empty : UploadFile unit := {| filename := Some ""; file := tt |}.

Definition short_history : ForeignError :=
  {| is_Exception := true;
     str := "Sale of 20 shares exceeds the 15 held";
     traceback := "Traceback (most recent call last): ..." |}.

Definition holdings_ok (_ : string) (_ : list (UploadFile unit)) (_ : option unit)
    (_ : Z) (_ : option unit) : called unit := Returned tt.
Definition holdings_2_ok (_ : string) (_ : list (UploadFile unit)) (_ : Z)
    (_ : ExpectedBalanceArg unit) : called unit := Returned tt.
Definition holdings_3_ok (_ : string) (_ : UploadFile unit) (_ : Z) (_ : unit)
    : called unit := Returned tt.
Definition holdings_4_short (_ : string) (_ : UploadFile unit) (_ : Z)
    : called unit := Raised short_history.
Definition taxes_ok (_ : string) (_ : UploadFile unit) (_ : option unit)
    (_ : WiresArg unit) (_ : Z) (_ : bool) : called (unit * unit * unit * unit) :=
  Returned (tt, tt, tt, tt).
Definition taxes_short (_ : string) (_ : UploadFile unit) (_ : option unit)
    (_ : WiresArg unit) (_ : Z) (_ : bool) : called (unit * unit * unit * unit) :=
  Raised short_history.

Definition zip_as_list (files : list (string * Content unit unit unit)) := files.
Definition encode_as_is (z : list (string * Content unit unit unit)) := z.
Definition loads_ok (_ : string) : called unit := Returned tt.
Definition root_ok (_ : unit) : called unit := Returned tt.
Definition validate_ok (_ : string) : called unit := Returned tt.

Definition serve_example :=
  app (Summary := unit) holdings_ok holdings_2_ok holdings_3_ok holdings_4_short
    taxes_ok zip_as_list encode_as_is loads_ok root_ok validate_ok.

Definition taxreport_example :=
  taxreport (Summary := unit) (ExpectedBalance := unit) taxes_ok zip_as_list encode_as_is loads_ok root_ok.

(** An error that does not derive from [Exception], and a core call it
    ends. *)
Definition KeyboardInterrupt : ForeignError :=
  {| is_Exception := false; str := ""; traceback := "" |}.

Definition holdings_interrupted (_ : string) (_ : list (UploadFile unit))
    (_ : option unit) (_ : Z) (_ : option unit) : called unit :=
  Raised KeyboardInterrupt.

Definition serve_interrupted :=
  app (Summary := unit) holdings_interrupted holdings_2_ok holdings_3_ok
    holdings_4_short taxes_ok zip_as_list encode_as_is loads_ok root_ok
    validate_ok.

(** Form fields that are not what they should be. *)
Definition not_json : ForeignError :=
  {| is_Exception := true; str := "Invalid JSON: EOF while parsing a value";
     traceback := "" |}.

Definition validate_refuses (_ : string) : called unit := Raised not_json.
Definition loads_refuses (_ : string) : called unit := Raised not_json.

Definition serve_refusing :=
  app (Summary := unit) holdings_ok holdings_2_ok holdings_3_ok
    holdings_4_short taxes_ok zip_as_list encode_as_is loads_refuses root_ok
    validate_refuses.

(** A server whose tax computation runs short of lots. *)
Definition serve_short :=
  app (Summary := unit) holdings_ok holdings_2_ok holdings_3_ok
    holdings_4_short taxes_short zip_as_list encode_as_is loads_ok root_ok
    validate_ok.

Definition serve_short_in_turn :=
  serve_in_turn (Summary := unit) holdings_ok holdings_2_ok holdings_3_ok
    holdings_4_short taxes_short zip_as_list encode_as_is loads_ok root_ok
    validate_ok.

(** The logger as a failed tax-report request on a fresh server leaves it. *)
Definition logging_after_failure : Logging :=
  {| handlers := [0%nat]; streams := [format_exception short_history] |}.

End Web.

(** ** The holdings engine, from the design document

    [espp2.main] and [espp2.datamodels] are not among the sources.  What
    follows is the lot ledger, the disposal matcher and the four
    reconstruction strategies as sections 3, 4.1 and 4.2 of the design
    document describe them. *)

Module Core.
Import DataModels.

(** [a] is not later than [b]. *)
Definition date_leb (a b : date) : bool :=
  (year a <? year b)
  || ((year a =? year b)
      && ((month a <? month b)
          || ((month a =? month b) && (day a <=? day b)))).

(** [a] is strictly earlier than [b]. *)
Definition date_ltb (a b : date) : bool := negb (date_leb b a).

(** Modelled from the spec: the class of acquisition lots in
    [espp2.datamodels] is not among the sources.  Section 3: "a quantity of a
    single security acquired on one date at one cost basis, in one currency,
    with the reporting-currency value fixed at acquisition"; its identity is
    "(security, acquisition-date, origin sequence number)".  Quantities are
    counted in whole units of the ledger's smallest share fraction. *)
Record Lot := {
  security : string;
  acquired : date;
  sequence : Z;
  quantity : Z;
  cost_basis : Py.Decimal;
  lot_currency : string;
  rate : Py.Decimal;
}.

(** Modelled from the spec: the transaction events of section 3, as the
    normaliser hands them over.  A deposit carries the lot it acquires; of the
    other events the engine below uses the security, the date and the
    quantity. *)
Inductive TransactionEvent :=
| Deposit (l : Lot)
| Sale (sec : string) (on : date) (qty : Z) (proceeds : Py.Decimal)
    (cur : string) (rate_on : Py.Decimal)
| Dividend (sec : string) (on : date) (amount : Py.Decimal)
| Tax_withholding (sec : string) (on : date) (amount : Py.Decimal)
| Wire_transfer_out (on : date) (amount : Py.Decimal).

(** Modelled from the spec: "LotLedger: a mapping from security identifier to
    an ordered sequence of Lots (acquisition-date ascending)". *)
Abbreviation LotLedger := (gmap string (list Lot)).

Definition lots_of (ledger : LotLedger) (sec : string) : list Lot :=
  default [] (ledger !! sec).

(** Modelled from the spec: a new lot takes its place in acquisition-date
    order, behind the lots already there of the same date (same-day
    acquisitions keep their order of arrival). *)
Fixpoint insert_lot (l : Lot) (lots : list Lot) : list Lot :=
  match lots with
  | [] => [l]
  | l' :: rest =>
      if date_leb (acquired l') (acquired l) then l' :: insert_lot l rest
      else l :: l' :: rest
  end.

Definition deposit (l : Lot) (ledger : LotLedger) : LotLedger :=
  <[security l := insert_lot l (lots_of ledger (security l))]> ledger.

Definition available (lots : list Lot) : Z :=
  foldr (fun l acc => quantity l + acc) 0 lots.

(** Modelled from the spec: section 4.2, "oldest-lot-first (FIFO) ordering:
    exhaust the earliest-dated Lot's remaining quantity before consuming the
    next.  Partial-lot consumption is permitted".  [fifo q lots] is what a
    sale of [q] takes from each lot of [lots], in ledger order. *)
Fixpoint fifo (q : Z) (lots : list Lot) : list Z :=
  match lots with
  | [] => []
  | l :: rest =>
      let take := Z.min q (quantity l) in
      take :: fifo (q - take) rest
  end.

(** A lot after [take] units have left it: gone when nothing remains. *)
Definition reduce (l : Lot) (take : Z) : option Lot :=
  if quantity l - take =? 0 then None
  else Some {| security := security l; acquired := acquired l;
               sequence := sequence l; quantity := quantity l - take;
               cost_basis := cost_basis l; lot_currency := lot_currency l;
               rate := rate l |}.

Fixpoint reduce_all (lots : list Lot) (takes : list Z) : list Lot :=
  match lots, takes with
  | l :: lots', t :: takes' =>
      match reduce l t with
      | Some l' => l' :: reduce_all lots' takes'
      | None => reduce_all lots' takes'
      end
  | _, _ => lots
  end.

(** The lots a sale was matched to, with the quantity taken from each. *)
Fixpoint matched (lots : list Lot) (takes : list Z) : list (Lot * Z) :=
  match lots, takes with
  | l :: lots', t :: takes' =>
      if 0 <? t then (l, t) :: matched lots' takes' else matched lots' takes'
  | _, _ => []
  end.

(** Modelled from the spec: the error kinds of section 7 that reconstruction
    and matching raise, with the context section 6 asks for. *)
Inductive EngineError :=
| IncompleteHistoryError (sec : string) (on : date) (shortfall : Z)
| BalanceMismatchError (sec : string) (delta : Z)
| InsufficientLotsError (sec : string) (on : date) (shortfall : Z).

(** Modelled from the spec: the disposal matcher of section 4.2 on one sale:
    the matched lots and the reduced ledger, or [InsufficientLotsError] with
    the exact shortfall when the sale exceeds what the ledger holds. *)
Definition match_sale (ledger : LotLedger) (sec : string) (on : date) (qty : Z)
    : EngineError + (list (Lot * Z) * LotLedger) :=
  let lots := lots_of ledger sec in
  if available lots <? qty then
    inl (InsufficientLotsError sec on (qty - available lots))
  else
    let takes := fifo qty lots in
    inr (matched lots takes, <[sec := reduce_all lots takes]> ledger).

(** Modelled from the spec: one event replayed into a ledger (section 4.1):
    a deposit adds its lot, a sale leaves oldest-lot-first and fails with
    [IncompleteHistoryError] when it "references more quantity than is
    present in the ledger at that point"; other events do not touch lots. *)
Definition apply_event (ledger : LotLedger) (ev : TransactionEvent)
    : EngineError + LotLedger :=
  match ev with
  | Deposit l => inr (deposit l ledger)
  | Sale sec on qty _ _ _ =>
      let lots := lots_of ledger sec in
      if available lots <? qty then
        inl (IncompleteHistoryError sec on (qty - available lots))
      else inr (<[sec := reduce_all lots (fifo qty lots)]> ledger)
  | _ => inr ledger
  end.

Fixpoint replay (ledger : LotLedger) (evs : list TransactionEvent)
    : EngineError + LotLedger :=
  match evs with
  | [] => inr ledger
  | ev :: evs' =>
      match apply_event ledger ev with
      | inr ledger' => replay ledger' evs'
      | inl e => inl e
      end
  end.

(** Modelled from the spec: "Holdings: a snapshot = LotLedger contents at a
    point in time ...  Carries a tax-year boundary timestamp." *)
Record Holdings := {
  as_of : date;
  ledger : LotLedger;
}.

(** Modelled from the spec: "ExpectedBalance: an externally supplied hint
    (security -> expected quantity at a reference date)". *)
Record ExpectedBalance := {
  reference_date : date;
  expected : list (string * Z);
}.

(** Modelled from the spec: section 9, the "tagged union over an explicit
    ReconstructionInput type" with one variant per strategy. *)
Inductive ReconstructionInput :=
| FullHistory (history : list TransactionEvent)
| PriorPlusIncremental (prior : Holdings) (incremental : list TransactionEvent)
| ExpectedBalanceAnchored (incremental : list TransactionEvent)
    (anchor : ExpectedBalance)
| SingleFileAuthoritative (history : list TransactionEvent).

(** The lots of a snapshot, each as the acquisition it was. *)
Definition acquisitions (h : Holdings) : list TransactionEvent :=
  map_to_list (ledger h) ≫= (fun kv => Deposit <$> kv.2).

Definition event_date (ev : TransactionEvent) : date :=
  match ev with
  | Deposit l => acquired l
  | Sale _ on _ _ _ _ => on
  | Dividend _ on _ => on
  | Tax_withholding _ on _ => on
  | Wire_transfer_out on _ => on
  end.

(** The first security of the anchor whose reconstructed quantity differs
    from the expected one, with the difference. *)
Fixpoint first_mismatch (ledger : LotLedger) (expected : list (string * Z))
    : option (string * Z) :=
  match expected with
  | [] => None
  | (sec, q) :: rest =>
      let have := available (lots_of ledger sec) in
      if have =? q then first_mismatch ledger rest else Some (sec, have - q)
  end.

(** The events dated up to a reference date, and those behind it. *)
Definition up_to (reference : date) (evs : list TransactionEvent)
    : list TransactionEvent :=
  filter (fun ev => date_leb (event_date ev) reference = true) evs.

Definition beyond (reference : date) (evs : list TransactionEvent)
    : list TransactionEvent :=
  filter (fun ev => date_leb (event_date ev) reference = false) evs.

(** Modelled from the spec: the four strategies of section 4.1.
    1. replay the whole history into an empty ledger;
    2. seed the ledger from the prior snapshot, "each lot becomes an
       acquisition at its original historical date/basis", then replay the
       incremental history;
    3. replay the incremental history forward from an empty ledger; at the
       reference date check the reconstructed quantities against the anchor
       "within zero tolerance; mismatch fails with BalanceMismatchError"; then
       replay what is dated behind the reference date;
    4. "replays as strategy 1". *)
Definition reconstruct (input : ReconstructionInput) : EngineError + LotLedger :=
  match input with
  | FullHistory history => replay ∅ history
  | PriorPlusIncremental prior incremental =>
      replay ∅ (acquisitions prior ++ incremental)
  | ExpectedBalanceAnchored incremental anchor =>
      match replay ∅ (up_to (reference_date anchor) incremental) with
      | inl e => inl e
      | inr at_reference =>
          match first_mismatch at_reference (expected anchor) with
          | Some (sec, delta) => inl (BalanceMismatchError sec delta)
          | None => replay at_reference (beyond (reference_date anchor) incremental)
          end
      end
  | SingleFileAuthoritative history => replay ∅ history
  end.

(** *** The same rules as a relation on runs

    A run of a strategy is a sequence of steps, one per event; the rules below
    say which steps the design document allows, without fixing how an
    implementation finds them. *)

(** Modelled from the spec: section 4.2 in its own words.  [takes] allots a
    sale of [q] to [lots] oldest lot first when it takes from every lot
    between nothing and what the lot holds ("partial-lot consumption is
    permitted"), the sale in total, and from a lot only once every lot before
    it is exhausted ("exhaust the earliest-dated Lot's remaining quantity
    before consuming the next"). *)
Record oldest_first (q : Z) (lots : list Lot) (takes : list Z) : Prop := {
  takes_each : length takes = length lots;
  takes_within : forall i l t,
    lots !! i = Some l -> takes !! i = Some t -> 0 <= t <= quantity l;
  takes_total : foldr Z.add 0 takes = q;
  takes_in_order : forall i j l t,
    (i < j)%nat -> lots !! i = Some l -> takes !! j = Some t -> 0 < t ->
    takes !! i = Some (quantity l);
}.

Inductive step : LotLedger -> TransactionEvent -> EngineError + LotLedger -> Prop :=
| step_deposit ledger l :
    step ledger (Deposit l) (inr (deposit l ledger))
| step_sale ledger sec on qty p c r takes :
    qty <= available (lots_of ledger sec) ->
    oldest_first qty (lots_of ledger sec) takes ->
    step ledger (Sale sec on qty p c r)
      (inr (<[sec := reduce_all (lots_of ledger sec) takes]> ledger))
| step_sale_short ledger sec on qty p c r :
    available (lots_of ledger sec) < qty ->
    step ledger (Sale sec on qty p c r)
      (inl (IncompleteHistoryError sec on (qty - available (lots_of ledger sec))))
| step_dividend ledger sec on a :
    step ledger (Dividend sec on a) (inr ledger)
| step_tax ledger sec on a :
    step ledger (Tax_withholding sec on a) (inr ledger)
| step_wire ledger on a :
    step ledger (Wire_transfer_out on a) (inr ledger).

Inductive replays : LotLedger -> list TransactionEvent -> EngineError + LotLedger -> Prop :=
| replays_done ledger : replays ledger [] (inr ledger)
| replays_next ledger ev ledger' evs out :
    step ledger ev (inr ledger') ->
    replays ledger' evs out ->
    replays ledger (ev :: evs) out
| replays_fail ledger ev e evs :
    step ledger ev (inl e) ->
    replays ledger (ev :: evs) (inl e).

(** The anchor agrees with a ledger: every expected quantity is the one the
    ledger holds. *)
Definition reconciles (ledger : LotLedger) (anchor : ExpectedBalance) : Prop :=
  Forall (fun sq => available (lots_of ledger sq.1) = sq.2) (expected anchor).

Inductive reconstructs : ReconstructionInput -> EngineError + LotLedger -> Prop :=
| reconstructs_full history out :
    replays ∅ history out ->
    reconstructs (FullHistory history) out
| reconstructs_prior prior incremental out :
    replays ∅ (acquisitions prior ++ incremental) out ->
    reconstructs (PriorPlusIncremental prior incremental) out
| reconstructs_anchored incremental anchor at_reference out :
    replays ∅ (up_to (reference_date anchor) incremental) (inr at_reference) ->
    reconciles at_reference anchor ->
    replays at_reference (beyond (reference_date anchor) incremental) out ->
    reconstructs (ExpectedBalanceAnchored incremental anchor) out
| reconstructs_anchored_short incremental anchor e :
    replays ∅ (up_to (reference_date anchor) incremental) (inl e) ->
    reconstructs (ExpectedBalanceAnchored incremental anchor) (inl e)
| reconstructs_anchored_mismatch incremental anchor at_reference sec q :
    replays ∅ (up_to (reference_date anchor) incremental) (inr at_reference) ->
    In (sec, q) (expected anchor) ->
    available (lots_of at_reference sec) <> q ->
    reconstructs (ExpectedBalanceAnchored incremental anchor)
      (inl (BalanceMismatchError sec (available (lots_of at_reference sec) - q)))
| reconstructs_single history out :
    replays ∅ history out ->
    reconstructs (SingleFileAuthoritative history) out.

(** Ledger invariants: lots in acquisition-date order, each holding a positive
    quantity. *)
Definition ascending (lots : list Lot) : Prop :=
  forall i j li lj,
    (i < j)%nat -> lots !! i = Some li -> lots !! j = Some lj ->
    date_leb (acquired li) (acquired lj) = true.

Definition positive (lots : list Lot) : Prop :=
  Forall (fun l => 0 < quantity l) lots.

(** A ledger is well formed when every security's lots are in date order and
    hold positive quantities. *)
Definition well_formed (ledger : LotLedger) : Prop :=
  forall sec, ascending (lots_of ledger sec) /\ positive (lots_of ledger sec).

(** An event is well formed when the quantity it moves is positive. *)
Definition sound_event (ev : TransactionEvent) : Prop :=
  match ev with
  | Deposit l => 0 < quantity l
  | Sale _ _ qty _ _ _ => 0 < qty
  | _ => True
  end.

(** The inputs of a strategy are well formed when their events are and the
    lots of the prior snapshot hold positive quantities. *)
Definition sound_input (input : ReconstructionInput) : Prop :=
  match input with
  | FullHistory history => Forall sound_event history
  | PriorPlusIncremental prior incremental =>
      Forall sound_event (acquisitions prior) /\ Forall sound_event incremental
  | ExpectedBalanceAnchored incremental _ => Forall sound_event incremental
  | SingleFileAuthoritative history => Forall sound_event history
  end.

(** *** The example of the design document *)

Definition usd_100 : Py.Decimal := {| Py.coefficient := 100; Py.exponent := 0 |}.
Definition usd_150 : Py.Decimal := {| Py.coefficient := 150; Py.exponent := 0 |}.
Definition rate_1 : Py.Decimal := {| Py.coefficient := 1; Py.exponent := 0 |}.

Definition lot_2020 : Lot :=
  {| security := "ACME"; acquired := {| year := 2020; month := 1; day := 1 |};
     sequence := 0; quantity := 10; cost_basis := usd_100;
     lot_currency := "USD"; rate := rate_1 |}.

Definition lot_2021 : Lot :=
  {| security := "ACME"; acquired := {| year := 2021; month := 1; day := 1 |};
     sequence := 1; quantity := 10; cost_basis := usd_150;
     lot_currency := "USD"; rate := rate_1 |}.

(** What is left of the 2021 lot after the sale. *)
Definition lot_2021_left : Lot :=
  {| security := "ACME"; acquired := {| year := 2021; month := 1; day := 1 |};
     sequence := 1; quantity := 5; cost_basis := usd_150;
     lot_currency := "USD"; rate := rate_1 |}.

Definition sale_date : date := {| year := 2022; month := 6; day := 1 |}.

(** The two lots deposited in either order. *)
Definition ledger_2020_2021 : LotLedger := deposit lot_2021 (deposit lot_2020 ∅).
Definition ledger_2021_2020 : LotLedger := deposit lot_2020 (deposit lot_2021 ∅).

(** A history of the example: both lots, then the sale. *)
Definition history_example : list TransactionEvent :=
  [Deposit lot_2020; Deposit lot_2021;
   Sale "ACME" sale_date 15 usd_150 "USD" rate_1].

End Core.

(** ** Python floats and JSON text

    [float], [repr] and the [json] module belong to Python, not to the
    repository; they are modelled here because a snapshot written by the
    command-line wrapper goes through them: pydantic 1 hands a [Decimal] with
    fraction digits to [json.dumps] as a [float]. *)

Module PyFloat.
Import Py.

(** A Python [float], an IEEE 754 binary64 number: [mantissa * 2 ^ exp2]
    with its sign apart, an infinity, or a NaN.  A finite one is kept in the
    one form binary64 has for it: [mantissa < 2 ^ 53], [-1074 <= exp2 <= 971],
    and [2 ^ 52 <= mantissa] unless [exp2 = -1074]. *)
Inductive float :=
| finite (negative : bool) (mantissa exp2 : Z)
| infinity (negative : bool)
| not_a_number.

(** The integer part of the binary logarithm of [n / d], both positive. *)
Definition log2_ratio (n d : Z) : Z :=
  let e0 := Z.log2 n - Z.log2 d in
  if (if 0 <=? e0 then d * 2 ^ e0 <=? n else d <=? n * 2 ^ (- e0))
  then e0 else e0 - 1.

(** The binary64 number nearest to [n / d], a tie going to the even
    mantissa; [n] is not negative and [d] is positive.  What lies beyond the
    largest finite number by half a unit or more is an infinity. *)
Definition round_to_float (negative : bool) (n d : Z) : float :=
  if n =? 0 then finite negative 0 (-1074)
  else
    let ex := Z.max (log2_ratio n d - 52) (-1074) in
    let q := if 0 <=? ex then round_half_even n (d * 2 ^ ex)
             else round_half_even (n * 2 ^ (- ex)) d in
    let '(q, ex) := if q =? 2 ^ 53 then (2 ^ 52, ex + 1) else (q, ex) in
    if 971 <? ex then infinity negative else finite negative q ex.

(** [float(d)] for a [Decimal]: [float(str(d))], correctly rounded. *)
Definition float_of_Decimal (d : Decimal) : float :=
  let c := Z.abs (coefficient d) in
  let negative := coefficient d <? 0 in
  if 0 <=? exponent d then round_to_float negative (c * 10 ^ exponent d) 1
  else round_to_float negative c (10 ^ (- exponent d)).

(** The integer part of the decimal logarithm of [n / d], both positive. *)
Definition log10_ratio (n d : Z) : Z :=
  let j0 := ndigits n - ndigits d in
  if (if 0 <=? j0 then d * 10 ^ j0 <=? n else d <=? n * 10 ^ (- j0))
  then j0 else j0 - 1.

(** [n] without its trailing zeros, and how many there were. *)
Fixpoint strip_zeros (fuel : nat) (n x : Z) : Z * Z :=
  match fuel with
  | O => (n, x)
  | S fuel' =>
      if (n =? 0) || negb (n mod 10 =? 0) then (n, x)
      else strip_zeros fuel' (n / 10) (x + 1)
  end.

(** The digits of [repr(f)] for a positive finite [f = m * 2 ^ e2]: the
    shortest decimal [digits * 10 ^ x] that [float] reads back as [f], and
    among the shortest the one nearest to [f].  Seventeen digits always do;
    the search checks each candidate it returns. *)
Section Repr.
Variable m e2 : Z.

Let P : Z := if 0 <=? e2 then m * 2 ^ e2 else m.
Let Q : Z := if 0 <=? e2 then 1 else 2 ^ (- e2).

Definition reads_back (digits x : Z) : bool :=
  match float_of_Decimal {| coefficient := digits; exponent := x |} with
  | finite false m' e2' => (m' =? m) && (e2' =? e2)
  | _ => false
  end.

Definition candidate (k : Z) : option (Z * Z) :=
  let x := log10_ratio P Q - k + 1 in
  let N := if 0 <=? x then P else P * 10 ^ (- x) in
  let D := if 0 <=? x then Q * 10 ^ x else Q in
  let lo := N / D in
  let r := N mod D in
  let hi := lo + 1 in
  match reads_back lo x, reads_back hi x with
  | true, true =>
      if (2 * r <? D) || ((2 * r =? D) && Z.even lo) then Some (lo, x)
      else Some (hi, x)
  | true, false => Some (lo, x)
  | false, true => Some (hi, x)
  | false, false => None
  end.

Fixpoint shortest (fuel : nat) (k : Z) : Z * Z :=
  match fuel with
  | O => if 0 <=? e2 then (m * 2 ^ e2, 0) else (m * 5 ^ (- e2), e2)
  | S fuel' =>
      match candidate k with
      | Some dx => dx
      | None => shortest fuel' (k + 1)
      end
  end.

Definition repr_digits : Z * Z :=
  let '(digits, x) := shortest 17 1 in
  strip_zeros (Z.to_nat (ndigits digits)) digits x.

End Repr.

(** [Decimal(str(f))] for a finite [f].  [str] writes [digits] with the point
    at [decpt]: in exponent form when [decpt] is below -3 or above 16, else
    in full, with [.0] after an integer. *)
Definition Decimal_of_str (f : float) : option Decimal :=
  match f with
  | finite negative m e2 =>
      if m =? 0 then Some {| coefficient := 0; exponent := -1 |}
      else
        let '(digits, x) := repr_digits m e2 in
        let k := ndigits digits in
        let decpt := x + k in
        let sign := if negative then -1 else 1 in
        if (-4 <? decpt) && (decpt <=? 16) && (k <=? decpt) then
          Some {| coefficient := sign * digits * 10 ^ (decpt - k + 1);
                  exponent := -1 |}
        else Some {| coefficient := sign * digits; exponent := x |}
  | _ => None
  end.

(** [f] is in the form binary64 has for it. *)
Definition is_binary64 (f : float) : bool :=
  match f with
  | finite _ m e2 =>
      (0 <=? m) && (m <? 2 ^ 53) && (-1074 <=? e2) && (e2 <=? 971)
      && ((2 ^ 52 <=? m) || (e2 =? -1074))
  | _ => true
  end.

(** [int(f)]: the integer part, for a finite [f]. *)
Definition int_of_float (f : float) : option Z :=
  match f with
  | finite negative m e2 =>
      let n := if 0 <=? e2 then m * 2 ^ e2 else m / 2 ^ (- e2) in
      Some (if negative then - n else n)
  | _ => None
  end.

End PyFloat.

Module Json.
Import Py PyFloat.

(** A JSON document as Python has it, what [json.dumps] takes and
    [json.loads] returns: [None], a [bool], an [int], a [float], a [str], a
    [list], or a [dict] with its items in their order.  A [str] is held as
    its UTF-8 bytes. *)
#[local] Unset Elimination Schemes.
Inductive json :=
| JNull
| JBool (b : bool)
| JInt (n : Z)
| JFloat (f : float)
| JString (s : string)
| JArray (items : list json)
| JObject (fields : list (string * json)).
#[local] Set Elimination Schemes.

(** [obj[name]]. *)
Fixpoint field (name : string) (fields : list (string * json)) : option json :=
  match fields with
  | [] => None
  | (k, v) :: rest => if String.eqb k name then Some v else field name rest
  end.

(** *** Characters *)

Definition code (c : ascii) : Z := Z.of_nat (nat_of_ascii c).
Definition chr (n : Z) : ascii := ascii_of_nat (Z.to_nat n).

Definition digit (n : Z) : ascii := chr (48 + n).

Definition digit_value (c : ascii) : option Z :=
  let n := code c in
  if (48 <=? n) && (n <=? 57) then Some (n - 48) else None.

Definition hex_digit (n : Z) : ascii :=
  if n <? 10 then chr (48 + n) else chr (87 + n).

Definition hex_value (c : ascii) : option Z :=
  let n := code c in
  if (48 <=? n) && (n <=? 57) then Some (n - 48)
  else if (97 <=? n) && (n <=? 102) then Some (n - 87)
  else if (65 <=? n) && (n <=? 70) then Some (n - 55)
  else None.

(** A code point as UTF-8 bytes (a lone surrogate too, which a [str] can
    hold). *)
Definition utf8 (cp : Z) : list ascii :=
  if cp <? 128 then [chr cp]
  else if cp <? 2048 then [chr (192 + cp / 64); chr (128 + cp mod 64)]
  else if cp <? 65536 then
    [chr (224 + cp / 4096); chr (128 + cp / 64 mod 64); chr (128 + cp mod 64)]
  else
    [chr (240 + cp / 262144); chr (128 + cp / 4096 mod 64);
     chr (128 + cp / 64 mod 64); chr (128 + cp mod 64)].

Definition continuation (c : ascii) : option Z :=
  let n := code c in
  if (128 <=? n) && (n <? 192) then Some (n - 128) else None.

(** The first code point of UTF-8 bytes, and the bytes after it; a byte that
    starts no code point stands for itself. *)
Definition next_code_point (s : list ascii) : option (Z * list ascii) :=
  match s with
  | [] => None
  | c :: rest =>
      let n := code c in
      let alone := Some (n, rest) in
      if n <? 192 then alone
      else if n <? 224 then
        match rest with
        | c1 :: rest1 =>
            match continuation c1 with
            | Some v1 => Some ((n - 192) * 64 + v1, rest1)
            | None => alone
            end
        | _ => alone
        end
      else if n <? 240 then
        match rest with
        | c1 :: c2 :: rest2 =>
            match continuation c1, continuation c2 with
            | Some v1, Some v2 => Some ((n - 224) * 4096 + v1 * 64 + v2, rest2)
            | _, _ => alone
            end
        | _ => alone
        end
      else
        match rest with
        | c1 :: c2 :: c3 :: rest3 =>
            match continuation c1, continuation c2, continuation c3 with
            | Some v1, Some v2, Some v3 =>
                Some ((n - 240) * 262144 + v1 * 4096 + v2 * 64 + v3, rest3)
            | _, _, _ => alone
            end
        | _ => alone
        end
  end.

(** *** [json.dumps(obj, indent=4)] *)

Definition text (l : list ascii) : string := string_of_list_ascii l.
Definition chars (s : string) : list ascii := list_ascii_of_string s.

(** [\uXXXX]. *)
Definition quote : ascii := "034"%char.
Definition backslash : ascii := "092"%char.

Definition u_escape (n : Z) : list ascii :=
  [backslash; "u"%char] ++ [hex_digit (n / 4096); hex_digit (n / 256 mod 16);
                  hex_digit (n / 16 mod 16); hex_digit (n mod 16)].

(** One character of a string, as [ensure_ascii] writes it. *)
Definition escape (cp : Z) : list ascii :=
  if cp =? 34 then [backslash; quote]
  else if cp =? 92 then [backslash; backslash]
  else if cp =? 10 then [backslash; "n"%char]
  else if cp =? 13 then [backslash; "r"%char]
  else if cp =? 9 then [backslash; "t"%char]
  else if cp =? 8 then [backslash; "b"%char]
  else if cp =? 12 then [backslash; "f"%char]
  else if (32 <=? cp) && (cp <=? 126) then [chr cp]
  else if cp <? 65536 then u_escape cp
  else
    let v := cp - 65536 in
    u_escape (55296 + v / 1024) ++ u_escape (56320 + v mod 1024).

Fixpoint escape_all (fuel : nat) (s : list ascii) : list ascii :=
  match fuel with
  | O => []
  | S fuel' =>
      match next_code_point s with
      | None => []
      | Some (cp, rest) => escape cp ++ escape_all fuel' rest
      end
  end.

Definition string_text (s : string) : list ascii :=
  let l := chars s in
  [quote] ++ escape_all (length l) l ++ [quote].

(** [str(n)] for an [int]. *)
Definition int_text (n : Z) : list ascii := chars (pretty n).

Definition zeros (n : Z) : list ascii := replicate (Z.to_nat n) "0"%char.

(** [repr(f)], and what [json.dumps] writes for a float that is not
    finite. *)
Definition float_text (f : float) : list ascii :=
  match f with
  | finite negative m e2 =>
      let sign := if negative then ["-"%char] else [] in
      if m =? 0 then sign ++ chars "0.0"
      else
        let '(digits, x) := repr_digits m e2 in
        let ds := int_text digits in
        let k := Z.of_nat (length ds) in
        let decpt := x + k in
        if (-4 <? decpt) && (decpt <=? 16) then
          if decpt <=? 0 then sign ++ chars "0." ++ zeros (- decpt) ++ ds
          else if decpt <? k then
            sign ++ take (Z.to_nat decpt) ds ++ ["."%char]
              ++ drop (Z.to_nat decpt) ds
          else sign ++ ds ++ zeros (decpt - k) ++ chars ".0"
        else
          let e := decpt - 1 in
          sign ++ take 1 ds
            ++ (if 1 <? k then ["."%char] ++ drop 1 ds else [])
            ++ ["e"%char] ++ (if e <? 0 then ["-"%char] else ["+"%char])
            ++ (if Z.abs e <? 10 then ["0"%char] else [])
            ++ int_text (Z.abs e)
  | infinity false => chars "Infinity"
  | infinity true => chars "-Infinity"
  | not_a_number => chars "NaN"
  end.

Definition newline_indent (level : nat) : list ascii :=
  ["010"%char] ++ replicate (4 * level) " "%char.

(** [sep.join(items)]. *)
Fixpoint join (sep : list ascii) (items : list (list ascii)) : list ascii :=
  match items with
  | [] => []
  | [item] => item
  | item :: rest => item ++ sep ++ join sep rest
  end.

(** Items one to a line, a comma after each but the last. *)
Definition lines (level : nat) (items : list (list ascii)) : list ascii :=
  newline_indent (S level)
    ++ join (","%char :: newline_indent (S level)) items
    ++ newline_indent level.

Fixpoint dumps_at (level : nat) (j : json) : list ascii :=
  match j with
  | JNull => chars "null"
  | JBool true => chars "true"
  | JBool false => chars "false"
  | JInt n => int_text n
  | JFloat f => float_text f
  | JString s => string_text s
  | JArray [] => chars "[]"
  | JArray items =>
      ["["%char] ++ lines level (map (dumps_at (S level)) items) ++ ["]"%char]
  | JObject [] => chars "{}"
  | JObject fields =>
      ["{"%char]
        ++ lines level
             (map (fun kv => string_text (fst kv) ++ chars ": "
                               ++ dumps_at (S level) (snd kv)) fields)
        ++ ["}"%char]
  end.

Definition dumps (j : json) : string := text (dumps_at 0 j).

(** *** [json.loads(s)] *)

Definition is_whitespace (c : ascii) : bool :=
  let n := code c in (n =? 32) || (n =? 9) || (n =? 10) || (n =? 13).

Fixpoint skip_whitespace (s : list ascii) : list ascii :=
  match s with
  | c :: rest => if is_whitespace c then skip_whitespace rest else s
  | [] => []
  end.

(** The digits [s] starts with: their value, their number, and the rest. *)
Fixpoint take_digits (s : list ascii) (acc : Z) (n : Z) : Z * Z * list ascii :=
  match s with
  | c :: rest =>
      match digit_value c with
      | Some v => take_digits rest (10 * acc + v) (n + 1)
      | None => (acc, n, s)
      end
  | [] => (acc, n, s)
  end.

(** [sys.int_info.default_max_str_digits]: [int] reads no more digits. *)
Definition max_str_digits : Z := 4300.

(** The integer part of a number: a zero, or digits that do not start with
    a zero; its value, the number of its digits, and the rest. *)
Definition scan_integer (s : list ascii) : option (Z * Z * list ascii) :=
  match s with
  | c :: rest =>
      match digit_value c with
      | Some 0 => Some (0, 1, rest)
      | Some _ => Some (take_digits s 0 0)
      | None => None
      end
  | [] => None
  end.

(** The fraction, if one follows: a point and digits; their value and their
    number. *)
Definition scan_fraction (s : list ascii) : option (Z * Z) * list ascii :=
  match s with
  | "."%char :: rest =>
      let '(f, nf, rest') := take_digits rest 0 0 in
      if 0 <? nf then (Some (f, nf), rest') else (None, s)
  | _ => (None, s)
  end.

(** The exponent, if one follows: [e] or [E], a sign or none, digits. *)
Definition scan_exponent (s : list ascii) : option Z * list ascii :=
  let exponent_of (rest : list ascii) (neg : bool) :=
    let '(e, ne, rest') := take_digits rest 0 0 in
    if 0 <? ne then Some (if neg then - e else e, rest') else None in
  match s with
  | c :: rest =>
      if (code c =? 101) || (code c =? 69) then
        let signed :=
          match rest with
          | "-"%char :: rest' => exponent_of rest' true
          | "+"%char :: rest' => exponent_of rest' false
          | _ => exponent_of rest false
          end in
        match signed with
        | Some (e, rest') => (Some e, rest')
        | None => (None, s)
        end
      else (None, s)
  | [] => (None, s)
  end.

(** [float(text)] for the text of a number with the integer part [i], the
    fraction [f] of [nf] digits and the exponent [e]. *)
Definition float_of_parts (negative : bool) (i f nf e : Z) : float :=
  round_to_float negative
    (if 0 <=? e - nf then (i * 10 ^ nf + f) * 10 ^ (e - nf) else i * 10 ^ nf + f)
    (if 0 <=? e - nf then 1 else 10 ^ (nf - e)).

(** A number without its sign. *)
Definition scan_unsigned (negative : bool) (s : list ascii)
    : option (option json * list ascii) :=
  match scan_integer s with
  | None => None
  | Some (i, ni, s2) =>
      let '(frac, s3) := scan_fraction s2 in
      let '(exp, s4) := scan_exponent s3 in
      match frac, exp with
      | None, None =>
          if max_str_digits <? ni then Some (None, s4)
          else Some (Some (JInt (if negative then - i else i)), s4)
      | _, _ =>
          let '(f, nf) := default (0, 0) frac in
          Some (Some (JFloat (float_of_parts negative i f nf (default 0 exp))),
                s4)
      end
  end.

(** A number, as the scanner matches it: an optional minus sign, then a
    zero or digits that do not start with a zero, then, each optional, a
    point with digits after it and an exponent; an [int] without fraction and
    exponent, else a [float].  [None] when [s] starts with no number; a
    number [int] refuses gives no document. *)
Definition scan_number (s : list ascii) : option (option json * list ascii) :=
  match s with
  | "-"%char :: rest => scan_unsigned true rest
  | _ => scan_unsigned false s
  end.

Definition hex4 (s : list ascii) : option (Z * list ascii) :=
  match s with
  | a :: b :: c :: d :: rest =>
      match hex_value a, hex_value b, hex_value c, hex_value d with
      | Some a, Some b, Some c, Some d =>
          Some (a * 4096 + b * 256 + c * 16 + d, rest)
      | _, _, _, _ => None
      end
  | _ => None
  end.

(** A string after its opening quote: the characters up to the closing
    quote, escapes resolved; a control character ends the scan in an
    error. *)
Fixpoint scan_string (fuel : nat) (s : list ascii) : option (list ascii * list ascii) :=
  match fuel with
  | O => None
  | S fuel' =>
      match s with
      | [] => None
      | c :: rest =>
          if code c =? 34 then Some ([], rest)
          else if code c =? 92 then
            match rest with
            | [] => None
            | e :: rest' =>
                let plain (cp : Z) :=
                  match scan_string fuel' rest' with
                  | Some (str, rest'') => Some (utf8 cp ++ str, rest'')
                  | None => None
                  end in
                let n := code e in
                if n =? 34 then plain 34
                else if n =? 92 then plain 92
                else if n =? 47 then plain 47
                else if n =? 98 then plain 8
                else if n =? 102 then plain 12
                else if n =? 110 then plain 10
                else if n =? 114 then plain 13
                else if n =? 116 then plain 9
                else if n =? 117 then
                  match hex4 rest' with
                  | None => None
                  | Some (hi, rest1) =>
                      let alone :=
                        match scan_string fuel' rest1 with
                        | Some (str, rest'') => Some (utf8 hi ++ str, rest'')
                        | None => None
                        end in
                      if (55296 <=? hi) && (hi <=? 56319) then
                        match rest1 with
                        | b :: u :: rest2 =>
                            if (code b =? 92) && (code u =? 117) then
                              match hex4 rest2 with
                              | Some (lo, rest3) =>
                                  if (56320 <=? lo) && (lo <=? 57343) then
                                    match scan_string (Nat.pred (Nat.pred fuel')) rest3 with
                                    | Some (str, rest'') =>
                                        Some (utf8 (65536 + (hi - 55296) * 1024
                                                      + (lo - 56320)) ++ str,
                                              rest'')
                                    | None => None
                                    end
                                  else alone
                              | None => alone
                              end
                            else alone
                        | _ => alone
                        end
                      else alone
                  end
                else None
            end
          else if code c <? 32 then None
          else
            match scan_string fuel' rest with
            | Some (str, rest') => Some (c :: str, rest')
            | None => None
            end
      end
  end.

Fixpoint starts_with (p s : list ascii) : option (list ascii) :=
  match p, s with
  | [], _ => Some s
  | a :: p', b :: s' => if Ascii.eqb a b then starts_with p' s' else None
  | _ :: _, [] => None
  end.

(** [dict(pairs)]: a key that comes again keeps its place and takes the
    later value. *)
Fixpoint set_item (k : string) (v : json) (fields : list (string * json))
    : list (string * json) :=
  match fields with
  | [] => [(k, v)]
  | (k', v') :: rest =>
      if String.eqb k' k then (k', v) :: rest else (k', v') :: set_item k v rest
  end.

(** The items of a list after the first bracket, [scan] reading one value:
    values with commas between them, up to the closing bracket. *)
Fixpoint scan_items (scan : list ascii -> option (json * list ascii))
    (n : nat) (s : list ascii) (acc : list json)
    : option (json * list ascii) :=
  match n with
  | O => None
  | S n' =>
      match scan s with
      | None => None
      | Some (v, rest) =>
          match skip_whitespace rest with
          | c :: rest' =>
              if code c =? 93 then Some (JArray (rev (v :: acc)), rest')
              else if code c =? 44 then
                scan_items scan n' (skip_whitespace rest') (v :: acc)
              else None
          | [] => None
          end
      end
  end.

(** The items of a dict after the first brace: a string, a colon and a value
    each, with commas between them, up to the closing brace. *)
Fixpoint scan_pairs (scan : list ascii -> option (json * list ascii))
    (n : nat) (s : list ascii) (acc : list (string * json))
    : option (json * list ascii) :=
  match n with
  | O => None
  | S n' =>
      match s with
      | q :: s1 =>
          if code q =? 34 then
            match scan_string (length s1) s1 with
            | None => None
            | Some (k, s2) =>
                match skip_whitespace s2 with
                | c :: s3 =>
                    if code c =? 58 then
                      match scan (skip_whitespace s3) with
                      | None => None
                      | Some (v, s4) =>
                          let acc' := set_item (text k) v acc in
                          match skip_whitespace s4 with
                          | d :: s5 =>
                              if code d =? 125 then Some (JObject acc', s5)
                              else if code d =? 44 then
                                scan_pairs scan n' (skip_whitespace s5) acc'
                              else None
                          | [] => None
                          end
                      end
                    else None
                | [] => None
                end
            end
          else None
      | [] => None
      end
  end.

(** A value that is neither a string, a list nor a dict. *)
Definition scan_constant (s : list ascii) : option (json * list ascii) :=
  match starts_with (chars "null") s with
  | Some rest' => Some (JNull, rest')
  | None =>
  match starts_with (chars "true") s with
  | Some rest' => Some (JBool true, rest')
  | None =>
  match starts_with (chars "false") s with
  | Some rest' => Some (JBool false, rest')
  | None =>
  match scan_number s with
  | Some (Some v, rest') => Some (v, rest')
  | Some (None, _) => None
  | None =>
  match starts_with (chars "NaN") s with
  | Some rest' => Some (JFloat not_a_number, rest')
  | None =>
  match starts_with (chars "Infinity") s with
  | Some rest' => Some (JFloat (infinity false), rest')
  | None =>
  match starts_with (chars "-Infinity") s with
  | Some rest' => Some (JFloat (infinity true), rest')
  | None => None
  end end end end end end end.

(** One value, and the text after it. *)
Fixpoint scan_once (fuel : nat) (s : list ascii) : option (json * list ascii) :=
  match fuel with
  | O => None
  | S fuel' =>
      match s with
      | [] => None
      | c :: rest =>
          let n := code c in
          if n =? 34 then
            match scan_string (length rest) rest with
            | Some (str, rest') => Some (JString (text str), rest')
            | None => None
            end
          else if n =? 123 then
            match skip_whitespace rest with
            | d :: rest' =>
                if code d =? 125 then Some (JObject [], rest')
                else scan_pairs (scan_once fuel') (length rest)
                       (skip_whitespace rest) []
            | [] => None
            end
          else if n =? 91 then
            match skip_whitespace rest with
            | d :: rest' =>
                if code d =? 93 then Some (JArray [], rest')
                else scan_items (scan_once fuel') (length rest)
                       (skip_whitespace rest) []
            | [] => None
            end
          else scan_constant s
      end
  end.

(** [json.loads(s)]: one value between whitespace and nothing else; [None]
    when the call raises. *)
Definition loads (s : string) : option json :=
  let l := skip_whitespace (chars s) in
  match scan_once (S (length l)) l with
  | Some (v, rest) =>
      match skip_whitespace rest with
      | [] => Some v
      | _ :: _ => None
      end
  | None => None
  end.

(** *** The documents [json.loads] reads as [json.dumps] wrote them *)

Definition is_digit (c : ascii) : bool := (48 <=? code c) && (code c <=? 57).

(** The number a row of digits stands for, after the digits of [acc]. *)
Definition digits_value (l : list ascii) (acc : Z) : Z :=
  fold_left (fun a c => 10 * a + (code c - 48)) l acc.

(** What follows a value in the text [json.dumps] writes: nothing, a comma,
    or the line break before a closing bracket. *)
Definition delimited (rest : list ascii) : Prop :=
  match rest with
  | [] => True
  | c :: _ => c = ","%char \/ c = "010"%char
  end.

Definition is_surrogate (cp : Z) : bool := (55296 <=? cp) && (cp <=? 57343).

(** The bytes are the UTF-8 form of a [str] that holds no surrogate. *)
Fixpoint is_utf8 (fuel : nat) (l : list ascii) : bool :=
  match fuel with
  | O => match l with [] => true | _ :: _ => false end
  | S fuel' =>
      match next_code_point l with
      | None => true
      | Some (cp, rest) =>
          bool_decide (utf8 cp ++ rest = l) && negb (is_surrogate cp)
          && (cp <? 1114112) && is_utf8 fuel' rest
      end
  end.

Definition is_str (s : string) : bool :=
  let l := chars s in is_utf8 (length l) l.

(** The text of [n] has no more digits than [int] reads. *)
Definition within_max_str_digits (n : Z) : bool :=
  Z.of_nat (length (int_text (Z.abs n))) <=? max_str_digits.

(** A document of numbers [int] reads and binary64 has, of strings without
    surrogates, and of objects that have every key once. *)
Fixpoint well_formed (j : json) : bool :=
  match j with
  | JNull | JBool _ => true
  | JInt n => within_max_str_digits n
  | JFloat f => is_binary64 f
  | JString s => is_str s
  | JArray items => forallb well_formed items
  | JObject fields =>
      bool_decide (NoDup (map fst fields))
      && forallb (fun kv => is_str (fst kv) && well_formed (snd kv)) fields
  end.

End Json.

(** ** Holdings snapshots as JSON documents *)

Module Snapshot.
Import DataModels Core PyFloat Json.

(** *** Dates as ISO 8601 text, [date.isoformat] and [date.fromisoformat] *)

Definition is_leap (y : Z) : bool :=
  (y mod 4 =? 0) && (negb (y mod 100 =? 0) || (y mod 400 =? 0)).

Definition days_in_month (y m : Z) : Z :=
  if m =? 2 then (if is_leap y then 29 else 28)
  else if (m =? 4) || (m =? 6) || (m =? 9) || (m =? 11) then 30
  else 31.

(** The dates [datetime.date] can hold. *)
Definition valid_date (d : date) : bool :=
  (1 <=? year d) && (year d <=? 9999) && (1 <=? month d) && (month d <=? 12)
  && (1 <=? day d) && (day d <=? days_in_month (year d) (month d)).

Definition isoformat (d : date) : string :=
  String (digit (year d / 1000))
    (String (digit (year d / 100 mod 10))
       (String (digit (year d / 10 mod 10))
          (String (digit (year d mod 10))
             (String "-"
                (String (digit (month d / 10))
                   (String (digit (month d mod 10))
                      (String "-"
                         (String (digit (day d / 10))
                            (String (digit (day d mod 10)) "" ))))))))).

Definition fromisoformat (s : string) : option date :=
  match s with
  | String y1 (String y2 (String y3 (String y4 (String "-"
      (String m1 (String m2 (String "-" (String d1 (String d2 "")))))))))  =>
      y1 ← digit_value y1; y2 ← digit_value y2; y3 ← digit_value y3;
      y4 ← digit_value y4; m1 ← digit_value m1; m2 ← digit_value m2;
      d1 ← digit_value d1; d2 ← digit_value d2;
      let d := {| year := 1000 * y1 + 100 * y2 + 10 * y3 + y4;
                  month := 10 * m1 + m2; day := 10 * d1 + d2 |} in
      if valid_date d then Some d else None
  | _ => None
  end.

(** *** Field by field

    Writing is pydantic 1's [pydantic_encoder], which [.json()] gives to
    [json.dumps] as its [default]; reading is the validator of the field's
    type.  The validators are modelled on the values the encoder produces for
    the type, and refuse the rest: an [int] or [Decimal] field is not read out
    of a string here, nor a date out of a number, though pydantic would try. *)

Definition dump_int (z : Z) : json := JInt z.

(** [int(v)] of a number. *)
Definition load_int (j : json) : option Z :=
  match j with
  | JInt n => Some n
  | JBool b => Some (if b then 1 else 0)
  | JFloat f => int_of_float f
  | _ => None
  end.

(** [decimal_encoder]: a [Decimal] without fraction digits is written as an
    [int], any other as a [float]. *)
Definition dump_decimal (d : Py.Decimal) : json :=
  if 0 <=? Py.exponent d then JInt (Py.coefficient d * 10 ^ Py.exponent d)
  else JFloat (float_of_Decimal d).

(** [decimal_validator]: [Decimal(str(v))], which must be finite. *)
Definition load_decimal (j : json) : option Py.Decimal :=
  match j with
  | JInt n => Some {| Py.coefficient := n; Py.exponent := 0 |}
  | JFloat f => Decimal_of_str f
  | _ => None
  end.

Definition load_str (j : json) : option string :=
  match j with
  | JString s => Some s
  | _ => None
  end.

Definition load_date (j : json) : option date :=
  match j with
  | JString s => fromisoformat s
  | _ => None
  end.

(** Modelled from the spec: the serialised form of a lot and of a holdings
    snapshot.  [espp2.datamodels] is not among the sources; section 6 asks
    for "a stable structured format (field-named, not positional)", which is
    what pydantic's [.json()] and [parse_obj_as] give for a model: an object
    with one member per field, under the field's name. *)
Definition Lot_dict (l : Lot) : json :=
  JObject
    [("security", JString (security l));
     ("acquired", JString (isoformat (acquired l)));
     ("sequence", dump_int (sequence l));
     ("quantity", dump_int (quantity l));
     ("cost_basis", dump_decimal (cost_basis l));
     ("lot_currency", JString (lot_currency l));
     ("rate", dump_decimal (rate l))].

Definition parse_obj_as_Lot (j : json) : option Lot :=
  match j with
  | JObject fields =>
      sec ← field "security" fields ≫= load_str;
      acq ← field "acquired" fields ≫= load_date;
      seq ← field "sequence" fields ≫= load_int;
      qty ← field "quantity" fields ≫= load_int;
      basis ← field "cost_basis" fields ≫= load_decimal;
      cur ← field "lot_currency" fields ≫= load_str;
      r ← field "rate" fields ≫= load_decimal;
      Some {| security := sec; acquired := acq; sequence := seq;
              quantity := qty; cost_basis := basis; lot_currency := cur;
              rate := r |}
  | _ => None
  end.

Definition lots_dict (lots : list Lot) : json := JArray (Lot_dict <$> lots).

Definition parse_lots (j : json) : option (list Lot) :=
  match j with
  | JArray items => mapM parse_obj_as_Lot items
  | _ => None
  end.

Definition ledger_dict (ledger : LotLedger) : json :=
  JObject (prod_map id lots_dict <$> map_to_list ledger).

Definition parse_ledger (j : json) : option LotLedger :=
  match j with
  | JObject fields =>
      list_to_map <$>
        mapM (fun kv => lots ← parse_lots kv.2; Some (kv.1, lots)) fields
  | _ => None
  end.

(** [holdings.dict()] as the encoder leaves it: what [json.dumps] is given. *)
Definition Holdings_dict (h : Holdings) : json :=
  JObject
    [("as_of", JString (isoformat (as_of h)));
     ("ledger", ledger_dict (ledger h))].

(** [holdings.json(indent=4)], the text line 68 of [espp2.py] writes to
    [outholdings]. *)
Definition Holdings_json_text (h : Holdings) : string :=
  dumps (Holdings_dict h).

(** [parse_obj_as(Holdings, obj)]. *)
Definition parse_obj_as_Holdings (j : json) : option Holdings :=
  match j with
  | JObject fields =>
      d ← field "as_of" fields ≫= load_date;
      l ← field "ledger" fields ≫= parse_ledger;
      Some {| as_of := d; ledger := l |}
  | _ => None
  end.

(** [json.loads(s)] as a call: a text that is no JSON document raises. *)
Definition JSONDecodeError : Py.ForeignError :=
  {| Py.is_Exception := true;
     Py.str := "Expecting value";
     Py.traceback := "" |}.

Definition json_loads (s : string) : Py.called json :=
  match loads s with
  | Some j => Py.Returned j
  | None => Py.Raised JSONDecodeError
  end.

(** [parse_obj_as(Holdings, obj)] as a call: a document that is no snapshot
    raises pydantic's validation error. *)
Definition ValidationError : Py.ForeignError :=
  {| Py.is_Exception := true;
     Py.str := "validation error for Holdings";
     Py.traceback := "" |}.

Definition call_parse_obj_as_Holdings (j : json) : Py.called Holdings :=
  match parse_obj_as_Holdings j with
  | Some h => Py.Returned h
  | None => Py.Raised ValidationError
  end.

(** Lines 53 and 54 of [espp2.py] on the text of an opening balance:
    [parse_obj_as(Holdings, json.loads(opening_balance))]. *)
Definition read_back (s : string) : Py.called Holdings :=
  match json_loads s with
  | Py.Returned j => call_parse_obj_as_Holdings j
  | Py.Raised e => Py.Raised e
  end.

(** The snapshots the datamodel can hold: every date in them is a date. *)
Definition valid_lot (l : Lot) : Prop := valid_date (acquired l) = true.

Definition valid_holdings (h : Holdings) : Prop :=
  valid_date (as_of h) = true /\
  forall sec lots, ledger h !! sec = Some lots -> Forall valid_lot lots.

(** *** What comes back of a snapshot *)

(** A decimal amount, written and read: through an [int] when it has no
    fraction digits, through a [float] and its [repr] when it has. *)
Definition through_json (d : Py.Decimal) : option Py.Decimal :=
  load_decimal (dump_decimal d).

(** The amount comes back, and as the number it was. *)
Definition survives (d : Py.Decimal) : bool :=
  match through_json d with
  | Some d' => Py.same_number (Py.Finite d) (Py.Finite d')
  | None => false
  end.

(** [l'] is [l] with its two amounts taken through JSON. *)
Definition Lot_through_json (l l' : Lot) : Prop :=
  security l' = security l /\ acquired l' = acquired l /\
  sequence l' = sequence l /\ quantity l' = quantity l /\
  lot_currency l' = lot_currency l /\
  through_json (cost_basis l) = Some (cost_basis l') /\
  through_json (rate l) = Some (rate l').

(** [h'] is [h] with every amount taken through JSON: the same boundary date
    and, under every security, the same lots in the same order. *)
Definition Holdings_through_json (h h' : Holdings) : Prop :=
  as_of h' = as_of h /\
  forall sec,
    option_Forall2 (Forall2 Lot_through_json) (ledger h !! sec) (ledger h' !! sec).

(** Equality of snapshots as Python has it: [Decimal.__eq__] compares
    numbers, [Decimal('150.00') == Decimal('150')]. *)
Definition equal_Lot (l l' : Lot) : Prop :=
  security l' = security l /\ acquired l' = acquired l /\
  sequence l' = sequence l /\ quantity l' = quantity l /\
  lot_currency l' = lot_currency l /\
  Py.same_number (Py.Finite (cost_basis l)) (Py.Finite (cost_basis l')) = true /\
  Py.same_number (Py.Finite (rate l)) (Py.Finite (rate l')) = true.

Definition equal_Holdings (h h' : Holdings) : Prop :=
  as_of h' = as_of h /\
  forall sec,
    option_Forall2 (Forall2 equal_Lot) (ledger h !! sec) (ledger h' !! sec).

(** Every amount of the snapshot survives. *)
Definition amounts_survive (h : Holdings) : Prop :=
  forall sec lots, ledger h !! sec = Some lots ->
    Forall (fun l => survives (cost_basis l) = true /\ survives (rate l) = true)
      lots.

(** *** The example of the design document *)

(** The holdings the example of the design document ends the year with. *)
Definition holdings_2022 : Holdings :=
  {| as_of := {| year := 2022; month := 12; day := 31 |};
     ledger := {["ACME" := [lot_2021_left]]} |}.

(** The same holdings with amounts as a broker and a central bank give them:
    a cost basis in cents and a rate of four fraction digits. *)
Definition lot_2021_cents : Lot :=
  {| security := "ACME";
     acquired := {| year := 2021; month := 1; day := 1 |};
     sequence := 1; quantity := 5;
     cost_basis := {| Py.coefficient := 15075; Py.exponent := -2 |};
     lot_currency := "USD";
     rate := {| Py.coefficient := 98765; Py.exponent := -4 |} |}.

Definition holdings_2022_cents : Holdings :=
  {| as_of := {| year := 2022; month := 12; day := 31 |};
     ledger := {["ACME" := [lot_2021_cents]]} |}.

(** And with a rate of nineteen fraction digits, 0.1234567890123456789: a
    quotient of two decimals has up to twenty-eight. *)
Definition lot_2021_long_rate : Lot :=
  {| security := "ACME";
     acquired := {| year := 2021; month := 1; day := 1 |};
     sequence := 1; quantity := 5;
     cost_basis := {| Py.coefficient := 15075; Py.exponent := -2 |};
     lot_currency := "USD";
     rate := {| Py.coefficient := 1234567890123456789; Py.exponent := -19 |} |}.

Definition holdings_2022_long_rate : Holdings :=
  {| as_of := {| year := 2022; month := 12; day := 31 |};
     ledger := {["ACME" := [lot_2021_long_rate]]} |}.

(** What is read back of it: the rate has become 0.12345678901234568. *)
Definition lot_2021_long_rate_back : Lot :=
  {| security := "ACME";
     acquired := {| year := 2021; month := 1; day := 1 |};
     sequence := 1; quantity := 5;
     cost_basis := {| Py.coefficient := 15075; Py.exponent := -2 |};
     lot_currency := "USD";
     rate := {| Py.coefficient := 12345678901234568; Py.exponent := -17 |} |}.

Definition holdings_2022_long_rate_back : Holdings :=
  {| as_of := {| year := 2022; month := 12; day := 31 |};
     ledger := {["ACME" := [lot_2021_long_rate_back]]} |}.

(** A [do_taxes] that returns the opening balance it was given, or the
    example's holdings. *)
Definition do_taxes_holdings
    (_ : Cli.BrokerEnum) (_ : list unit) (_ _ : option unit) (_ : Z) (_ : bool)
    (ob : Cli.OpeningBalance Holdings) : Py.called (Cli.TaxResult Holdings unit unit) :=
  match ob with
  | Cli.ob_Holdings h => Py.Returned (Cli.is_Holdings h)
  | _ => Py.Returned (Cli.is_Holdings holdings_2022)
  end.

(** A run whose opening balance is the text an earlier run wrote for the
    holdings [h]. *)
Definition args_opening_balance (h : Holdings) : Cli.Args unit unit :=
  {| Cli.transaction_files := [tt]; Cli.output := None; Cli.year := 2023;
     Cli.broker := Cli.schwab; Cli.wires := None; Cli.inholdings := None;
     Cli.outholdings := Some {| Cli.name := "holdings_2023.json" |};
     Cli.outwires := None; Cli.verbose := false;
     Cli.opening_balance := Some (Holdings_json_text h);
     Cli.loglevel := "WARNING" |}.

End Snapshot.

(* ===================================================================== *)
(** * Part II: properties                                                 *)
(* ===================================================================== *)

(** ** The command-line wrapper *)

Module CliProps.
Import Py DataModels Cli.

(** *** [abs] in the decimal context *)

Lemma ndigits_fuel_zero fuel n : n <= 0 -> ndigits_fuel fuel n = 0.
Proof. intros Hn. destruct fuel; simpl; [done|]. by rewrite (proj2 (Z.leb_le _ _)). Qed.

Lemma ndigits_fuel_spec fuel n :
  0 < n < 2 ^ Z.of_nat fuel ->
  1 <= ndigits_fuel fuel n /\
  10 ^ (ndigits_fuel fuel n - 1) <= n < 10 ^ ndigits_fuel fuel n.
Proof.
  revert n. induction fuel as [|fuel IH]; intros n Hn.
  - simpl in Hn. lia.
  - cbn [ndigits_fuel]. rewrite (proj2 (Z.leb_gt _ _)) by lia.
    destruct (Z.eq_dec (n / 10) 0) as [H0 | H0].
    + rewrite H0, ndigits_fuel_zero by lia.
      assert (n < 10) by (apply Z.div_small_iff in H0; lia).
      simpl. lia.
    + assert (0 < n / 10) as Hpos.
      { pose proof (Z.div_pos n 10). lia. }
      assert (n / 10 < 2 ^ Z.of_nat fuel) as Hlt.
      { rewrite Nat2Z.inj_succ, Z.pow_succ_r in Hn by lia.
        apply Z.div_lt_upper_bound; lia. }
      destruct (IH (n / 10) (conj Hpos Hlt)) as (Hk & Hlo & Hhi).
      set (k := ndigits_fuel fuel (n / 10)) in *.
      split; [lia|].
      replace (1 + k - 1) with (Z.succ (k - 1)) by lia.
      replace (1 + k) with (Z.succ k) by lia.
      rewrite !Z.pow_succ_r by lia.
      pose proof (Z.div_mod n 10). pose proof (Z.mod_pos_bound n 10). lia.
Qed.

Lemma ndigits_spec n :
  0 < n -> 1 <= ndigits n /\ 10 ^ (ndigits n - 1) <= n < 10 ^ ndigits n.
Proof.
  intros Hn. apply ndigits_fuel_spec. split; [done|].
  rewrite Nat2Z.inj_succ, Z2Nat.id by (apply Z.log2_nonneg).
  apply Z.log2_spec. done.
Qed.

Lemma round_half_even_bound n d :
  0 <= n -> 0 < d ->
  0 <= round_half_even n d /\
  2 * Z.abs (round_half_even n d * d - n) <= d.
Proof.
  intros Hn Hd. unfold round_half_even.
  pose proof (Z.div_mod n d ltac:(lia)) as Hdm.
  pose proof (Z.mod_pos_bound n d Hd) as Hr.
  pose proof (Z.div_pos n d Hn Hd) as Hq.
  set (q := n / d) in *. set (r := n mod d) in *.
  destruct ((d <? 2 * r) || ((2 * r =? d) && Z.odd q)) eqn:Hup.
  - assert (d <= 2 * r).
    { apply orb_true_iff in Hup as [H|H]; [apply Z.ltb_lt in H; lia|].
      apply andb_true_iff in H as [H _]. apply Z.eqb_eq in H. lia. }
    split; [lia|]. nia.
  - apply orb_false_iff in Hup as [H _]. apply Z.ltb_ge in H.
    split; [lia|]. nia.
Qed.

Lemma Decimal_fix_spec c e d :
  0 <= c ->
  Decimal_fix c e = Returned d ->
  0 <= coefficient d /\
  within_half_unit (Finite {| coefficient := c; exponent := e |}) (Finite d) /\
  (fits_context (Finite {| coefficient := c; exponent := e |}) = true ->
   d = {| coefficient := c; exponent := e |}).
Proof.
  intros Hc. unfold Decimal_fix, within_half_unit, fits_context.
  cbn [coefficient exponent]. rewrite (Z.abs_eq c) by done.
  destruct (Z.eqb_spec c 0) as [-> | Hne].
  - intros [= <-]. cbn [coefficient exponent]. split; [done|]. split.
    + rewrite !Z.mul_0_l. simpl. apply Z.pow_nonneg. lia.
    + intros [H1 H2]%andb_true_iff. apply Z.leb_le in H1, H2.
      f_equal. lia.
  - assert (0 < c) as Hpos by lia.
    destruct (ndigits_spec c Hpos) as (Hnd & Hlo & Hhi).
    set (nd := ndigits c) in *.
    destruct (Z.ltb_spec Etop (nd + e - prec)) as [Hover | Hok]; [done|].
    set (exp_min := Z.max (nd + e - prec) Etiny).
    destruct (Z.ltb_spec e exp_min) as [Hround | Hkeep].
    + set (D := 10 ^ (exp_min - e)).
      assert (0 < D) as HD by (apply Z.pow_pos_nonneg; lia).
      destruct (round_half_even_bound c D Hc HD) as [Hq Hb].
      set (c' := round_half_even c D) in *.
      assert (10 ^ nd <= 10 ^ prec * D) as Hscale.
      { unfold D. rewrite <- Z.pow_add_r by (unfold prec; lia).
        apply Z.pow_le_mono_r; lia. }
      assert (c' <= 10 ^ prec) as Hle.
      { assert (0 < 10 ^ prec) by (apply Z.pow_pos_nonneg; unfold prec; lia).
        nia. }
      destruct (Z.leb_spec (10 ^ prec) c') as [Hcarry | Hno].
      * assert (c' = 10 ^ prec) as Heq by lia.
        destruct (Z.ltb_spec Etop (exp_min + 1)); [done|].
        intros [= <-]. cbn [coefficient exponent].
        rewrite Heq. change (10 ^ prec / 10) with (10 ^ 27).
        split; [by apply Z.pow_nonneg|]. split.
        -- rewrite Z.min_l by lia. rewrite Z.sub_diag, Z.mul_1_r.
           replace (exp_min + 1 - e) with (Z.succ (exp_min - e)) by lia.
           rewrite Z.pow_succ_r by lia. fold D.
           change (10 ^ prec) with (10 ^ 27 * 10) in Heq. nia.
        -- intros [[H1 H2]%andb_true_iff _]%andb_true_iff.
           apply Z.leb_le in H1, H2. lia.
      * destruct (Z.ltb_spec Etop exp_min); [done|].
        intros [= <-]. cbn [coefficient exponent]. split; [done|]. split.
        -- rewrite Z.min_l by lia. rewrite Z.sub_diag, Z.mul_1_r. fold D. done.
        -- intros [[H1 H2]%andb_true_iff _]%andb_true_iff.
           apply Z.leb_le in H1, H2. lia.
    + intros [= <-]. cbn [coefficient exponent]. split; [done|]. split.
      * rewrite Z.min_id, Z.sub_diag, Z.sub_diag. simpl. lia.
      * done.
Qed.

Lemma abs_spec x y :
  abs x = Returned y ->
  is_negative y = false /\
  within_half_unit (exact_abs x) y /\
  (fits_context x = true -> y = exact_abs x).
Proof.
  destruct x as [[c e]|]; cbn [abs coefficient exponent].
  - destruct (Decimal_fix (Z.abs c) e) as [d|] eqn:Hfix; [|done].
    intros [= <-].
    destruct (Decimal_fix_spec _ _ _ (Z.abs_nonneg c) Hfix) as (Hn & Hw & Hf).
    split; [by apply Z.ltb_ge|]. split; [exact Hw|].
    intros Hfits. cbn [exact_abs coefficient exponent]. f_equal. apply Hf.
    unfold fits_context in *. cbn [coefficient exponent] in *.
    by rewrite Z.abs_idemp.
  - intros [= <-]. done.
Qed.

Lemma nan_is_not_zero : is_zero nan = false /\ nan <> zero.
Proof. split; [reflexivity | discriminate]. Qed.

Lemma normalise_sign_normalised w w' :
  normalise w = Returned w' -> sign_normalised w w'.
Proof.
  unfold normalise, sign_normalised. cbn [value nok_value wire_date currency].
  destruct (abs (value w)) as [v|]; [|done]. by intros [= <-].
Qed.

Lemma loop_sign_normalised ws ws' :
  loop ws = Returned ws' -> Forall2 sign_normalised ws ws'.
Proof.
  revert ws'. induction ws as [|w ws IH]; intros ws'; cbn [loop].
  - intros [= <-]. constructor.
  - destruct (normalise w) as [w'|] eqn:Hw; [|done].
    destruct (loop ws) as [ws''|]; [|done].
    intros [= <-]. constructor; [by apply normalise_sign_normalised | by apply IH].
Qed.

Section Main.
Context {Holdings Summary ReportBody FileBinaryRead FileText PyObject : Type}.
Variable json_loads : string -> called PyObject.
Variable parse_obj_as_Holdings : PyObject -> called Holdings.
Variable do_taxes :
  BrokerEnum -> list FileBinaryRead -> option FileText -> option FileText ->
  Z -> bool -> OpeningBalance Holdings ->
  called (TaxResult Holdings Summary ReportBody).
Variable pydantic : Pydantic Holdings ReportBody.

Local Abbreviation run :=
  (main json_loads parse_obj_as_Holdings do_taxes pydantic).
Local Abbreviation returned :=
  (do_taxes_returned json_loads parse_obj_as_Holdings do_taxes pydantic).

Local Abbreviation after :=
  (after_do_taxes (Holdings:=Holdings) (Summary:=Summary) (ReportBody:=ReportBody)
     (FileBinaryRead:=FileBinaryRead) (FileText:=FileText) pydantic).

Local Abbreviation event :=
  (Event Holdings Summary ReportBody FileBinaryRead FileText).
Local Abbreviation tax_result := (TaxResult Holdings Summary ReportBody).

(** Case analysis over the blocks of [main]. *)
Ltac run_cases :=
  unfold after_do_taxes, bind_holdings, write_holdings, write_wires,
    write_report, configure_logging, read_opening_balance, after_loop,
    dot_json, trace, outcome, wires_written, bind, call,
    get_report, logger_info, emit, ret, raise;
  repeat (case_match; simplify_eq; simpl).

Lemma after_no_do_taxes a l r b fs ih w y v ob res :
  ~ In (ev_do_taxes b fs ih w y v ob res : event) (trace (after a l r)).
Proof. run_cases; intros Hin; split_in; simplify_eq. Qed.

(** A run either stops before [do_taxes] has returned, with nothing but the
    prologue's events, or is the prologue's two events followed by
    [after_do_taxes]. *)
Lemma main_cases a :
  (exists e, outcome (run a) = Raise e /\
     Forall (fun ev : event =>
                       match ev with
                       | ev_basicConfig _ => True
                       | ev_do_taxes _ _ _ _ _ _ _ (Raised _) => True
                       | _ => False
                       end) (trace (run a))) \/
  (exists level ob result,
     do_taxes (broker a) (transaction_files a) (inholdings a) (wires a)
       (year a) (verbose a) ob = Returned result /\
     run a =
       ([ev_basicConfig level;
         ev_do_taxes (broker a) (transaction_files a) (inholdings a) (wires a)
           (year a) (verbose a) ob (Returned result)]
          ++ trace (after a level result),
        outcome (after a level result))).
Proof.
  unfold main.
  unfold configure_logging, read_opening_balance, trace, outcome, bind, call,
    emit, ret, raise.
  repeat (case_match; simplify_eq/=);
    first [ left; eexists; split; [reflexivity | repeat constructor]
          | right; do 3 eexists; split; [eassumption |];
            match goal with H : after_do_taxes _ _ _ _ = _ |- _ => by rewrite H end ].
Qed.

Lemma returned_shape a res :
  returned a res ->
  exists level ob,
    do_taxes (broker a) (transaction_files a) (inholdings a) (wires a)
      (year a) (verbose a) ob = Returned res /\
    run a =
      ([ev_basicConfig level;
        ev_do_taxes (broker a) (transaction_files a) (inholdings a) (wires a)
          (year a) (verbose a) ob (Returned res)]
         ++ trace (after a level res),
       outcome (after a level res)).
Proof.
  intros [ob Hin].
  destruct (main_cases a) as [(e & _ & Hall) | (level & ob' & result & Hret & Hrun)].
  - rewrite List.Forall_forall in Hall. by apply Hall in Hin.
  - rewrite Hrun in Hin. simpl in Hin.
    destruct Hin as [? | [Heq | Hin]]; [done | | by apply after_no_do_taxes in Hin].
    injection Heq as -> ->. eauto.
Qed.

Lemma shape_returned a level ob res t :
  run a =
    ([ev_basicConfig level;
      ev_do_taxes (broker a) (transaction_files a) (inholdings a) (wires a)
        (year a) (verbose a) ob (Returned res)] ++ t,
     outcome (after a level res)) ->
  returned a res.
Proof. intros Hrun. exists ob. rewrite Hrun. simpl. auto. Qed.

(** *** The blocks after [do_taxes] *)

Lemma after_wires_written a l res f root :
  In (ev_write f (Wires_json root) : event) (trace (after a l res)) ->
  exists r,
    res = is_TaxReportReturn r /\
    loop (unmatched_wires (report r)) = Returned root /\
    unmatched_wires (report r) <> [] /\
    outwires a = Some f /\ outholdings a = None /\
    Wires_raises pydantic (unmatched_wires (report r)) = None /\
    json_raises pydantic (Wires_json root) = None.
Proof.
  run_cases; intros Hin; split_in; simplify_eq;
    match goal with
    | H : truthy_list ?ws = true |- _ =>
        eexists; split_and!; try reflexivity; try done; by destruct ws
    end.
Qed.

Lemma after_writes_wires a l r f outw :
  outwires a = Some f ->
  outholdings a = None ->
  unmatched_wires (report r) <> [] ->
  Wires_raises pydantic (unmatched_wires (report r)) = None ->
  loop (unmatched_wires (report r)) = Returned outw ->
  json_raises pydantic (Wires_json outw) = None ->
  In (ev_write f (Wires_json outw) : event)
     (trace (after a l (is_TaxReportReturn r))).
Proof.
  intros Hw Hh Hne Hctor Hloop Hjson.
  assert (truthy_list (unmatched_wires (report r)) = true) as Ht
    by (by destruct (unmatched_wires (report r))).
  unfold after_do_taxes, write_holdings, write_wires.
  rewrite Hw, Hh. run_cases; clash; auto.
Qed.

Lemma after_no_wires_when_empty a l r :
  unmatched_wires (report r) = [] ->
  wires_written (trace (after a l (is_TaxReportReturn r))) = [].
Proof.
  intros Hws. unfold after_do_taxes, write_wires. simpl. rewrite Hws.
  run_cases; auto.
Qed.

Lemma after_unbound_holdings a l r f :
  outholdings a = Some f ->
  outcome (after a l (is_TaxReportReturn r)) = Raise (UnboundLocalError "holdings") /\
  (forall f' j, ~ In (ev_write f' j : event) (trace (after a l (is_TaxReportReturn r)))) /\
  In (ev_print_report (year a) (summary r) (report r) (holdings r) (verbose a) : event)
     (trace (after a l (is_TaxReportReturn r))).
Proof.
  intros Hh. unfold after_do_taxes, write_holdings. rewrite Hh.
  run_cases; repeat split; auto; intros ? ? ?; split_in; simplify_eq.
Qed.

Lemma after_holdings_written a l res f h :
  In (ev_write f (Holdings_json h) : event) (trace (after a l res)) ->
  res = is_Holdings h /\ outholdings a = Some f /\
  json_raises pydantic (Holdings_json h) = None.
Proof. run_cases; intros Hin; split_in; simplify_eq; auto. Qed.

Lemma after_print_report a l res y s rep h v :
  In (ev_print_report y s rep h v : event) (trace (after a l res)) <->
  exists r,
    res = is_TaxReportReturn r /\
    y = year a /\ s = summary r /\ rep = report r /\ h = holdings r /\
    v = verbose a.
Proof.
  split.
  - run_cases; intros Hin; split_in; simplify_eq; eauto 10.
  - intros (r & -> & -> & -> & -> & -> & ->). run_cases; auto.
Qed.

(** *** Whole runs *)

Lemma write_in_after a (f : FileTextWrite) (j : Json Holdings ReportBody) :
  In (ev_write f j : event) (trace (run a)) ->
  exists level res,
    returned a res /\
    trace (run a) <> [] /\
    outcome (run a) = outcome (after a level res) /\
    In (ev_write f j : event) (trace (after a level res)).
Proof.
  intros Hin.
  destruct (main_cases a) as [(e & _ & Hall) | (level & ob & res & Hret & Hrun)].
  - rewrite List.Forall_forall in Hall. by apply Hall in Hin.
  - exists level, res. split; [by eapply shape_returned|].
    rewrite Hrun in *. simpl in *. intuition discriminate.
Qed.

(** C1, as the code has it.  Every unmatched-wires text the command writes
    holds, record by record and in their order, the unmatched wires of the
    report with [nok_value] set to the not-a-number sentinel, which is not
    zero, and [value] replaced by what [abs] returns for it in the decimal
    context: a value that is not negative and lies within half a unit of its
    last digit of the absolute value; it is the absolute value itself when
    that has at most 28 digits and an exponent the context allows.  Nothing
    else of a record changes and no record is added or dropped. *)
Theorem outwires_records_sign_normalised a f root :
  In (ev_write f (Wires_json root) : event) (trace (run a)) ->
  exists r,
    returned a (is_TaxReportReturn r) /\
    Forall2 sign_normalised (unmatched_wires (report r)) root /\
    Forall2 (fun w w' =>
               is_negative (value w') = false /\
               within_half_unit (exact_abs (value w)) (value w') /\
               (fits_context (value w) = true ->
                value w' = exact_abs (value w)))
      (unmatched_wires (report r)) root /\
    Forall (fun w' => nok_value w' = nan /\ is_zero (nok_value w') = false)
      root.
Proof.
  intros Hin.
  apply write_in_after in Hin as (level & res & Hret & _ & _ & Hin).
  apply after_wires_written in Hin as (r & -> & Hloop & _).
  exists r. split; [done|].
  apply loop_sign_normalised in Hloop.
  split; [exact Hloop|].
  induction Hloop as [|w w' ws ws' (Habs & Hnok & _) _ [IH1 IH2]];
    [split; constructor|].
  split; constructor; auto.
  - by apply abs_spec.
  - by rewrite Hnok.
Qed.

(** The wires text is written only when a destination was given and the
    report has unmatched wires. *)
Lemma wires_file_only_if a f root :
  In (ev_write f (Wires_json root) : event) (trace (run a)) ->
  outwires a = Some f /\ outholdings a = None /\
  exists r, returned a (is_TaxReportReturn r) /\
            unmatched_wires (report r) <> [].
Proof.
  intros Hin.
  apply write_in_after in Hin as (level & res & Hret & _ & _ & Hin).
  apply after_wires_written in Hin as (r & -> & _ & ? & ? & ? & _). eauto.
Qed.

(** With no unmatched wires, no wires text is written. *)
Lemma no_wires_file_when_none_unmatched a r :
  returned a (is_TaxReportReturn r) ->
  unmatched_wires (report r) = [] ->
  wires_written (trace (run a)) = [].
Proof.
  intros Hret Hws.
  apply returned_shape in Hret as (level & ob & _ & ->).
  simpl. by apply after_no_wires_when_empty.
Qed.

(** With unmatched wires and a destination, the wires text is written
    provided no destination for the holdings was given as well and the
    library calls on the way return: the [Wires] constructor, [abs] on each
    value, and [.json(indent=4)]. *)
Lemma wires_file_if a r f outw :
  returned a (is_TaxReportReturn r) ->
  outwires a = Some f ->
  outholdings a = None ->
  unmatched_wires (report r) <> [] ->
  Wires_raises pydantic (unmatched_wires (report r)) = None ->
  loop (unmatched_wires (report r)) = Returned outw ->
  json_raises pydantic (Wires_json outw) = None ->
  In (ev_write f (Wires_json outw) : event) (trace (run a)).
Proof.
  intros Hret Hw Hh Hne Hctor Hloop Hjson.
  apply returned_shape in Hret as (level & ob & _ & ->).
  simpl. right. right. by apply after_writes_wires.
Qed.

(** C9.  The local [holdings] is bound only when [do_taxes] returned a
    [Holdings]: a holdings text is written only then; with an [outholdings]
    destination and any other result the run ends in an unbound-local error
    at the holdings write, having written nothing; and [print_report] is
    called exactly when the result is not a [Holdings]. *)
Theorem outholdings_unbound_unless_Holdings a :
  (forall f r,
     outholdings a = Some f ->
     returned a (is_TaxReportReturn r) ->
     outcome (run a) = Raise (UnboundLocalError "holdings") /\
     (forall f' j, ~ In (ev_write f' j : event) (trace (run a)))) /\
  (forall f h,
     In (ev_write f (Holdings_json h) : event) (trace (run a)) ->
     returned a (is_Holdings h)) /\
  (forall y s rep h v,
     In (ev_print_report y s rep h v : event) (trace (run a)) <->
     exists r, returned a (is_TaxReportReturn r) /\
               y = year a /\ s = summary r /\ rep = report r /\
               h = holdings r /\ v = verbose a).
Proof.
  split; [|split].
  - intros f r Hh Hret.
    apply returned_shape in Hret as (level & ob & _ & ->).
    destruct (after_unbound_holdings a level r f Hh) as (Ho & Hnw & _).
    split; [exact Ho|].
    intros f' j. simpl. intros [? | [? | Hin]]; [done | done |].
    by apply Hnw in Hin.
  - intros f h Hin.
    apply write_in_after in Hin as (level & res & Hret & _ & _ & Hin).
    by apply after_holdings_written in Hin as [-> _].
  - intros y s rep h v. split.
    + intros Hin.
      destruct (main_cases a) as [(e & _ & Hall) | (level & ob & res & Hret & Hrun)].
      * rewrite List.Forall_forall in Hall. by apply Hall in Hin.
      * rewrite Hrun in Hin. simpl in Hin.
        destruct Hin as [? | [? | Hin]]; [done | done |].
        apply after_print_report in Hin as (r & -> & Heqs).
        exists r. split; [|done]. by eapply shape_returned.
    + intros (r & Hret & Heqs).
      apply returned_shape in Hret as (level & ob & _ & ->).
      simpl. right. right. apply after_print_report. eauto.
Qed.

(** *** The prologue, failures and the order of the writes *)

Local Abbreviation opening :=
  (read_opening_balance (Summary:=Summary) (ReportBody:=ReportBody)
     (FileBinaryRead:=FileBinaryRead) (FileText:=FileText)
     json_loads parse_obj_as_Holdings).

Lemma read_opening_balance_trace a :
  trace (opening a) = [].
Proof. run_cases; reflexivity. Qed.

(** [main] block by block. *)
Lemma main_blocks a :
  run a =
    match getLevelNamesMapping !! loglevel a with
    | None => ([], Raise (BadParameter ("Invalid loglevel: " +:+ loglevel a)))
    | Some level =>
        match outcome (opening a) with
        | Raise e => ([ev_basicConfig level], Raise e)
        | Return ob =>
            match do_taxes (broker a) (transaction_files a) (inholdings a)
                    (wires a) (year a) (verbose a) ob with
            | Raised e =>
                ([ev_basicConfig level;
                  ev_do_taxes (broker a) (transaction_files a) (inholdings a)
                    (wires a) (year a) (verbose a) ob (Raised e)],
                 Raise (Foreign e))
            | Returned result =>
                ([ev_basicConfig level;
                  ev_do_taxes (broker a) (transaction_files a) (inholdings a)
                    (wires a) (year a) (verbose a) ob (Returned result)]
                   ++ trace (after a level result),
                 outcome (after a level result))
            end
        end
    end.
Proof.
  unfold main, configure_logging.
  destruct (getLevelNamesMapping !! loglevel a) as [level|]; [|reflexivity].
  pose proof (read_opening_balance_trace a) as Ht.
  destruct (opening a)
    as [t [ob|e]]; simpl in Ht; subst t; [|reflexivity].
  unfold outcome at 1. simpl.
  destruct (do_taxes _ _ _ _ _ _ ob) as [result|e]; [|reflexivity].
  simpl. by destruct (after a level result).
Qed.

(** The library calls of the blocks return. *)
Ltac calls_return Hjson Hwires Hloop :=
  repeat match goal with
         | H : json_raises _ _ = Some _ |- _ => by rewrite Hjson in H
         | H : Wires_raises _ _ = Some _ |- _ => by rewrite Hwires in H
         | H : loop _ = Raised _ |- _ =>
             by destruct (Hloop _ eq_refl) as [? Hl]; rewrite Hl in H
         end.

Lemma after_completes_only_if a l res :
  outcome (after a l res) = Return tt ->
  match res with
  | is_Holdings _ => outwires a = None /\ output a = None
  | is_TaxReportReturn _ => outholdings a = None
  end.
Proof. run_cases; intros ?; simplify_eq; done. Qed.

Lemma after_completes_if a l res :
  (forall j, json_raises pydantic j = None) ->
  (forall ws, Wires_raises pydantic ws = None) ->
  (forall r, res = is_TaxReportReturn r ->
             exists outw, loop (unmatched_wires (report r)) = Returned outw) ->
  match res with
  | is_Holdings _ => outwires a = None /\ output a = None
  | is_TaxReportReturn _ => outholdings a = None
  end ->
  outcome (after a l res) = Return tt.
Proof.
  intros Hjson Hwires Hloop.
  run_cases; try (intros [? ?]); intros; simplify_eq;
    calls_return Hjson Hwires Hloop; done.
Qed.

Lemma after_Holdings_report_outputs a l h :
  is_Some (outwires a) \/ is_Some (output a) ->
  match outholdings a, json_raises pydantic (Holdings_json h) with
  | Some f, Some e =>
      outcome (after a l (is_Holdings h)) = Raise (Foreign e) /\
      writes (trace (after a l (is_Holdings h))) = []
  | Some f, None =>
      outcome (after a l (is_Holdings h)) = Raise (AttributeError "report") /\
      writes (trace (after a l (is_Holdings h))) = [(f, Holdings_json h)]
  | None, _ =>
      outcome (after a l (is_Holdings h)) = Raise (AttributeError "report") /\
      writes (trace (after a l (is_Holdings h))) = []
  end.
Proof.
  intros Hor. run_cases; try done;
    destruct Hor as [[? ?]|[? ?]]; simplify_eq.
Qed.

Lemma after_writes_in_order a l res :
  exists wh ww wr,
    writes (trace (after a l res)) =
      option_list wh ++ option_list ww ++ option_list wr /\
    match wh with
    | Some (f, j) => outholdings a = Some f /\ exists h, j = Holdings_json h
    | None => True
    end /\
    match ww with
    | Some (f, j) => outwires a = Some f /\ exists ws, j = Wires_json ws
    | None => True
    end /\
    match wr with
    | Some (f, j) => output a = Some f /\ exists rep, j = TaxReport_json rep
    | None => True
    end.
Proof.
  pose (kind := fun (k : Json Holdings ReportBody -> bool) =>
                  List.find (fun p : FileTextWrite * _ => k p.2)
                    (writes (trace (after a l res)))).
  exists (kind (fun j => match j with Holdings_json _ => true | _ => false end)),
         (kind (fun j => match j with Wires_json _ => true | _ => false end)),
         (kind (fun j => match j with TaxReport_json _ => true | _ => false end)).
  subst kind. run_cases; cbn; (split; [reflexivity|]); eauto 10.
Qed.

Lemma after_report_written a l res f rep :
  In (ev_write f (TaxReport_json rep) : event) (trace (after a l res)) ->
  exists r,
    res = is_TaxReportReturn r /\
    output a = Some f /\ outholdings a = None /\
    report_body rep = report_body (report r) /\
    json_raises pydantic (TaxReport_json rep) = None /\
    (copy_on_model_validation pydantic = copy_deep ->
     unmatched_wires rep = unmatched_wires (report r)) /\
    (outwires a = None \/ unmatched_wires (report r) = [] ->
     unmatched_wires rep = unmatched_wires (report r)) /\
    (copy_on_model_validation pydantic <> copy_deep ->
     is_Some (outwires a) ->
     unmatched_wires (report r) <> [] ->
     loop (unmatched_wires (report r)) = Returned (unmatched_wires rep)).
Proof.
  run_cases; intros Hin; split_in; simplify_eq; eexists;
    (split; [reflexivity|]); split_and!; try done; intros;
    split_in; simplify_eq; try done;
    try (by destruct (copy_on_model_validation pydantic));
    match goal with
    | H : truthy_list ?ws = _ |- _ => by destruct ws
    | H : is_Some None |- _ => by destruct H
    end.
Qed.

Lemma after_info_records a l :
  (INFO < l -> forall res, info_records (trace (after a l res)) = []) /\
  (l <= INFO -> forall res f j,
     In (f, j) (writes (trace (after a l res))) ->
     exists prefix, In (prefix +:+ name f) (info_records (trace (after a l res)))).
Proof.
  split.
  - intros Hl res. run_cases; try reflexivity; lia.
  - intros Hl res f j. run_cases; try lia; intros Hin; split_in; simplify_eq;
      eexists; cbn; eauto.
Qed.

Lemma after_no_do_taxes_calls a l res :
  do_taxes_calls (trace (after a l res)) = [].
Proof. run_cases; reflexivity. Qed.

(** [do_taxes] is called at most once, with the opening balance read. *)
Lemma main_do_taxes_calls a :
  do_taxes_calls (trace (run a)) =
    match getLevelNamesMapping !! loglevel a, outcome (opening a) with
    | Some _, Return ob =>
        [(ob, do_taxes (broker a) (transaction_files a) (inholdings a)
                (wires a) (year a) (verbose a) ob)]
    | _, _ => []
    end.
Proof.
  rewrite main_blocks.
  destruct (getLevelNamesMapping !! loglevel a) as [level|]; [|done].
  destruct (outcome (opening a)) as [ob|e]; [|done].
  destruct (do_taxes _ _ _ _ _ _ ob) as [res|e] eqn:Hres; [|done].
  unfold trace at 1. cbn [fst]. unfold do_taxes_calls at 1.
  rewrite omap_app. fold (do_taxes_calls (trace (after a level res))).
  by rewrite after_no_do_taxes_calls.
Qed.

(** A [loglevel] that is not one of the level names of [logging] (they are
    upper case) ends the run with [BadParameter] before anything is done. *)
Lemma invalid_loglevel_rejected a :
  loglevel a ∉ ["CRITICAL"; "FATAL"; "ERROR"; "WARN"; "WARNING"; "INFO";
                "DEBUG"; "NOTSET"] ->
  trace (run a) = [] /\
  outcome (run a) = Raise (BadParameter ("Invalid loglevel: " +:+ loglevel a)).
Proof.
  intros Hn. rewrite main_blocks.
  assert (getLevelNamesMapping !! loglevel a = None) as ->; [|done].
  by apply not_elem_of_list_to_map_1.
Qed.

(** An opening balance that [json.loads] or the [Holdings] validator refuses
    ends the run with their exception: [do_taxes] is not called and nothing
    is written. *)
Lemma opening_balance_error_ends_the_run a s e :
  is_Some (getLevelNamesMapping !! loglevel a) ->
  opening_balance a = Some s ->
  s <> "" ->
  json_loads s = Raised e \/
    (exists o, json_loads s = Returned o /\ parse_obj_as_Holdings o = Raised e) ->
  outcome (run a) = Raise (Foreign e) /\
  do_taxes_calls (trace (run a)) = [] /\
  writes (trace (run a)) = [].
Proof.
  intros [level Hl] Hob Hs Hraised. rewrite main_blocks, Hl.
  unfold read_opening_balance. rewrite Hob.
  assert (truthy_str s = true) as -> by (by destruct s).
  destruct Hraised as [-> | (o & -> & Hp)]; simpl; [done|].
  by rewrite Hp.
Qed.

(** An exception of [do_taxes] ends the run: it is what the command ends
    with, nothing is printed and nothing is written. *)
Lemma do_taxes_error_ends_the_run a ob e :
  In (ob, Raised e) (do_taxes_calls (trace (run a))) ->
  outcome (run a) = Raise (Foreign e) /\
  do_taxes_calls (trace (run a)) = [(ob, Raised e)] /\
  writes (trace (run a)) = [] /\
  forall y s r h v, ~ In (ev_print_report y s r h v : event) (trace (run a)).
Proof.
  rewrite main_blocks.
  destruct (getLevelNamesMapping !! loglevel a) as [level|]; [|done].
  destruct (outcome (opening a)) as [ob'|e']; [|by cbn; intros []].
  destruct (do_taxes _ _ _ _ _ _ ob') as [res|e'] eqn:Hres.
  - unfold trace at 1. cbn [fst]. unfold do_taxes_calls at 1.
    rewrite omap_app. fold (do_taxes_calls (trace (after a level res))).
    rewrite after_no_do_taxes_calls. simpl. intros [? | []]. simplify_eq.
  - simpl. intros [? | []]. simplify_eq. repeat split.
    intros y s r h v Hin. split_in; simplify_eq.
Qed.

(** The command completes only if [do_taxes] returned and the destinations
    given fit what it returned: with a [Holdings], neither [outwires] nor
    [output]; with a tax report, no [outholdings].  When the library calls on
    the way return (the [.json(indent=4)] calls, the [Wires] constructor and
    [abs] in the loop), it completes exactly then. *)
Lemma main_completes_iff a :
  (outcome (run a) = Return tt ->
   exists res,
     returned a res /\
     match res with
     | is_Holdings _ => outwires a = None /\ output a = None
     | is_TaxReportReturn _ => outholdings a = None
     end) /\
  ((forall j, json_raises pydantic j = None) ->
   (forall ws, Wires_raises pydantic ws = None) ->
   (forall r, returned a (is_TaxReportReturn r) ->
              exists outw, loop (unmatched_wires (report r)) = Returned outw) ->
   (exists res,
      returned a res /\
      match res with
      | is_Holdings _ => outwires a = None /\ output a = None
      | is_TaxReportReturn _ => outholdings a = None
      end) ->
   outcome (run a) = Return tt).
Proof.
  split.
  - intros Ho.
    destruct (main_cases a) as [(e & He & _) | (level & ob & res & Hret & Hrun)].
    + congruence.
    + exists res. split; [by eapply shape_returned|].
      apply (after_completes_only_if a level). rewrite Hrun in Ho. exact Ho.
  - intros Hjson Hwires Hloop (res & Hret & Hres).
    pose proof Hret as Hret'.
    apply returned_shape in Hret as (level & ob & _ & ->).
    apply after_completes_if; try done.
    intros r ->. by apply Hloop.
Qed.

(** With a [Holdings] result, asking for the wires or the tax report ends the
    run in an error.  When a holdings text is asked for as well and
    [.json(indent=4)] raises for it, that exception ends the run with nothing
    written; otherwise the run ends in an attribute error, a [Holdings] having
    no [report], and the holdings text, when asked for, has been written by
    then. *)
Lemma Holdings_result_fails_report_outputs a h :
  returned a (is_Holdings h) ->
  is_Some (outwires a) \/ is_Some (output a) ->
  match outholdings a, json_raises pydantic (Holdings_json h) with
  | Some f, Some e =>
      outcome (run a) = Raise (Foreign e) /\ writes (trace (run a)) = []
  | Some f, None =>
      outcome (run a) = Raise (AttributeError "report") /\
      writes (trace (run a)) = [(f, Holdings_json h)]
  | None, _ =>
      outcome (run a) = Raise (AttributeError "report") /\
      writes (trace (run a)) = []
  end.
Proof.
  intros Hret Hor.
  apply returned_shape in Hret as (level & ob & _ & ->).
  exact (after_Holdings_report_outputs a level h Hor).
Qed.

Lemma after_Holdings_writes a l h :
  writes (trace (after a l (is_Holdings h))) =
    match outholdings a, json_raises pydantic (Holdings_json h) with
    | Some f, None => [(f, Holdings_json h)]
    | _, _ => []
    end /\
  forall y s r h' v,
    ~ In (ev_print_report y s r h' v : event) (trace (after a l (is_Holdings h))).
Proof.
  run_cases; (split; [reflexivity|]); intros y s r h' v Hin; split_in;
    simplify_eq.
Qed.

(** With a [Holdings] result the holdings text is the only text a run can
    write: it is written when a destination for it is given and
    [.json(indent=4)] returns, whatever else was asked for; nothing is
    printed. *)
Lemma Holdings_result_writes_holdings_only a h :
  returned a (is_Holdings h) ->
  writes (trace (run a)) =
    match outholdings a, json_raises pydantic (Holdings_json h) with
    | Some f, None => [(f, Holdings_json h)]
    | _, _ => []
    end /\
  forall y s r h' v, ~ In (ev_print_report y s r h' v : event) (trace (run a)).
Proof.
  intros Hret.
  apply returned_shape in Hret as (level & ob & _ & ->).
  destruct (after_Holdings_writes a level h) as [Hw Hp].
  split; [exact Hw|].
  intros y s r h' v [? | [? | Hin]]; [done | done |]. by apply Hp in Hin.
Qed.



(** A run writes at most one text to each destination, the holdings first,
    then the wires, then the tax report, each to the file given for it. *)
Lemma writes_in_order a :
  exists wh ww wr,
    writes (trace (run a)) =
      option_list wh ++ option_list ww ++ option_list wr /\
    match wh with
    | Some (f, j) => outholdings a = Some f /\ exists h, j = Holdings_json h
    | None => True
    end /\
    match ww with
    | Some (f, j) => outwires a = Some f /\ exists ws, j = Wires_json ws
    | None => True
    end /\
    match wr with
    | Some (f, j) => output a = Some f /\ exists rep, j = TaxReport_json rep
    | None => True
    end.
Proof.
  destruct (main_cases a) as [(e & _ & Hall) | (level & ob & res & Hret & Hrun)].
  - exists None, None, None. split; [|done].
    induction Hall as [|ev t Hev _ IH]; [done|].
    destruct ev as [| ? ? ? ? ? ? ? [|] | | |]; done.
  - rewrite Hrun. exact (after_writes_in_order a level res).
Qed.

(** The tax report text is that of the report [do_taxes] returned.  Its
    unmatched wires are the returned ones when no wires text was made or when
    [copy_on_model_validation] is ['deep']; with ['none'] or ['shallow'],
    where the wires text is made from objects that share their attributes
    with those of the report, they are the wires as the loop left them. *)
Lemma report_text_written a f rep :
  In (ev_write f (TaxReport_json rep) : event) (trace (run a)) ->
  exists r,
    returned a (is_TaxReportReturn r) /\
    output a = Some f /\ outholdings a = None /\
    report_body rep = report_body (report r) /\
    json_raises pydantic (TaxReport_json rep) = None /\
    (copy_on_model_validation pydantic = copy_deep ->
     unmatched_wires rep = unmatched_wires (report r)) /\
    (outwires a = None \/ unmatched_wires (report r) = [] ->
     unmatched_wires rep = unmatched_wires (report r)) /\
    (copy_on_model_validation pydantic <> copy_deep ->
     is_Some (outwires a) ->
     unmatched_wires (report r) <> [] ->
     loop (unmatched_wires (report r)) = Returned (unmatched_wires rep)).
Proof.
  intros Hin.
  apply write_in_after in Hin as (level & res & Hret & _ & _ & Hin).
  apply after_report_written in Hin as (r & -> & Hrest). eauto.
Qed.

Lemma after_writes_report a l r f :
  (forall j, json_raises pydantic j = None) ->
  (forall ws, Wires_raises pydantic ws = None) ->
  (exists outw, loop (unmatched_wires (report r)) = Returned outw) ->
  output a = Some f ->
  outholdings a = None ->
  exists rep,
    In (f, TaxReport_json rep)
       (writes (trace (after a l (is_TaxReportReturn r)))) /\
    report_body rep = report_body (report r) /\
    (copy_on_model_validation pydantic = copy_deep -> rep = report r).
Proof.
  intros Hjson Hwires [outw Hloop] Ho Hh.
  assert (forall r', is_TaxReportReturn r = is_TaxReportReturn r' ->
            exists outw, loop (unmatched_wires (report r')) = Returned outw)
    as Hl by (intros ? [= <-]; eauto).
  unfold after_do_taxes, write_holdings, write_report.
  rewrite Ho, Hh. run_cases; calls_return Hjson Hwires Hl;
    eexists; (split; [by auto|]); split; try done;
    intros Hdeep; rewrite Hdeep in *; simplify_eq/=; done.
Qed.

(** With a tax report returned, a destination for it and none for the
    holdings, the report text is written when the library calls on the way
    return: the one [do_taxes] returned, as it is when
    [copy_on_model_validation] is ['deep']. *)
Lemma report_file_if a r f :
  (forall j, json_raises pydantic j = None) ->
  (forall ws, Wires_raises pydantic ws = None) ->
  (exists outw, loop (unmatched_wires (report r)) = Returned outw) ->
  returned a (is_TaxReportReturn r) ->
  output a = Some f ->
  outholdings a = None ->
  exists rep,
    In (f, TaxReport_json rep) (writes (trace (run a))) /\
    report_body rep = report_body (report r) /\
    (copy_on_model_validation pydantic = copy_deep -> rep = report r).
Proof.
  intros Hjson Hwires Hloop Hret Ho Hh.
  apply returned_shape in Hret as (level & ob & _ & ->).
  exact (after_writes_report a level r f Hjson Hwires Hloop Ho Hh).
Qed.

(** Whether [logger.info] records appear follows the level given: above INFO
    (the default is WARNING) there is none; at INFO or below every text
    written is announced by a record that ends in the name of its file. *)
Lemma info_records_follow_loglevel a level :
  getLevelNamesMapping !! loglevel a = Some level ->
  (INFO < level -> info_records (trace (run a)) = []) /\
  (level <= INFO ->
   forall f j,
     In (f, j) (writes (trace (run a))) ->
     exists prefix, In (prefix +:+ name f) (info_records (trace (run a)))).
Proof.
  intros Hl. rewrite main_blocks, Hl.
  destruct (after_info_records a level) as [Habove Hbelow].
  destruct (outcome (opening a)) as [ob|e]; [|by split; [|intros _ ? ? []]].
  destruct (do_taxes _ _ _ _ _ _ ob) as [res|e]; [|by split; [|intros _ ? ? []]].
  split; intros Hlevel; [exact (Habove Hlevel res) | exact (Hbelow Hlevel res)].
Qed.

End Main.

(** *** Concrete runs *)

Lemma outwires_records_sign_normalised_witness :
  exists r,
    do_taxes_returned no_json no_parse do_taxes_one_wire pydantic_1_10
      args_outwires (is_TaxReportReturn r) /\
    Forall2 sign_normalised (unmatched_wires (report r))
      [wire_out_normalised] /\
    Forall2 (fun w w' =>
               is_negative (value w') = false /\
               within_half_unit (exact_abs (value w)) (value w') /\
               (fits_context (value w) = true ->
                value w' = exact_abs (value w)))
      (unmatched_wires (report r)) [wire_out_normalised] /\
    Forall (fun w' => nok_value w' = nan /\ is_zero (nok_value w') = false)
      [wire_out_normalised].
Proof.
  apply (outwires_records_sign_normalised no_json no_parse do_taxes_one_wire
           pydantic_1_10 args_outwires {| name := "wires.json" |}
           [wire_out_normalised]).
  vm_compute. auto.
Defined.

(** C1, as stated, fails for a value with more digits than the decimal
    context keeps: the record written for [wire_long], whose value is
    -12345678901234567890123456789012.5, holds
    1.234567890123456789012345679E+31, which is not its absolute value. *)
Lemma outwires_value_rounded :
  exists w',
    In (ev_write {| name := "wires.json" |} (Wires_json [w']))
       (trace (main no_json no_parse do_taxes_long_wire pydantic_1_10
                 args_outwires)) /\
    value w'
      = Finite {| coefficient := 1234567890123456789012345679;
                  exponent := 4 |} /\
    value w' <> exact_abs (value wire_long) /\
    same_number (value w') (exact_abs (value wire_long)) = false.
Proof.
  eexists. split; [vm_compute; auto|]. split; [reflexivity|].
  split; [discriminate | vm_compute; reflexivity].
Qed.

Lemma outholdings_unbound_unless_Holdings_witness :
  outcome (main no_json no_parse do_taxes_one_wire pydantic_1_10 args_outholdings_outwires)
    = Raise (UnboundLocalError "holdings") /\
  (forall f' j,
     ~ In (ev_write f' j)
         (trace (main no_json no_parse do_taxes_one_wire pydantic_1_10
                   args_outholdings_outwires))).
Proof.
  refine (proj1 (outholdings_unbound_unless_Holdings no_json no_parse
                   do_taxes_one_wire pydantic_1_10 args_outholdings_outwires)
            {| name := "holdings.json" |} _ eq_refl _).
  exists ob_None. vm_compute. auto.
Defined.

(** C2, at the input where it fails.  A destination for the wires is given and
    the report has an unmatched wire, yet no wires text is written: the run
    has already ended at the holdings write. *)
Example outwires_lost_when_outholdings_given :
  outwires args_outholdings_outwires = Some {| name := "wires.json" |} /\
  do_taxes_returned no_json no_parse do_taxes_one_wire pydantic_1_10
    args_outholdings_outwires
    (is_TaxReportReturn
       {| summary := tt;
          report := {| unmatched_wires := [wire_out]; report_body := tt |};
          holdings := tt |}) /\
  wires_written
    (trace (main no_json no_parse do_taxes_one_wire pydantic_1_10
              args_outholdings_outwires)) = [] /\
  outcome (main no_json no_parse do_taxes_one_wire pydantic_1_10 args_outholdings_outwires)
    = Raise (UnboundLocalError "holdings").
Proof.
  split; [reflexivity|]. split; [exists ob_None; vm_compute; auto|].
  split; vm_compute; reflexivity.
Qed.

(** The same request without the holdings destination writes the wires. *)
Example outwires_written_without_outholdings :
  wires_written
    (trace (main no_json no_parse do_taxes_one_wire pydantic_1_10 args_outwires))
  = [[wire_out_normalised]].
Proof. vm_compute. reflexivity. Qed.

Lemma wires_file_only_if_witness :
  outwires args_outwires = Some {| name := "wires.json" |} /\
  outholdings args_outwires = None /\
  exists r,
    do_taxes_returned no_json no_parse do_taxes_one_wire pydantic_1_10 args_outwires
      (is_TaxReportReturn r) /\
    unmatched_wires (report r) <> [].
Proof.
  apply (wires_file_only_if no_json no_parse do_taxes_one_wire pydantic_1_10
           args_outwires {| name := "wires.json" |} [wire_out_normalised]).
  vm_compute. auto.
Defined.

Lemma wires_file_if_witness :
  In (ev_write {| name := "wires.json" |} (Wires_json [wire_out_normalised]))
     (trace (main no_json no_parse do_taxes_one_wire pydantic_1_10
               args_outwires)).
Proof.
  refine (wires_file_if no_json no_parse do_taxes_one_wire pydantic_1_10
            args_outwires
            {| summary := tt;
               report := {| unmatched_wires := [wire_out]; report_body := tt |};
               holdings := tt |}
            {| name := "wires.json" |} [wire_out_normalised]
            _ eq_refl eq_refl _ eq_refl _ eq_refl).
  - exists ob_None. vm_compute. auto.
  - discriminate.
  - vm_compute. reflexivity.
Defined.

Lemma no_wires_file_when_none_unmatched_witness :
  wires_written
    (trace (main no_json no_parse do_taxes_no_wire pydantic_1_10 args_outwires)) = [].
Proof.
  refine (no_wires_file_when_none_unmatched no_json no_parse do_taxes_no_wire
            pydantic_1_10 args_outwires
            {| summary := tt;
               report := {| unmatched_wires := []; report_body := tt |};
               holdings := tt |} _ eq_refl).
  exists ob_None. vm_compute. auto.
Defined.

(** Whether the tax report written afterwards shows the wires as the loop left
    them depends on [copy_on_model_validation]: it does not with ['deep'], it
    does with ['shallow'], the default, and with ['none']. *)
Example report_after_loop_with_deep_copies :
  trace (main no_json no_parse do_taxes_one_wire pydantic_1_deep
           args_outwires_output)
  = [ev_basicConfig 20;
     ev_do_taxes schwab [tt] None None 2022 false ob_None
       (do_taxes_one_wire schwab [tt] None None 2022 false ob_None);
     ev_print_report 2022 tt
       {| unmatched_wires := [wire_out]; report_body := tt |} tt false;
     ev_log_info "Writing unmatched wires to wires.json";
     ev_write {| name := "wires.json" |} (Wires_json [wire_out_normalised]);
     ev_log_info "Writing tax report to: report.json";
     ev_write {| name := "report.json" |}
       (TaxReport_json {| unmatched_wires := [wire_out]; report_body := tt |})].
Proof. vm_compute. reflexivity. Qed.

Example report_after_loop_with_shared_attributes :
  trace (main no_json no_parse do_taxes_one_wire pydantic_1_10
           args_outwires_output)
  = [ev_basicConfig 20;
     ev_do_taxes schwab [tt] None None 2022 false ob_None
       (do_taxes_one_wire schwab [tt] None None 2022 false ob_None);
     ev_print_report 2022 tt
       {| unmatched_wires := [wire_out]; report_body := tt |} tt false;
     ev_log_info "Writing unmatched wires to wires.json";
     ev_write {| name := "wires.json" |} (Wires_json [wire_out_normalised]);
     ev_log_info "Writing tax report to: report.json";
     ev_write {| name := "report.json" |}
       (TaxReport_json
          {| unmatched_wires := [wire_out_normalised]; report_body := tt |})].
Proof. vm_compute. reflexivity. Qed.

(** *** Runs that stop early, and runs with a [Holdings] result *)

Lemma invalid_loglevel_rejected_witness :
  trace (main no_json no_parse do_taxes_one_wire pydantic_1_10 args_loglevel_lower_case)
    = [] /\
  outcome (main no_json no_parse do_taxes_one_wire pydantic_1_10 args_loglevel_lower_case)
    = Raise (BadParameter "Invalid loglevel: warning").
Proof.
  apply (invalid_loglevel_rejected no_json no_parse do_taxes_one_wire pydantic_1_10
           args_loglevel_lower_case).
  vm_compute. intros Hin.
  repeat (apply elem_of_cons in Hin as [Heq | Hin]; [discriminate Heq|]).
  by apply elem_of_nil in Hin.
Defined.

Lemma opening_balance_error_ends_the_run_witness :
  outcome (main json_refuses no_parse do_taxes_one_wire pydantic_1_10
             args_opening_balance_cut) = Raise (Foreign JSONDecodeError) /\
  do_taxes_calls (trace (main json_refuses no_parse do_taxes_one_wire pydantic_1_10
                           args_opening_balance_cut)) = [] /\
  writes (trace (main json_refuses no_parse do_taxes_one_wire pydantic_1_10
                   args_opening_balance_cut)) = [].
Proof.
  refine (opening_balance_error_ends_the_run json_refuses no_parse
            do_taxes_one_wire pydantic_1_10 args_opening_balance_cut "{" JSONDecodeError
            _ eq_refl _ (or_introl eq_refl)).
  - exists 30. vm_compute. reflexivity.
  - discriminate.
Defined.

Lemma do_taxes_error_ends_the_run_witness :
  outcome (main no_json no_parse do_taxes_raises pydantic_1_10 args_outholdings_output)
    = Raise (Foreign no_transactions) /\
  do_taxes_calls
    (trace (main no_json no_parse do_taxes_raises pydantic_1_10 args_outholdings_output))
    = [(ob_None, Raised no_transactions)] /\
  writes
    (trace (main no_json no_parse do_taxes_raises pydantic_1_10 args_outholdings_output))
    = [] /\
  forall y s r h v,
    ~ In (ev_print_report y s r h v)
        (trace (main no_json no_parse do_taxes_raises pydantic_1_10
                  args_outholdings_output)).
Proof.
  apply (do_taxes_error_ends_the_run no_json no_parse do_taxes_raises pydantic_1_10
           args_outholdings_output ob_None no_transactions).
  vm_compute. auto.
Defined.

Lemma Holdings_result_fails_report_outputs_witness :
  outcome (main no_json no_parse do_taxes_returns_Holdings pydantic_1_10
             args_outholdings_output) = Raise (AttributeError "report") /\
  writes (trace (main no_json no_parse do_taxes_returns_Holdings pydantic_1_10
                   args_outholdings_output))
    = [({| name := "holdings.json" |}, Holdings_json tt)].
Proof.
  refine (Holdings_result_fails_report_outputs no_json no_parse
            do_taxes_returns_Holdings pydantic_1_10 args_outholdings_output tt _
            (or_intror (ex_intro _ _ eq_refl))).
  exists ob_None. vm_compute. auto.
Defined.

Lemma report_text_written_witness :
  exists r,
    do_taxes_returned no_json no_parse do_taxes_one_wire pydantic_1_10
      args_outwires_output (is_TaxReportReturn r) /\
    output args_outwires_output = Some {| name := "report.json" |} /\
    outholdings args_outwires_output = None /\
    tt = report_body (report r) /\
    json_raises pydantic_1_10
      (TaxReport_json
         {| unmatched_wires := [wire_out_normalised]; report_body := tt |})
      = None /\
    (copy_on_model_validation pydantic_1_10 = copy_deep ->
     [wire_out_normalised] = unmatched_wires (report r)) /\
    (outwires args_outwires_output = None \/ unmatched_wires (report r) = [] ->
     [wire_out_normalised] = unmatched_wires (report r)) /\
    (copy_on_model_validation pydantic_1_10 <> copy_deep ->
     is_Some (outwires args_outwires_output) ->
     unmatched_wires (report r) <> [] ->
     loop (unmatched_wires (report r)) = Returned [wire_out_normalised]).
Proof.
  apply (report_text_written no_json no_parse do_taxes_one_wire pydantic_1_10
           args_outwires_output {| name := "report.json" |}
           {| unmatched_wires := [wire_out_normalised]; report_body := tt |}).
  vm_compute. auto 10.
Defined.

Lemma info_records_follow_loglevel_witness :
  (INFO < 20 ->
   info_records
     (trace (main no_json no_parse do_taxes_one_wire pydantic_1_10 args_outwires_output))
   = []) /\
  (20 <= INFO ->
   forall f j,
     In (f, j)
        (writes (trace (main no_json no_parse do_taxes_one_wire pydantic_1_10
                          args_outwires_output))) ->
     exists prefix,
       In (prefix +:+ name f)
          (info_records
             (trace (main no_json no_parse do_taxes_one_wire pydantic_1_10
                       args_outwires_output)))).
Proof.
  apply (info_records_follow_loglevel no_json no_parse do_taxes_one_wire pydantic_1_10
           args_outwires_output 20).
  vm_compute. reflexivity.
Defined.

Lemma report_file_if_witness :
  exists rep,
    In ({| name := "report.json" |}, TaxReport_json rep)
       (writes (trace (main no_json no_parse do_taxes_one_wire
                         pydantic_1_deep args_outwires_output))) /\
    report_body rep = tt /\
    (copy_on_model_validation pydantic_1_deep = copy_deep ->
     rep = {| unmatched_wires := [wire_out]; report_body := tt |}).
Proof.
  refine (report_file_if no_json no_parse do_taxes_one_wire
            pydantic_1_deep args_outwires_output
            {| summary := tt;
               report := {| unmatched_wires := [wire_out]; report_body := tt |};
               holdings := tt |}
            {| name := "report.json" |} (fun _ => eq_refl) (fun _ => eq_refl)
            (ex_intro _ [wire_out_normalised] _) _ eq_refl eq_refl).
  - vm_compute. reflexivity.
  - exists ob_None. vm_compute. auto.
Defined.

Lemma main_completes_iff_witness :
  outcome (main no_json no_parse do_taxes_one_wire pydantic_1_10
             args_outwires_output) = Return tt.
Proof.
  refine (proj2 (main_completes_iff no_json no_parse do_taxes_one_wire
                   pydantic_1_10 args_outwires_output)
            (fun _ => eq_refl) (fun _ => eq_refl) _ _).
  - intros r [ob Hin]. vm_compute in Hin.
    destruct Hin as [Hin | [Hin | Hin]]; try discriminate Hin.
    + injection Hin as _ <-. exists [wire_out_normalised]. vm_compute.
      reflexivity.
    + repeat (destruct Hin as [Hin | Hin]; try discriminate Hin). done.
  - eexists. split; [exists ob_None; vm_compute; auto|]. reflexivity.
Defined.


(** With pydantic 2 the run that wrote the wires and the report above ends
    at the [Wires] constructor. *)
Example outwires_refused_by_pydantic_2 :
  main no_json no_parse do_taxes_one_wire pydantic_2 args_outwires_output
  = ([ev_basicConfig 20;
      ev_do_taxes schwab [tt] None None 2022 false ob_None
        (do_taxes_one_wire schwab [tt] None None 2022 false ob_None);
      ev_print_report 2022 tt
        {| unmatched_wires := [wire_out]; report_body := tt |} tt false;
      ev_log_info "Writing unmatched wires to wires.json"],
     Raise (Foreign root_ValidationError)).
Proof. vm_compute. reflexivity. Qed.

Lemma Holdings_result_writes_holdings_only_witness :
  writes (trace (main no_json no_parse do_taxes_returns_Holdings pydantic_1_10
                   args_outholdings_output))
    = [({| name := "holdings.json" |}, Holdings_json tt)] /\
  forall y s r h' v,
    ~ In (ev_print_report y s r h' v)
        (trace (main no_json no_parse do_taxes_returns_Holdings pydantic_1_10
                  args_outholdings_output)).
Proof.
  apply (Holdings_result_writes_holdings_only no_json no_parse
           do_taxes_returns_Holdings pydantic_1_10 args_outholdings_output tt).
  exists ob_None. vm_compute. auto.
Defined.

(** An opening balance that is absent or empty reaches [do_taxes] as it is:
    [json.loads] and the [Holdings] validator have no part in the run. *)
Lemma missing_opening_balance_is_not_parsed
    {Holdings Summary ReportBody FileBinaryRead FileText PyObject : Type}
    (json_loads json_loads' : string -> called PyObject)
    (parse_obj_as_Holdings parse_obj_as_Holdings' : PyObject -> called Holdings)
    (do_taxes :
       BrokerEnum -> list FileBinaryRead -> option FileText ->
       option FileText -> Z -> bool -> OpeningBalance Holdings ->
       called (TaxResult Holdings Summary ReportBody))
    (pydantic : Pydantic Holdings ReportBody)
    (a : Args FileBinaryRead FileText) :
  opening_balance a = None \/ opening_balance a = Some "" ->
  main json_loads parse_obj_as_Holdings do_taxes pydantic a
    = main json_loads' parse_obj_as_Holdings' do_taxes
        pydantic a /\
  forall ob res,
    In (ob, res)
       (do_taxes_calls
          (trace (main json_loads parse_obj_as_Holdings do_taxes
                    pydantic a))) ->
    ob = match opening_balance a with
         | None => ob_None
         | Some s => ob_str s
         end.
Proof.
  intros Hob. split.
  - rewrite !main_blocks. unfold read_opening_balance.
    by destruct Hob as [-> | ->].
  - intros ob res. rewrite main_do_taxes_calls. unfold read_opening_balance.
    destruct (getLevelNamesMapping !! loglevel a) as [level|]; [|by intros []].
    destruct Hob as [-> | ->]; simpl; intros Hin; split_in; by simplify_eq.
Qed.

Lemma missing_opening_balance_is_not_parsed_witness :
  main no_json no_parse do_taxes_one_wire pydantic_1_10 args_opening_balance_empty
    = main json_refuses no_parse do_taxes_one_wire pydantic_1_10
        args_opening_balance_empty /\
  forall ob res,
    In (ob, res)
       (do_taxes_calls
          (trace (main no_json no_parse do_taxes_one_wire pydantic_1_10
                    args_opening_balance_empty))) ->
    ob = ob_str "".
Proof.
  exact (missing_opening_balance_is_not_parsed no_json json_refuses no_parse
           no_parse do_taxes_one_wire pydantic_1_10 args_opening_balance_empty
           (or_intror eq_refl)).
Defined.

End CliProps.

(** ** The web endpoints *)

Module WebProps.
Import Py DataModels Web.

Section Endpoints.
Context {Holdings TaxReport Summary ExcelData ExpectedBalance Wires
         SpooledFile PyObject ZipData ZipStr : Type}.

Local Abbreviation upload := (UploadFile SpooledFile).
Local Abbreviation core_call :=
  (CoreCall Holdings ExpectedBalance Wires SpooledFile).
Local Abbreviation event :=
  (Event Holdings TaxReport ExcelData ExpectedBalance Wires SpooledFile).
Local Abbreviation content := (Content Holdings TaxReport ExcelData).
Local Abbreviation request := (Request SpooledFile).

Variable do_holdings_1 :
  string -> list upload -> option SpooledFile -> Z -> option Holdings ->
  called Holdings.
Variable do_holdings_2 :
  string -> list upload -> Z -> ExpectedBalanceArg ExpectedBalance ->
  called Holdings.
Variable do_holdings_3 :
  string -> upload -> Z -> ExpectedBalance -> called Holdings.
Variable do_holdings_4 : string -> upload -> Z -> called Holdings.
Variable do_taxes :
  string -> upload -> option SpooledFile -> WiresArg Wires -> Z -> bool ->
  called (TaxReport * Holdings * ExcelData * Summary).
Variable get_zipdata : list (string * content) -> ZipData.
Variable jsonable_encoder : ZipData -> ZipStr.
Variable json_loads : string -> called PyObject.
Variable Wires_root : PyObject -> called Wires.
Variable validate_json_ExpectedBalance : string -> called ExpectedBalance.

Local Abbreviation holdings_1 :=
  (generate_holdings_1 (TaxReport := TaxReport) (ExcelData := ExcelData)
     (ExpectedBalance := ExpectedBalance) (Wires := Wires) do_holdings_1).
Local Abbreviation report :=
  (taxreport (ExpectedBalance := ExpectedBalance) do_taxes get_zipdata
     jsonable_encoder json_loads Wires_root).
Local Abbreviation serve :=
  (app do_holdings_1 do_holdings_2 do_holdings_3 do_holdings_4 do_taxes
     get_zipdata jsonable_encoder json_loads Wires_root
     validate_json_ExpectedBalance).

(** Case analysis over one handler. *)
Ltac handler_cases H :=
  cbv [app taxreport generate_holdings_1 generate_holdings_2
       generate_holdings_3 generate_holdings_4 try_core bind call
       capture_logs_start capture_logs_stop logger_exception emit ret raise
       events logging outcome streams handlers] in H |- *;
  repeat (case_match; simplify_eq);
  cbn [core_calls bundles omap List.app In] in H |- *.

(** C4.  When the core call of a holdings or tax-report request raises an
    [Exception], the handler answers with an HTTP error value of status 500
    whose detail is the text of the exception; the exception is logged, it
    does not escape the handler, and the core is called once only. *)
Theorem core_error_is_answered_with_status_500 (req : request) s c e :
  In (ev_core c (Some e) : event) (events (serve req s)) ->
  is_Exception e = true ->
  outcome (serve req s) = Raise (HTTPException 500 (str e)) /\
  core_calls (events (serve req s)) = [(c, Some e)] /\
  In (ev_logger_exception e : event) (events (serve req s)).
Proof.
  intros Hin Hexc. destruct req; handler_cases Hin; split_in;
    simplify_eq; try congruence; cbn; auto.
Qed.

Lemma holdfile_stream_empty_filename (u : upload) :
  filename u = Some "" -> holdfile_stream (Some u) = None.
Proof. intros Hu. unfold holdfile_stream. by rewrite bool_decide_eq_true_2. Qed.

(** C10.  An uploaded prior-holdings file whose filename is empty is treated
    by the holdings-1 and tax-report handlers exactly as no file at all: the
    whole run is the same, and the core is called with no holdings file. *)
Theorem empty_filename_is_no_holdfile (u : upload) :
  filename u = Some "" ->
  forall fs f b w y s,
    holdfile_stream (Some u) = None /\
    holdings_1 fs b (Some u) y s = holdings_1 fs b None y s /\
    report f b (Some u) w y s = report f b None w y s /\
    (forall c r,
       In (ev_core c r : event) (events (holdings_1 fs b (Some u) y s)) ->
       c = call_do_holdings_1 b fs None y None) /\
    (forall c r,
       In (ev_core c r : event) (events (report f b (Some u) w y s)) ->
       exists wa, c = call_do_taxes b f None wa y true).
Proof.
  intros Hu fs f b w y s.
  pose proof (holdfile_stream_empty_filename u Hu) as Hnone.
  repeat split.
  - done.
  - unfold generate_holdings_1. by rewrite Hnone.
  - unfold taxreport. by rewrite Hnone.
  - intros c r Hin. unfold generate_holdings_1 in Hin. rewrite Hnone in Hin.
    handler_cases Hin; split_in; simplify_eq; auto.
  - intros c r Hin. unfold taxreport in Hin. rewrite Hnone in Hin.
    handler_cases Hin; split_in; simplify_eq; eauto.
Qed.

(** C3, as the code has it.  A successful tax-report request assembles one
    bundle, holding two artifacts: the holdings snapshot as JSON text, named
    [espp-holdings-<year>.json], and the portfolio spreadsheet, named
    [espp-portfolio-<year>.xlsx].  The tax report is not in the bundle; it is
    returned beside it in the response. *)
Theorem export_bundle_is_holdings_and_portfolio f b hf w y s resp :
  outcome (report f b hf w y s) = Return resp ->
  exists wa x,
    do_taxes b f (holdfile_stream hf) wa y true
      = Returned (tax_report resp, holdings resp, x, summary resp) /\
    bundles (events (report f b hf w y s))
      = [zip_files y (holdings resp) x : list (string * content)] /\
    map fst (zip_files y (holdings resp) x : list (string * content))
      = ["espp-holdings-" +:+ pretty y +:+ ".json";
         "espp-portfolio-" +:+ pretty y +:+ ".xlsx"] /\
    artifacts (zip_files y (holdings resp) x : list (string * content))
      = [holdings_as_structured_text; tabular_portfolio_export] /\
    zip resp = jsonable_encoder (get_zipdata (zip_files y (holdings resp) x)).
Proof.
  intros Hret. handler_cases Hret; eexists _, _; (split; [eassumption|]); done.
Qed.

(** What a capturing request reads back from its own stream. *)
Lemma fresh_stream_lookup (ss : list string) :
  (ss ++ [""]) !! length ss = Some "".
Proof. by rewrite lookup_app_r, Nat.sub_diag by lia. Qed.

(** The answer of a handler, and what it calls, do not depend on the state of
    the shared logger it starts from. *)
Lemma answer_independent_of_logging (req : request) s s' :
  outcome (serve req s) = outcome (serve req s') /\
  events (serve req s) = events (serve req s').
Proof.
  destruct req;
    cbv [app taxreport generate_holdings_1 generate_holdings_2
         generate_holdings_3 generate_holdings_4 try_core bind call
         capture_logs_start capture_logs_stop logger_exception emit ret raise
         events logging outcome streams handlers];
    repeat (case_match; simplify_eq); rewrite ?fresh_stream_lookup;
    cbn [List.app]; first [done | split; congruence].
Qed.

(** A tax-report request whose core call raises leaves its capturing handler
    on the shared logger. *)
Lemma capture_handler_left_on_failure f b hf w y s c e :
  In (ev_core c (Some e) : event) (events (report f b hf w y s)) ->
  is_Exception e = true ->
  handlers (logging (report f b hf w y s))
    = handlers (logging (capture_logs_start (Holdings := Holdings)
                           (TaxReport := TaxReport) (ExcelData := ExcelData)
                           (ExpectedBalance := ExpectedBalance) (Wires := Wires)
                           (SpooledFile := SpooledFile) s)) /\
  handlers (logging (report f b hf w y s)) = handlers s ++ [length (streams s)].
Proof.
  intros Hin Hexc. handler_cases Hin; split_in; simplify_eq; try congruence; done.
Qed.

(** A successful tax-report request takes its handler off again. *)
Lemma capture_handler_removed_on_success f b hf w y s resp :
  outcome (report f b hf w y s) = Return resp ->
  handlers (logging (report f b hf w y s))
    = remove_first (length (streams s)) (handlers s ++ [length (streams s)]).
Proof.
  intros Hret. handler_cases Hret; done.
Qed.

(** *** Requests sent in parallel *)

Local Abbreviation in_turn :=
  (serve_in_turn do_holdings_1 do_holdings_2 do_holdings_3 do_holdings_4
     do_taxes get_zipdata jsonable_encoder json_loads Wires_root
     validate_json_ExpectedBalance).

(** C8, as the code has it.  Requests sent in parallel are served in turn,
    in some order; whichever the order and whatever the logger holds when the
    first is taken up, each request is answered exactly as it is when served
    alone by a fresh server: the same response, the captured log text
    included, or the same exception, after the same calls. *)
Theorem answers_independent_of_other_requests (reqs : list request) s :
  Forall2
    (fun req run =>
       outcome run = outcome (serve req fresh_logging) /\
       events run = events (serve req fresh_logging))
    reqs (in_turn reqs s).
Proof.
  revert s. induction reqs as [|req reqs IH]; intros s; cbn [serve_in_turn];
    constructor; [|apply IH].
  generalize fresh_logging. intros s'.
  destruct req;
    cbv [app taxreport generate_holdings_1 generate_holdings_2
         generate_holdings_3 generate_holdings_4 try_core bind call
         capture_logs_start capture_logs_stop logger_exception emit ret raise
         events logging outcome streams handlers];
    repeat (case_match; simplify_eq); rewrite ?fresh_stream_lookup;
    cbn [List.app]; first [done | split; congruence].
Qed.

(** *** More on the holdings handlers and on log capture *)

Local Abbreviation holdings_of :=
  (holdings_core (ExpectedBalance := ExpectedBalance) (Wires := Wires)
     do_holdings_1 do_holdings_2 do_holdings_3 do_holdings_4).

(** A holdings request whose core call returns is answered with what the core
    returned; nothing is logged and the shared logger is as before. *)
Lemma holdings_answer_is_the_core_result (req : request) s c h :
  In (c, None) (core_calls (events (serve req s))) ->
  holdings_of c = Some (Returned h) ->
  outcome (serve req s) = Return (response_Holdings h) /\
  events (serve req s) = [ev_core c None] /\
  logging (serve req s) = s.
Proof.
  intros Hin Hcore. destruct s as [hs ss].
  destruct req; handler_cases Hin; simpl in Hin; split_in; simplify_eq;
    cbn [holdings_core] in Hcore; simplify_eq; try congruence;
    repeat split; congruence.
Qed.

(** An error of the core that does not derive from [Exception] is not caught:
    it leaves the handler as it is, unlogged, and no HTTP error value is
    made of it. *)
Lemma non_Exception_escapes (req : request) s c e :
  In (c, Some e) (core_calls (events (serve req s))) ->
  is_Exception e = false ->
  outcome (serve req s) = Raise (Foreign e) /\
  events (serve req s) = [ev_core c (Some e)] /\
  take (length (streams s)) (streams (logging (serve req s))) = streams s.
Proof.
  intros Hin Hexc. destruct s as [hs ss].
  destruct req; handler_cases Hin; simpl in Hin; split_in; simplify_eq;
    try congruence; repeat split;
    first [ apply take_app_length | by apply take_ge ].
Qed.

(** An [expected_balance] that the validator refuses is refused outside the
    [try]: the validator's exception is what the handlers of holdings 2 and 3
    end with, the core is not called and nothing is logged.  Holdings 3
    validates the field even when it is empty. *)
Lemma expected_balance_error_escapes fs f b y eb e s :
  validate_json_ExpectedBalance eb = Raised e ->
  (eb <> "" ->
   outcome (serve (POST_holdings_2 fs b y eb) s) = Raise (Foreign e) /\
   events (serve (POST_holdings_2 fs b y eb) s) = []) /\
  outcome (serve (POST_holdings_3 f b y eb) s) = Raise (Foreign e) /\
  events (serve (POST_holdings_3 f b y eb) s) = [].
Proof.
  intros Hv. split; [intros Heb|].
  - assert (truthy_str eb = true) as Ht by (by destruct eb).
    cbv [app generate_holdings_2 bind call ret raise events outcome].
    by rewrite Ht, Hv.
  - cbv [app generate_holdings_3 bind call ret raise events outcome].
    by rewrite Hv.
Qed.

(** A [wires] field that [json.loads] or the [Wires] model refuses ends the
    tax-report handler with their exception: the core is not called, nothing
    is logged, and the capturing handler stays on the logger. *)
Lemma wires_error_escapes f b hf w y e s :
  w <> "" ->
  json_loads w = Raised e \/
    (exists o, json_loads w = Returned o /\ Wires_root o = Raised e) ->
  outcome (report f b hf w y s) = Raise (Foreign e) /\
  events (report f b hf w y s) = [] /\
  handlers (logging (report f b hf w y s)) = handlers s ++ [length (streams s)].
Proof.
  intros Hw Hraised.
  assert (truthy_str w = true) as Ht by (by destruct w).
  cbv [taxreport bind call ret raise capture_logs_start events outcome logging
       handlers].
  rewrite Ht.
  destruct Hraised as [-> | (o & -> & ->)]; by destruct s.
Qed.

(** **** The handlers on the shared logger *)

Lemma remove_first_fresh (h : nat) (hs : list nat) :
  h ∉ hs -> remove_first h (hs ++ [h]) = hs.
Proof.
  induction hs as [|x hs IH]; intros Hn; simpl.
  - by rewrite Nat.eqb_refl.
  - apply not_elem_of_cons in Hn as [Hne Hn].
    destruct (Nat.eqb_spec x h) as [-> | _]; [done|]. by rewrite IH.
Qed.

Lemma logging_ok_fresh (s : Logging) :
  logging_ok s -> length (streams s) ∉ handlers s.
Proof.
  intros [_ Hlt] Hin. rewrite Forall_forall in Hlt. apply Hlt in Hin. lia.
Qed.

Lemma logged_streams_length (g : string -> string) (hs : list nat)
    (ss : list string) :
  length (foldr (fun h (ss : list string) => alter g h ss) ss hs) = length ss.
Proof. induction hs as [|h hs IH]; simpl; [done|]. by rewrite length_alter. Qed.

Lemma logged_streams_lookup (g : string -> string) (hs : list nat)
    (ss : list string) (h : nat) :
  NoDup hs ->
  foldr (fun h (ss : list string) => alter g h ss) ss hs !! h
    = if decide (h ∈ hs) then g <$> ss !! h else ss !! h.
Proof.
  induction 1 as [|x hs Hx Hnd IH]; cbn [foldr]; [done|].
  destruct (decide (h = x)) as [-> | Hne].
  - rewrite list_lookup_alter_eq, IH.
    rewrite (decide_False (P := x ∈ hs)) by done.
    by rewrite decide_True by apply list_elem_of_here.
  - rewrite list_lookup_alter_ne by (by intros ->). rewrite IH.
    destruct (decide (h ∈ hs)) as [Hin | Hnin].
    + by rewrite decide_True by (by apply list_elem_of_further).
    + rewrite decide_False; [done|].
      intros [?|?]%elem_of_cons; done.
Qed.

Lemma logging_ok_capture (s : Logging) :
  logging_ok s ->
  logging_ok {| handlers := handlers s ++ [length (streams s)];
                streams := streams s ++ [""] |}.
Proof.
  intros Hok. pose proof (logging_ok_fresh s Hok) as Hfresh.
  destruct Hok as [Hnd Hlt]. split; simpl.
  - apply NoDup_app. split; [done|]. split; [|apply NoDup_singleton].
    intros h Hh ->%list_elem_of_singleton. done.
  - rewrite length_app. simpl. apply Forall_app. split.
    + eapply Forall_impl; [exact Hlt|]. simpl. lia.
    + constructor; [lia | constructor].
Qed.

Lemma logging_ok_logged (g : string -> string) (s : Logging) :
  logging_ok s ->
  logging_ok {| handlers := handlers s;
                streams := foldr (fun h (ss : list string) => alter g h ss)
                             (streams s) (handlers s) |}.
Proof.
  intros [Hnd Hlt]. split; simpl; [done|]. by rewrite logged_streams_length.
Qed.

(** Served one after the other from a fresh server, requests keep the
    handlers on the shared logger distinct, each with its own stream. *)
Lemma logging_ok_preserved (req : request) s :
  logging_ok s -> logging_ok (logging (serve req s)).
Proof.
  intros Hok.
  pose proof (logging_ok_capture s Hok) as Hcap.
  pose proof (fun g => logging_ok_logged g s Hok) as Hlog.
  pose proof (fun g => logging_ok_logged g _ Hcap) as Hcaplog.
  pose proof (remove_first_fresh _ _ (logging_ok_fresh s Hok)) as Hrem.
  destruct s as [hs ss]. simpl in Hcap, Hlog, Hcaplog, Hrem.
  destruct req;
    cbv [app taxreport generate_holdings_1 generate_holdings_2
         generate_holdings_3 generate_holdings_4 try_core bind call
         capture_logs_start capture_logs_stop logger_exception emit ret raise
         events logging outcome streams handlers];
    repeat (case_match; simplify_eq); try done;
    try apply Hlog; try apply Hcaplog.
  all: rewrite Hrem; destruct Hok as [Hnd Hlt]; (split; simpl; [done|]);
    rewrite length_app; simpl in Hlt;
    (eapply Forall_impl; [exact Hlt|]); simpl; lia.
Qed.

(** A successful tax-report request leaves the handlers of the shared logger
    as it found them; it allocates one stream, writes to no other, and the
    log it returns is what that stream of its own holds. *)
Lemma capture_is_undone_on_success f b hf w y s resp :
  logging_ok s ->
  outcome (report f b hf w y s) = Return resp ->
  handlers (logging (report f b hf w y s)) = handlers s /\
  take (length (streams s)) (streams (logging (report f b hf w y s)))
    = streams s /\
  length (streams (logging (report f b hf w y s))) = S (length (streams s)) /\
  log resp
    = default "" (streams (logging (report f b hf w y s)) !! length (streams s)).
Proof.
  intros Hok Hret.
  pose proof (remove_first_fresh _ _ (logging_ok_fresh s Hok)) as Hrem.
  destruct s as [hs ss]. simpl in Hrem.
  handler_cases Hret; rewrite Hrem, take_app_length, length_app.
  all: split_and?; first [done | simpl; lia].
Qed.

(** Every handler that is on the logger when an exception is logged writes
    the record to its stream: a handler left behind by an earlier failed
    tax-report request keeps collecting the errors of later requests. *)
Lemma handlers_left_collect_later_errors (req : request) s e (h : nat) :
  logging_ok s ->
  In e (logged_exceptions (events (serve req s))) ->
  h ∈ handlers s ->
  streams (logging (serve req s)) !! h
    = (fun t => t +:+ format_exception e) <$> streams s !! h.
Proof.
  intros Hok Hin Hh.
  pose proof (logging_ok_capture s Hok) as [Hnd' _].
  destruct Hok as [Hnd Hlt]. rewrite Forall_forall in Hlt.
  pose proof (Hlt h Hh) as Hlth.
  destruct s as [hs ss]. simpl in Hnd, Hnd', Hh, Hlth.
  destruct req; handler_cases Hin; simpl in Hin; split_in; simplify_eq.
  all: rewrite logged_streams_lookup by done.
  all: try (rewrite decide_True by done; done).
  all: rewrite decide_True by (apply elem_of_app; by left).
  all: by rewrite lookup_app_l by done.
Qed.

(** A prior-holdings upload with any other filename, or with none, reaches
    the core as the stream behind the upload. *)
Lemma named_holdfile_reaches_the_core (u : upload) :
  filename u <> Some "" ->
  forall fs f b w y s,
    holdfile_stream (Some u) = Some (file u) /\
    (forall c r,
       In (c, r) (core_calls (events (holdings_1 fs b (Some u) y s))) ->
       c = call_do_holdings_1 b fs (Some (file u)) y None) /\
    (forall c r,
       In (c, r) (core_calls (events (report f b (Some u) w y s))) ->
       exists wa, c = call_do_taxes b f (Some (file u)) wa y true).
Proof.
  intros Hu fs f b w y s.
  assert (holdfile_stream (Some u) = Some (file u)) as Hsome.
  { unfold holdfile_stream. by rewrite bool_decide_eq_false_2. }
  repeat split.
  - done.
  - intros c r Hin. unfold generate_holdings_1 in Hin. rewrite Hsome in Hin.
    handler_cases Hin; simpl in Hin; split_in; by simplify_eq.
  - intros c r Hin. unfold taxreport in Hin. rewrite Hsome in Hin.
    handler_cases Hin; simpl in Hin; split_in; simplify_eq; eauto.
Qed.

(** An HTTP error value is made only of an [Exception] of the core: its
    status is 500, its detail the text of that exception, which has been
    logged. *)
Lemma http_error_only_for_core_Exception (req : request) s code detail :
  outcome (serve req s) = Raise (HTTPException code detail) ->
  code = 500 /\
  exists c e,
    core_calls (events (serve req s)) = [(c, Some e)] /\
    is_Exception e = true /\ detail = str e /\
    logged_exceptions (events (serve req s)) = [e].
Proof.
  intros Hout. destruct req; handler_cases Hout; (split; [done|]);
    eexists _, _; split_and!; try reflexivity; done.
Qed.

(** A bundle is assembled only by a request that succeeds, and then it is a
    tax-report request: a failed request leaves no bundle behind. *)
Lemma bundle_only_on_success (req : request) s files :
  In files (bundles (events (serve req s))) ->
  exists resp,
    outcome (serve req s) = Return (response_ESPPResponse resp) /\
    logged_exceptions (events (serve req s)) = [].
Proof.
  intros Hin. destruct req; handler_cases Hin; simpl in Hin; split_in;
    simplify_eq; eexists; split; reflexivity.
Qed.

(** **** The names in the bundle *)

Lemma string_app_length (s t : string) :
  String.length (s +:+ t) = (String.length s + String.length t)%nat.
Proof. induction s as [|a s IH]; simpl; [done|]. by rewrite IH. Qed.

Lemma string_app_inv_tail (s1 s2 t : string) :
  s1 +:+ t = s2 +:+ t -> s1 = s2.
Proof.
  revert s2. induction s1 as [|a s1 IH]; intros [|b s2] Heq.
  - done.
  - apply (f_equal String.length) in Heq.
    rewrite !string_app_length in Heq. simpl in Heq. lia.
  - apply (f_equal String.length) in Heq.
    rewrite !string_app_length in Heq. simpl in Heq. lia.
  - change (String a (s1 +:+ t) = String b (s2 +:+ t)) in Heq.
    injection Heq as -> Heq. f_equal. by apply IH.
Qed.

(** The two members of a bundle have different names, and the names tell the
    year: bundles of different years share no member name. *)
Lemma bundle_names_tell_the_year y y' (h h' : Holdings) (x x' : ExcelData) n :
  NoDup (map fst (zip_files y h x : list (string * content))) /\
  (In n (map fst (zip_files y h x : list (string * content))) ->
   In n (map fst (zip_files y' h' x' : list (string * content))) ->
   y = y').
Proof.
  unfold zip_files. cbn [map fst]. split.
  - apply NoDup_cons. split; [|apply NoDup_singleton].
    intros Hin%list_elem_of_singleton. discriminate Hin.
  - intros Hn Hn'. cbn [In] in Hn, Hn'.
    destruct Hn as [<- | [<- | []]]; destruct Hn' as [Heq | [Heq | []]];
      try discriminate Heq.
    all: apply (inj (String.app _)) in Heq || (simpl in Heq; simplify_eq).
    all: apply string_app_inv_tail in Heq; by apply (inj pretty) in Heq.
Qed.

End Endpoints.

(** *** Concrete requests *)

Lemma core_error_is_answered_with_status_500_witness :
  outcome (serve_example (POST_holdings_4 upload_csv "morgan" 2022) fresh_logging)
    = Raise (HTTPException 500 "Sale of 20 shares exceeds the 15 held") /\
  core_calls (events (serve_example (POST_holdings_4 upload_csv "morgan" 2022)
                        fresh_logging))
    = [(call_do_holdings_4 "morgan" upload_csv 2022, Some short_history)] /\
  In (ev_logger_exception short_history)
     (events (serve_example (POST_holdings_4 upload_csv "morgan" 2022)
                fresh_logging)).
Proof.
  apply (core_error_is_answered_with_status_500 (Summary := unit)
           holdings_ok holdings_2_ok holdings_3_ok
           holdings_4_short taxes_ok zip_as_list encode_as_is loads_ok root_ok
           validate_ok (POST_holdings_4 upload_csv "morgan" 2022) fresh_logging
           (call_do_holdings_4 "morgan" upload_csv 2022) short_history).
  - vm_compute. auto.
  - reflexivity.
Defined.

Lemma empty_filename_is_no_holdfile_witness :
  generate_holdings_1 holdings_ok [upload_csv] "schwab" (Some upload_empty) 2022
      fresh_logging
    = generate_holdings_1 (ExcelData := unit) (TaxReport := unit)
        (ExpectedBalance := unit) (Wires := unit)
        holdings_ok [upload_csv] "schwab" None 2022 fresh_logging /\
  taxreport_example upload_csv "schwab" (Some upload_empty) "" 2022 fresh_logging
    = taxreport_example upload_csv "schwab" None "" 2022 fresh_logging.
Proof.
  pose proof (empty_filename_is_no_holdfile (Summary := unit)
                (ExpectedBalance := unit)
                holdings_ok taxes_ok zip_as_list encode_as_is loads_ok root_ok
                upload_empty eq_refl [upload_csv] upload_csv "schwab" "" 2022
                fresh_logging) as (_ & H1 & H2 & _).
  split; [exact H1 | exact H2].
Defined.

Lemma export_bundle_is_holdings_and_portfolio_witness :
  exists wa x,
    taxes_ok "schwab" upload_csv (holdfile_stream None) wa 2022 true
      = Returned (tt, tt, x, tt) /\
    bundles (events (taxreport_example upload_csv "schwab" None "" 2022 fresh_logging))
      = [zip_files 2022 tt x] /\
    map fst (zip_files (TaxReport := unit) 2022 tt x)
      = ["espp-holdings-" +:+ pretty 2022 +:+ ".json";
         "espp-portfolio-" +:+ pretty 2022 +:+ ".xlsx"] /\
    artifacts (zip_files (TaxReport := unit) 2022 tt x)
      = [holdings_as_structured_text; tabular_portfolio_export] /\
    [("espp-holdings-2022.json", Holdings_json tt);
     ("espp-portfolio-2022.xlsx", spreadsheet tt)]
      = encode_as_is (zip_as_list (zip_files 2022 tt x)).
Proof.
  apply (export_bundle_is_holdings_and_portfolio (Summary := unit)
           taxes_ok zip_as_list encode_as_is loads_ok root_ok
           upload_csv "schwab" None "" 2022 fresh_logging
           {| tax_report := tt; holdings := tt;
              zip := [("espp-holdings-2022.json", Holdings_json tt);
                      ("espp-portfolio-2022.xlsx", spreadsheet tt)];
              summary := tt; log := "" |}).
  vm_compute. reflexivity.
Defined.

Lemma capture_handler_left_on_failure_witness :
  handlers
    (logging
       (taxreport (Summary := unit) (ExpectedBalance := unit) taxes_short
          zip_as_list encode_as_is loads_ok root_ok upload_csv "schwab" None ""
          2022 fresh_logging))
  = handlers fresh_logging ++ [length (streams fresh_logging)].
Proof.
  apply (fun H1 H2 => proj2 (capture_handler_left_on_failure (Summary := unit)
           (ExpectedBalance := unit) taxes_short zip_as_list encode_as_is
           loads_ok root_ok upload_csv "schwab" None "" 2022 fresh_logging
           (call_do_taxes "schwab" upload_csv None (wires_str "") 2022 true)
           short_history H1 H2)).
  - vm_compute. auto.
  - reflexivity.
Defined.

(** What the handler left behind holds, in its stream, the record of the
    failure that no response reads. *)
Example stream_left_on_failure :
  logging
    (taxreport (Summary := unit) (ExpectedBalance := unit) taxes_short
       zip_as_list encode_as_is loads_ok root_ok upload_csv "schwab" None ""
       2022 fresh_logging)
  = {| handlers := [0%nat];
       streams := [format_exception short_history] |}.
Proof. vm_compute. reflexivity. Qed.

(** C3, as stated, fails: the bundle of this successful request holds two
    artifacts, and the tax report is not one of them. *)
Lemma export_bundle_lacks_tax_report :
  exists resp files,
    outcome (taxreport_example upload_csv "schwab" None "" 2022 fresh_logging)
      = Return resp /\
    bundles (events (taxreport_example upload_csv "schwab" None "" 2022
                       fresh_logging)) = [files] /\
    artifacts files = [holdings_as_structured_text; tabular_portfolio_export] /\
    ~ In the_tax_report (artifacts files) /\
    ~ Permutation (artifacts files)
        [holdings_as_structured_text; tabular_portfolio_export; the_tax_report].
Proof.
  eexists _, _. split; [vm_compute; reflexivity|].
  split; [vm_compute; reflexivity|].
  split; [reflexivity|]. split.
  - simpl. intuition discriminate.
  - intros Hp. apply Permutation_length in Hp. discriminate.
Qed.

(** C8, as stated, fails: the requests do share mutable state.  A
    tax-report request that fails leaves the logger of the module other than
    it found it, with its handler on it; a second request that fails then
    writes to the stream the first one allocated. *)
Lemma logger_is_shared_between_requests :
  let first := POST_taxreport upload_csv "schwab" None "" 2022 in
  let second := POST_taxreport upload_csv "td" None "" 2023 in
  logging (serve_short first fresh_logging)
    = {| handlers := [0%nat]; streams := [format_exception short_history] |} /\
  logging (serve_short first fresh_logging) <> fresh_logging /\
  logging <$> serve_short_in_turn [first; second] fresh_logging
    = [ {| handlers := [0%nat];
           streams := [format_exception short_history] |};
        {| handlers := [0%nat; 1%nat];
           streams := [format_exception short_history
                         +:+ format_exception short_history;
                       format_exception short_history] |} ] /\
  streams (logging (serve_short second (logging (serve_short first fresh_logging))))
    !! 0%nat
    <> streams (logging (serve_short first fresh_logging)) !! 0%nat.
Proof.
  split_and!; try (vm_compute; reflexivity); vm_compute; discriminate.
Qed.

(** *** Concrete requests: answers, escapes and the shared logger *)

Lemma holdings_answer_is_the_core_result_witness :
  outcome (serve_example (POST_holdings_1 [upload_csv] "schwab" None 2022)
             logging_after_failure) = Return (response_Holdings tt) /\
  events (serve_example (POST_holdings_1 [upload_csv] "schwab" None 2022)
            logging_after_failure)
    = [ev_core (call_do_holdings_1 "schwab" [upload_csv] None 2022 None) None] /\
  logging (serve_example (POST_holdings_1 [upload_csv] "schwab" None 2022)
             logging_after_failure) = logging_after_failure.
Proof.
  apply (holdings_answer_is_the_core_result (Summary := unit)
           holdings_ok holdings_2_ok holdings_3_ok holdings_4_short taxes_ok
           zip_as_list encode_as_is loads_ok root_ok validate_ok
           (POST_holdings_1 [upload_csv] "schwab" None 2022)
           logging_after_failure
           (call_do_holdings_1 "schwab" [upload_csv] None 2022 None) tt).
  - vm_compute. auto.
  - reflexivity.
Defined.

Lemma non_Exception_escapes_witness :
  outcome (serve_interrupted (POST_holdings_1 [upload_csv] "schwab" None 2022)
             logging_after_failure) = Raise (Foreign KeyboardInterrupt) /\
  events (serve_interrupted (POST_holdings_1 [upload_csv] "schwab" None 2022)
            logging_after_failure)
    = [ev_core (call_do_holdings_1 "schwab" [upload_csv] None 2022 None)
         (Some KeyboardInterrupt)] /\
  take (length (streams logging_after_failure))
    (streams (logging (serve_interrupted
                         (POST_holdings_1 [upload_csv] "schwab" None 2022)
                         logging_after_failure)))
    = streams logging_after_failure.
Proof.
  apply (non_Exception_escapes (Summary := unit)
           holdings_interrupted holdings_2_ok holdings_3_ok holdings_4_short
           taxes_ok zip_as_list encode_as_is loads_ok root_ok validate_ok
           (POST_holdings_1 [upload_csv] "schwab" None 2022)
           logging_after_failure
           (call_do_holdings_1 "schwab" [upload_csv] None 2022 None)
           KeyboardInterrupt).
  - vm_compute. auto.
  - reflexivity.
Defined.

Lemma expected_balance_error_escapes_witness :
  outcome (serve_refusing (POST_holdings_2 [upload_csv] "schwab" 2022 "{")
             fresh_logging) = Raise (Foreign not_json) /\
  events (serve_refusing (POST_holdings_2 [upload_csv] "schwab" 2022 "{")
            fresh_logging) = [].
Proof.
  refine (proj1 (expected_balance_error_escapes (Summary := unit)
                   holdings_ok holdings_2_ok holdings_3_ok holdings_4_short
                   taxes_ok zip_as_list encode_as_is loads_refuses root_ok
                   validate_refuses [upload_csv] upload_csv "schwab" 2022 "{"
                   not_json fresh_logging eq_refl) _).
  discriminate.
Defined.

Lemma wires_error_escapes_witness :
  outcome (taxreport (Summary := unit) (ExpectedBalance := unit) taxes_ok
             zip_as_list encode_as_is loads_refuses root_ok upload_csv "schwab"
             None "[" 2022 fresh_logging) = Raise (Foreign not_json) /\
  events (taxreport (Summary := unit) (ExpectedBalance := unit) taxes_ok
            zip_as_list encode_as_is loads_refuses root_ok upload_csv "schwab"
            None "[" 2022 fresh_logging) = [] /\
  handlers (logging (taxreport (Summary := unit) (ExpectedBalance := unit)
                       taxes_ok zip_as_list encode_as_is loads_refuses root_ok
                       upload_csv "schwab" None "[" 2022 fresh_logging))
    = handlers fresh_logging ++ [length (streams fresh_logging)].
Proof.
  refine (wires_error_escapes (Summary := unit) (ExpectedBalance := unit)
            taxes_ok zip_as_list encode_as_is loads_refuses root_ok upload_csv
            "schwab" None "[" 2022 not_json fresh_logging _
            (or_introl eq_refl)).
  discriminate.
Defined.

Lemma logging_ok_preserved_witness :
  logging_ok
    (logging (serve_example (POST_taxreport upload_csv "schwab" None "" 2022)
                logging_after_failure)).
Proof.
  apply (logging_ok_preserved (Summary := unit)
           holdings_ok holdings_2_ok holdings_3_ok holdings_4_short taxes_ok
           zip_as_list encode_as_is loads_ok root_ok validate_ok
           (POST_taxreport upload_csv "schwab" None "" 2022)
           logging_after_failure).
  split.
  - apply NoDup_singleton.
  - repeat constructor.
Defined.

Lemma capture_is_undone_on_success_witness :
  handlers (logging (taxreport_example upload_csv "schwab" None "" 2022
                       logging_after_failure))
    = handlers logging_after_failure /\
  take (length (streams logging_after_failure))
    (streams (logging (taxreport_example upload_csv "schwab" None "" 2022
                         logging_after_failure)))
    = streams logging_after_failure /\
  length (streams (logging (taxreport_example upload_csv "schwab" None "" 2022
                              logging_after_failure)))
    = S (length (streams logging_after_failure)) /\
  "" = default ""
         (streams (logging (taxreport_example upload_csv "schwab" None "" 2022
                              logging_after_failure))
          !! length (streams logging_after_failure)).
Proof.
  refine (capture_is_undone_on_success (Summary := unit)
            (ExpectedBalance := unit) taxes_ok zip_as_list encode_as_is
            loads_ok root_ok upload_csv "schwab" None "" 2022
            logging_after_failure
            {| tax_report := tt; holdings := tt;
               zip := [("espp-holdings-2022.json", Holdings_json tt);
                       ("espp-portfolio-2022.xlsx", spreadsheet tt)];
               summary := tt; log := "" |} _ _).
  - split; [apply NoDup_singleton | repeat constructor].
  - vm_compute. reflexivity.
Defined.

Lemma handlers_left_collect_later_errors_witness :
  streams (logging (serve_example (POST_holdings_4 upload_csv "morgan" 2022)
                      logging_after_failure)) !! 0%nat
    = (fun t => t +:+ format_exception short_history)
        <$> streams logging_after_failure !! 0%nat.
Proof.
  refine (handlers_left_collect_later_errors (Summary := unit)
            holdings_ok holdings_2_ok holdings_3_ok holdings_4_short taxes_ok
            zip_as_list encode_as_is loads_ok root_ok validate_ok
            (POST_holdings_4 upload_csv "morgan" 2022) logging_after_failure
            short_history 0%nat _ _ _).
  - split; [apply NoDup_singleton | repeat constructor].
  - vm_compute. auto.
  - apply list_elem_of_here.
Defined.

Lemma named_holdfile_reaches_the_core_witness :
  holdfile_stream (Some upload_csv) = Some (file upload_csv).
Proof.
  refine (proj1 (named_holdfile_reaches_the_core (Summary := unit)
                   (ExpectedBalance := unit) holdings_ok taxes_ok zip_as_list
                   encode_as_is loads_ok root_ok upload_csv _
                   [upload_csv] upload_csv "schwab" "" 2022 fresh_logging)).
  discriminate.
Defined.

Lemma http_error_only_for_core_Exception_witness :
  500 = 500 /\
  exists c e,
    core_calls (events (serve_example (POST_holdings_4 upload_csv "morgan" 2022)
                          fresh_logging)) = [(c, Some e)] /\
    is_Exception e = true /\
    "Sale of 20 shares exceeds the 15 held" = str e /\
    logged_exceptions
      (events (serve_example (POST_holdings_4 upload_csv "morgan" 2022)
                 fresh_logging)) = [e].
Proof.
  apply (http_error_only_for_core_Exception (Summary := unit)
           holdings_ok holdings_2_ok holdings_3_ok holdings_4_short taxes_ok
           zip_as_list encode_as_is loads_ok root_ok validate_ok
           (POST_holdings_4 upload_csv "morgan" 2022) fresh_logging 500
           "Sale of 20 shares exceeds the 15 held").
  vm_compute. reflexivity.
Defined.

Lemma bundle_only_on_success_witness :
  exists resp,
    outcome (serve_example (POST_taxreport upload_csv "schwab" None "" 2022)
               fresh_logging) = Return (response_ESPPResponse resp) /\
    logged_exceptions
      (events (serve_example (POST_taxreport upload_csv "schwab" None "" 2022)
                 fresh_logging)) = [].
Proof.
  apply (bundle_only_on_success (Summary := unit)
           holdings_ok holdings_2_ok holdings_3_ok holdings_4_short taxes_ok
           zip_as_list encode_as_is loads_ok root_ok validate_ok
           (POST_taxreport upload_csv "schwab" None "" 2022) fresh_logging
           [("espp-holdings-2022.json", Holdings_json tt);
            ("espp-portfolio-2022.xlsx", spreadsheet tt)]).
  vm_compute. auto.
Defined.

Lemma bundle_names_tell_the_year_witness :
  In "espp-holdings-2022.json"
     (map fst (zip_files (TaxReport := unit) 2022 tt tt)) /\
  2022 = 2022.
Proof.
  split; [vm_compute; auto|].
  refine (proj2 (bundle_names_tell_the_year (TaxReport := unit) 2022 2022 tt tt
                   tt tt "espp-holdings-2022.json") _ _);
    vm_compute; auto.
Defined.

(** A form field that is empty is passed to the core as the empty string:
    the validator of [expected_balance] in holdings 2, and [json.loads] and
    the [Wires] model in the tax report, have no part in the run. *)
Lemma empty_form_field_is_not_validated
    {Holdings TaxReport Summary ExcelData ExpectedBalance Wires SpooledFile
     PyObject ZipData ZipStr : Type}
    (do_holdings_2 :
       string -> list (UploadFile SpooledFile) -> Z ->
       ExpectedBalanceArg ExpectedBalance -> called Holdings)
    (do_taxes :
       string -> UploadFile SpooledFile -> option SpooledFile ->
       WiresArg Wires -> Z -> bool ->
       called (TaxReport * Holdings * ExcelData * Summary))
    (get_zipdata : list (string * Content Holdings TaxReport ExcelData) -> ZipData)
    (jsonable_encoder : ZipData -> ZipStr)
    (json_loads json_loads' : string -> called PyObject)
    (Wires_root Wires_root' : PyObject -> called Wires)
    (validate validate' : string -> called ExpectedBalance)
    fs f b hf y s :
  generate_holdings_2 (TaxReport := TaxReport) (ExcelData := ExcelData)
      (Wires := Wires) do_holdings_2 validate fs b y "" s
    = generate_holdings_2 do_holdings_2 validate' fs b y "" s /\
  (forall c r,
     In (c, r)
        (core_calls
           (events (generate_holdings_2 (TaxReport := TaxReport)
                      (ExcelData := ExcelData) (Wires := Wires)
                      do_holdings_2 validate fs b y "" s))) ->
     c = call_do_holdings_2 b fs y (eb_str "")) /\
  taxreport (ExpectedBalance := ExpectedBalance) do_taxes get_zipdata
      jsonable_encoder json_loads Wires_root f b hf "" y s
    = taxreport do_taxes get_zipdata jsonable_encoder json_loads' Wires_root'
        f b hf "" y s /\
  (forall c r,
     In (c, r)
        (core_calls
           (events (taxreport (ExpectedBalance := ExpectedBalance) do_taxes
                      get_zipdata jsonable_encoder json_loads Wires_root
                      f b hf "" y s))) ->
     c = call_do_taxes b f (holdfile_stream hf) (wires_str "") y true).
Proof.
  split_and!.
  - reflexivity.
  - intros c r Hin.
    cbv [generate_holdings_2 try_core bind call logger_exception emit ret
         raise events logging outcome streams handlers truthy_str] in Hin.
    repeat (case_match; simplify_eq); simpl in Hin; split_in; by simplify_eq.
  - reflexivity.
  - intros c r Hin.
    cbv [taxreport try_core bind call capture_logs_start capture_logs_stop
         logger_exception emit ret raise events logging outcome streams
         handlers truthy_str] in Hin.
    repeat (case_match; simplify_eq); simpl in Hin; split_in; by simplify_eq.
Qed.

End WebProps.

(** ** The holdings engine *)

Module CoreProps.
Import DataModels Core.

(** *** Dates *)

Lemma date_leb_refl d : date_leb d d = true.
Proof.
  unfold date_leb.
  by rewrite !Z.ltb_irrefl, !Z.eqb_refl, Z.leb_refl.
Qed.

Lemma date_leb_spec a b :
  date_leb a b = true <->
  year a < year b \/
  (year a = year b /\ (month a < month b \/ (month a = month b /\ day a <= day b))).
Proof.
  unfold date_leb.
  rewrite orb_true_iff, andb_true_iff, orb_true_iff, andb_true_iff.
  rewrite !Z.ltb_lt, !Z.eqb_eq, Z.leb_le. tauto.
Qed.

Lemma date_leb_trans a b c :
  date_leb a b = true -> date_leb b c = true -> date_leb a c = true.
Proof. rewrite !date_leb_spec. lia. Qed.

Lemma date_leb_total a b : date_leb a b = true \/ date_leb b a = true.
Proof. rewrite !date_leb_spec. lia. Qed.

Lemma date_ltb_leb a b : date_ltb a b = true -> date_leb a b = true.
Proof.
  unfold date_ltb. rewrite negb_true_iff. intros Hba.
  destruct (date_leb_total a b) as [H | H]; [done | congruence].
Qed.

(** *** Oldest lot first *)

Lemma fifo_length q lots : length (fifo q lots) = length lots.
Proof. revert q. induction lots as [|l rest IH]; intros q; simpl; auto. Qed.

(** Once nothing is left to take, nothing is taken. *)
Lemma fifo_nothing_left q lots j t :
  q <= 0 -> positive lots -> fifo q lots !! j = Some t -> t <= 0.
Proof.
  revert q j. induction lots as [|l rest IH]; intros q j Hq Hpos Hj; [done|].
  apply Forall_cons in Hpos as [Hl Hrest].
  destruct j as [|j]; simpl in Hj.
  - injection Hj as <-. lia.
  - eapply (IH (q - Z.min q (quantity l))); [lia | done | done].
Qed.

(** By position: a lot behind which something is taken is exhausted. *)
Lemma fifo_exhausts_before q lots i j li tj :
  positive lots ->
  (i < j)%nat ->
  lots !! i = Some li ->
  fifo q lots !! j = Some tj ->
  0 < tj ->
  fifo q lots !! i = Some (quantity li).
Proof.
  revert q i j. induction lots as [|l rest IH]; intros q i j Hpos Hij Hi Hj Ht; [done|].
  apply Forall_cons in Hpos as [Hl Hrest].
  destruct j as [|j]; [lia|]. simpl in Hj.
  destruct i as [|i]; simpl in *.
  - injection Hi as ->. f_equal.
    destruct (Z_le_gt_dec (quantity li) q) as [Hle | Hgt]; [lia|].
    exfalso.
    apply (fifo_nothing_left (q - Z.min q (quantity li)) rest j tj) in Hj;
      [lia | lia | done].
  - apply (IH (q - Z.min q (quantity l)) i j); [done | lia | done..].
Qed.

(** What is taken never exceeds the lot, and is never negative for a sale of
    a quantity that is not. *)
Lemma fifo_within_lot q lots i li t :
  0 <= q -> positive lots ->
  lots !! i = Some li -> fifo q lots !! i = Some t ->
  0 <= t <= quantity li.
Proof.
  revert q i. induction lots as [|l rest IH]; intros q i Hq Hpos Hi Ht; [done|].
  apply Forall_cons in Hpos as [Hl Hrest].
  destruct i as [|i]; simpl in *.
  - injection Hi as ->. injection Ht as <-. lia.
  - eapply (IH (q - Z.min q (quantity l))); eauto. lia.
Qed.

Lemma available_not_negative lots : positive lots -> 0 <= available lots.
Proof.
  induction 1 as [|l rest Hl _ IH]; [done|].
  change (0 <= quantity l + available rest). lia.
Qed.

(** The takes add up to the sale when the ledger holds enough. *)
Lemma fifo_total q lots :
  0 <= q -> positive lots -> q <= available lots ->
  foldr Z.add 0 (fifo q lots) = q.
Proof.
  revert q. induction lots as [|l rest IH]; intros q Hq Hpos Hav.
  - simpl in *. lia.
  - apply Forall_cons in Hpos as [Hl Hrest].
    change (q <= quantity l + available rest) in Hav.
    pose proof (available_not_negative rest Hrest).
    cbn [fifo foldr]. rewrite IH; [lia | lia | done | lia].
Qed.

Lemma ascending_position lots i j li lj :
  ascending lots ->
  lots !! i = Some li -> lots !! j = Some lj ->
  date_ltb (acquired li) (acquired lj) = true ->
  (i < j)%nat.
Proof.
  intros Hasc Hi Hj Hlt.
  destruct (Nat.lt_trichotomy i j) as [H | [-> | H]]; [done | |].
  - rewrite Hi in Hj. injection Hj as ->.
    unfold date_ltb in Hlt. by rewrite date_leb_refl in Hlt.
  - unfold date_ltb in Hlt.
    by rewrite (Hasc j i lj li H Hj Hi) in Hlt.
Qed.

(** *** The ledger invariants are kept *)

Lemma ascending_nil : ascending [].
Proof. intros i j li lj _ Hi. done. Qed.

Lemma ascending_cons l lots :
  ascending (l :: lots) <->
  Forall (fun l' => date_leb (acquired l) (acquired l') = true) lots /\
  ascending lots.
Proof.
  split.
  - intros Hasc. split.
    + apply Forall_lookup. intros j lj Hj.
      by apply (Hasc 0%nat (S j) l lj); [lia | |].
    + intros i j li lj Hij Hi Hj.
      by apply (Hasc (S i) (S j) li lj); [lia | |].
  - intros [Hall Hasc] i j li lj Hij Hi Hj.
    destruct j as [|j]; [lia|]. simpl in Hj.
    destruct i as [|i]; simpl in Hi.
    + injection Hi as <-. by eapply (Forall_lookup_1 _ _ _ _ Hall Hj).
    + eapply Hasc; [|done..]. lia.
Qed.

Lemma insert_lot_elem l lots x :
  x ∈ insert_lot l lots <-> x = l \/ x ∈ lots.
Proof.
  induction lots as [|l' rest IH]; simpl.
  - rewrite list_elem_of_singleton, elem_of_nil. tauto.
  - case_match; rewrite !elem_of_cons, ?IH; tauto.
Qed.

Lemma insert_lot_ascending l lots :
  ascending lots -> ascending (insert_lot l lots).
Proof.
  induction lots as [|l' rest IH]; intros Hasc; simpl.
  - apply ascending_cons. split; [constructor | apply ascending_nil].
  - apply ascending_cons in Hasc as [Hall Hrest].
    destruct (date_leb (acquired l') (acquired l)) eqn:Hle.
    + apply ascending_cons. split; [|by apply IH].
      apply Forall_forall. intros x Hx.
      apply insert_lot_elem in Hx as [-> | Hx]; [done|].
      by eapply (proj1 (Forall_forall _ _) Hall).
    + assert (date_leb (acquired l) (acquired l') = true) as Hle'.
      { destruct (date_leb_total (acquired l) (acquired l')); congruence. }
      apply ascending_cons. split.
      * constructor; [done|].
        eapply Forall_impl; [exact Hall|]. simpl. intros x Hx.
        by eapply date_leb_trans.
      * apply ascending_cons. by split.
Qed.

Lemma insert_lot_positive l lots :
  0 < quantity l -> positive lots -> positive (insert_lot l lots).
Proof.
  intros Hl Hpos. apply Forall_forall. intros x Hx.
  apply insert_lot_elem in Hx as [-> | Hx]; [done|].
  by eapply (proj1 (Forall_forall _ _) Hpos).
Qed.

Lemma reduce_all_elem lots takes x :
  x ∈ reduce_all lots takes ->
  exists i l t,
    lots !! i = Some l /\ acquired x = acquired l /\
    (x = l \/ (takes !! i = Some t /\ quantity x = quantity l - t /\
               quantity x <> 0)).
Proof.
  revert takes. induction lots as [|l rest IH]; intros takes Hx; simpl in Hx.
  - by apply elem_of_nil in Hx.
  - destruct takes as [|t takes].
    + apply list_elem_of_lookup in Hx as [i Hi]. exists i, x, 0. auto.
    + unfold reduce in Hx.
      destruct (quantity l - t =? 0) eqn:Hz.
      * apply IH in Hx as (i & l' & t' & ? & ? & ?). by exists (S i), l', t'.
      * apply Z.eqb_neq in Hz.
        apply elem_of_cons in Hx as [-> | Hx].
        -- exists 0%nat, l, t. simpl. auto 10.
        -- apply IH in Hx as (i & l' & t' & ? & ? & ?). by exists (S i), l', t'.
Qed.

Lemma reduce_all_ascending lots takes :
  ascending lots -> ascending (reduce_all lots takes).
Proof.
  revert takes. induction lots as [|l rest IH]; intros takes Hasc; [done|].
  destruct takes as [|t takes]; [done|]. simpl.
  apply ascending_cons in Hasc as [Hall Hrest].
  assert (Forall (fun l' => date_leb (acquired l) (acquired l') = true)
            (reduce_all rest takes)) as Hall'.
  { apply Forall_forall. intros x Hx.
    apply reduce_all_elem in Hx as (i & l' & _ & Hi & -> & _).
    by eapply (Forall_lookup_1 _ _ _ _ Hall Hi). }
  unfold reduce. destruct (quantity l - t =? 0); [by apply IH|].
  apply ascending_cons. split; [done | by apply IH].
Qed.

Lemma reduce_all_fifo_positive q lots :
  0 <= q -> positive lots -> positive (reduce_all lots (fifo q lots)).
Proof.
  intros Hq Hpos. apply Forall_forall. intros x Hx.
  apply reduce_all_elem in Hx as (i & l & t & Hi & _ & [-> | (Ht & Hqx & Hne)]).
  - by eapply (Forall_lookup_1 _ _ _ _ Hpos Hi).
  - pose proof (fifo_within_lot q lots i l t Hq Hpos Hi Ht). lia.
Qed.

Lemma lots_of_insert (ledger : LotLedger) sec sec' lots :
  lots_of (<[sec := lots]> ledger) sec'
    = if decide (sec = sec') then lots else lots_of ledger sec'.
Proof. unfold lots_of. rewrite lookup_insert. by case_decide. Qed.

Lemma well_formed_empty : well_formed ∅.
Proof.
  intros sec. unfold lots_of. rewrite lookup_empty. simpl.
  split; [apply ascending_nil | constructor].
Qed.

Lemma apply_event_well_formed ledger ev ledger' :
  well_formed ledger -> sound_event ev ->
  apply_event ledger ev = inr ledger' ->
  well_formed ledger'.
Proof.
  intros Hwf Hev Happ sec'.
  destruct ev as [l | sec on qty p c r | | |]; simpl in *;
    try (injection Happ as <-; apply Hwf).
  - injection Happ as <-. unfold deposit. rewrite lots_of_insert.
    case_decide; [|apply Hwf].
    destruct (Hwf (security l)).
    split; [by apply insert_lot_ascending | by apply insert_lot_positive].
  - destruct (available (lots_of ledger sec) <? qty); [done|].
    injection Happ as <-. rewrite lots_of_insert.
    case_decide; [|apply Hwf].
    destruct (Hwf sec).
    split; [by apply reduce_all_ascending | apply reduce_all_fifo_positive; [lia | done]].
Qed.

Lemma replay_well_formed evs ledger ledger' :
  well_formed ledger -> Forall sound_event evs ->
  replay ledger evs = inr ledger' ->
  well_formed ledger'.
Proof.
  revert ledger. induction evs as [|ev evs IH]; intros ledger Hwf Hevs Hrep; simpl in Hrep.
  - by injection Hrep as <-.
  - apply Forall_cons in Hevs as [Hev Hevs].
    destruct (apply_event ledger ev) as [e | ledger1] eqn:Happ; [done|].
    eapply IH; [|done..]. by eapply apply_event_well_formed.
Qed.

(** *** The rule of section 4.2 and the allotment [fifo] makes *)

Lemma takes_sum_zero (takes : list Z) :
  (forall j t, takes !! j = Some t -> t = 0) -> foldr Z.add 0 takes = 0.
Proof.
  induction takes as [|t ts IH]; intros Hall; simpl; [done|].
  rewrite (Hall 0%nat t eq_refl), IH; [done|].
  intros j t' Hj. by apply (Hall (S j)).
Qed.

Lemma takes_sum_not_negative (takes : list Z) :
  (forall j t, takes !! j = Some t -> 0 <= t) -> 0 <= foldr Z.add 0 takes.
Proof.
  induction takes as [|t ts IH]; intros Hall; simpl; [done|].
  pose proof (Hall 0%nat t eq_refl).
  assert (0 <= foldr Z.add 0 ts); [|lia].
  apply IH. intros j t' Hj. by apply (Hall (S j)).
Qed.

Lemma oldest_first_cons q l rest t ts :
  oldest_first q (l :: rest) (t :: ts) ->
  0 <= t <= quantity l /\
  oldest_first (q - t) rest ts /\
  (forall j t', ts !! j = Some t' -> 0 < t' -> t = quantity l).
Proof.
  intros [Hlen Hwithin Htotal Horder]. simpl in *. split; [|split].
  - by apply (Hwithin 0%nat).
  - split.
    + lia.
    + intros i l' t' Hi Ht. by apply (Hwithin (S i)).
    + lia.
    + intros i j l' t' Hij Hi Hj Ht.
      by apply (Horder (S i) (S j) l' t'); [lia | | |].
  - intros j t' Hj Ht.
    pose proof (Horder 0%nat (S j) l t' ltac:(lia) eq_refl Hj Ht) as Heq.
    by injection Heq.
Qed.

Lemma oldest_first_not_negative q lots takes j t :
  oldest_first q lots takes -> takes !! j = Some t -> 0 <= t.
Proof.
  intros [Hlen Hwithin _ _] Hj.
  destruct (lots !! j) as [l|] eqn:Hl.
  - by destruct (Hwithin j l t Hl Hj).
  - apply lookup_ge_None in Hl. apply lookup_lt_Some in Hj. lia.
Qed.

(** The rule leaves no choice: the only allotment is the one [fifo] makes. *)
Lemma oldest_first_unique q lots takes :
  oldest_first q lots takes -> takes = fifo q lots.
Proof.
  revert q takes. induction lots as [|l rest IH]; intros q takes Hof.
  - destruct Hof as [Hlen _ _ _]. by destruct takes.
  - destruct takes as [|t ts]; [by destruct Hof|].
    pose proof (takes_total _ _ _ Hof) as Htotal. simpl in Htotal.
    apply oldest_first_cons in Hof as ((Ht0 & Htl) & Hrest & Hfirst).
    assert (0 <= foldr Z.add 0 ts) as Hsum.
    { apply takes_sum_not_negative. intros j t' Hj.
      by eapply oldest_first_not_negative. }
    assert (t = Z.min q (quantity l)) as ->.
    { destruct (Z.eq_dec t (quantity l)) as [-> | Hne]; [lia|].
      assert (foldr Z.add 0 ts = 0) as Hzero; [|lia].
      apply takes_sum_zero. intros j t' Hj.
      pose proof (oldest_first_not_negative _ _ _ j t' Hrest Hj).
      destruct (Z.eq_dec t' 0) as [|Hpos]; [done|].
      exfalso. apply Hne. apply (Hfirst j t' Hj). lia. }
    simpl. f_equal. by apply IH.
Qed.

(** And [fifo] makes one whenever the ledger holds enough. *)
Lemma fifo_oldest_first q lots :
  0 <= q -> positive lots -> q <= available lots ->
  oldest_first q lots (fifo q lots).
Proof.
  intros Hq Hpos Hav. split.
  - apply fifo_length.
  - intros i l t. by apply fifo_within_lot.
  - by apply fifo_total.
  - intros i j l t Hij Hi Hj Ht. by eapply fifo_exhausts_before.
Qed.

(** C5.  Disposal matching is oldest-lot-first.  On the ledger of the
    example, whichever lot was deposited first, a sale of 15 takes all 10
    units of the 2020 lot and 5 of the 2021 lot, leaving 5 units of the 2021
    lot.  In general, on lots in date order, a sale takes something from a
    lot only when every lot of an earlier date is taken whole; what the
    matcher takes obeys the rule of section 4.2, and nothing else does. *)
Theorem fifo_oldest_lot_first :
  (lots_of ledger_2021_2020 "ACME" = [lot_2020; lot_2021] /\
   lots_of ledger_2020_2021 "ACME" = [lot_2020; lot_2021] /\
   fifo 15 [lot_2020; lot_2021] = [10; 5] /\
   match_sale ledger_2021_2020 "ACME" sale_date 15
     = inr ([(lot_2020, 10); (lot_2021, 5)], {["ACME" := [lot_2021_left]]})) /\
  (forall q lots,
     0 <= q <= available lots -> positive lots ->
     oldest_first q lots (fifo q lots) /\
     forall takes, oldest_first q lots takes -> takes = fifo q lots) /\
  (forall q lots i j li lj tj,
     ascending lots -> positive lots ->
     lots !! i = Some li -> lots !! j = Some lj ->
     date_ltb (acquired li) (acquired lj) = true ->
     fifo q lots !! j = Some tj -> 0 < tj ->
     fifo q lots !! i = Some (quantity li)).
Proof.
  split; [|split].
  - repeat split; vm_compute; reflexivity.
  - intros q lots [Hq Hav] Hpos. split.
    + by apply fifo_oldest_first.
    + apply oldest_first_unique.
  - intros q lots i j li lj tj Hasc Hpos Hi Hj Hlt Htj Hpos_tj.
    eapply fifo_exhausts_before; [done | | done | done | done].
    by eapply ascending_position.
Qed.

Lemma fifo_oldest_lot_first_witness :
  oldest_first 15 [lot_2020; lot_2021] (fifo 15 [lot_2020; lot_2021]) /\
  fifo 15 [lot_2020; lot_2021] !! 0%nat = Some (quantity lot_2020).
Proof.
  assert (positive [lot_2020; lot_2021]) as Hpos by (repeat constructor).
  split.
  - refine (proj1 (proj1 (proj2 fifo_oldest_lot_first) 15 [lot_2020; lot_2021]
                     _ Hpos)).
    change (0 <= 15 <= 20). lia.
  - refine (proj2 (proj2 fifo_oldest_lot_first) 15 [lot_2020; lot_2021]
              0%nat 1%nat lot_2020 lot_2021 5 _ Hpos eq_refl eq_refl eq_refl
              eq_refl _).
    + intros [|[|i]] [|[|j]] li lj Hij Hi Hj; simplify_eq/=; try lia; done.
    + lia.
Defined.

(** *** Runs of the strategies *)

Lemma step_unique ledger ev out :
  step ledger ev out -> out = apply_event ledger ev.
Proof.
  destruct 1 as [ledger l | ledger sec on qty p c r takes Hle Htakes
                 | ledger sec on qty p c r Hlt | | |]; simpl; try done.
  - apply oldest_first_unique in Htakes as ->.
    by rewrite (proj2 (Z.ltb_ge _ _) Hle).
  - by rewrite (proj2 (Z.ltb_lt _ _) Hlt).
Qed.

Lemma apply_event_step ledger ev :
  well_formed ledger -> sound_event ev ->
  step ledger ev (apply_event ledger ev).
Proof.
  intros Hwf Hev.
  destruct ev as [l | sec on qty p c r | | |]; simpl in *; try constructor.
  destruct (available (lots_of ledger sec) <? qty) eqn:Hlt.
  - apply Z.ltb_lt in Hlt. by constructor.
  - apply Z.ltb_ge in Hlt. destruct (Hwf sec) as [_ Hpos].
    constructor; [done | apply fifo_oldest_first; [lia | done | done]].
Qed.

Lemma replays_unique ledger evs out :
  replays ledger evs out -> out = replay ledger evs.
Proof.
  induction 1 as [ledger | ledger ev ledger' evs out Hstep _ IH
                  | ledger ev e evs Hstep]; simpl.
  - done.
  - apply step_unique in Hstep. by rewrite <- Hstep.
  - apply step_unique in Hstep. by rewrite <- Hstep.
Qed.

Lemma replay_replays ledger evs :
  well_formed ledger -> Forall sound_event evs ->
  replays ledger evs (replay ledger evs).
Proof.
  revert ledger. induction evs as [|ev evs IH]; intros ledger Hwf Hevs; simpl;
    [constructor|].
  apply Forall_cons in Hevs as [Hev Hevs].
  pose proof (apply_event_step ledger ev Hwf Hev) as Hstep.
  destruct (apply_event ledger ev) as [e | ledger'] eqn:Happ.
  - by apply replays_fail.
  - eapply replays_next; [done|]. apply IH; [|done].
    by eapply apply_event_well_formed.
Qed.

Lemma first_mismatch_None ledger expected :
  first_mismatch ledger expected = None <->
  Forall (fun sq => available (lots_of ledger sq.1) = sq.2) expected.
Proof.
  induction expected as [|[sec q] rest IH]; simpl.
  - split; [constructor | done].
  - rewrite Forall_cons. simpl.
    destruct (available (lots_of ledger sec) =? q) eqn:Heq.
    + apply Z.eqb_eq in Heq. rewrite IH. tauto.
    + apply Z.eqb_neq in Heq. split; [done | tauto].
Qed.

Lemma first_mismatch_Some ledger expected sec delta :
  first_mismatch ledger expected = Some (sec, delta) ->
  exists q,
    In (sec, q) expected /\ available (lots_of ledger sec) <> q /\
    delta = available (lots_of ledger sec) - q.
Proof.
  induction expected as [|[sec' q'] rest IH]; simpl; [done|].
  destruct (available (lots_of ledger sec') =? q') eqn:Heq.
  - intros (q & ? & ?)%IH. eauto.
  - apply Z.eqb_neq in Heq. intros [= <- <-]. eauto.
Qed.

Lemma filter_sound (P : TransactionEvent -> Prop) `{forall ev, Decision (P ev)} evs :
  Forall sound_event evs -> Forall sound_event (filter P evs).
Proof.
  rewrite !Forall_forall. intros Hall ev [_ Hin]%list_elem_of_filter. auto.
Qed.

(** Every strategy has a run on every well-formed input: the one
    [reconstruct] computes. *)
Lemma reconstruct_runs input :
  sound_input input -> reconstructs input (reconstruct input).
Proof.
  destruct input as [history | prior incremental | incremental anchor | history];
    simpl; intros Hsound.
  - constructor. by apply replay_replays; [apply well_formed_empty|].
  - destruct Hsound as [Hprior Hinc]. constructor.
    apply replay_replays; [apply well_formed_empty|]. by apply Forall_app.
  - assert (Forall sound_event (up_to (reference_date anchor) incremental)) as Hup
      by (by apply filter_sound).
    assert (Forall sound_event (beyond (reference_date anchor) incremental)) as Hbe
      by (by apply filter_sound).
    pose proof (replay_replays ∅ _ well_formed_empty Hup) as Hupto.
    destruct (replay ∅ (up_to (reference_date anchor) incremental))
      as [e | at_reference] eqn:Hrep; [by constructor|].
    destruct (first_mismatch at_reference (expected anchor)) as [[sec delta]|] eqn:Hm.
    + apply first_mismatch_Some in Hm as (q & Hin & Hne & ->).
      by eapply reconstructs_anchored_mismatch.
    + apply first_mismatch_None in Hm.
      eapply reconstructs_anchored; [done | done |].
      apply replay_replays; [|done].
      by eapply replay_well_formed; [apply well_formed_empty | exact Hup |].
  - constructor. by apply replay_replays; [apply well_formed_empty|].
Qed.

(** A run that ends in a ledger ends in the ledger [reconstruct] computes. *)
Lemma reconstructs_ledger input ledger :
  reconstructs input (inr ledger) -> reconstruct input = inr ledger.
Proof.
  inversion 1 as [history out Hrep | prior incremental out Hrep
                  | incremental anchor at_reference out Hupto Hrec Hrep
                  | | | history out Hrep]; subst; simpl;
    try (by apply replays_unique in Hrep).
  apply replays_unique in Hupto as <-.
  apply first_mismatch_None in Hrec as ->.
  by apply replays_unique in Hrep.
Qed.

(** C7.  The strategies are deterministic: two runs of one strategy on the
    same input that both end in a ledger end in the same ledger, with the
    same lots in the same order under every security. *)
Theorem reconstruction_is_deterministic input ledger1 ledger2 :
  reconstructs input (inr ledger1) ->
  reconstructs input (inr ledger2) ->
  ledger1 = ledger2 /\
  forall sec, lots_of ledger1 sec = lots_of ledger2 sec.
Proof.
  intros H1%reconstructs_ledger H2%reconstructs_ledger.
  assert (ledger1 = ledger2) as -> by congruence. done.
Qed.

Lemma reconstruction_is_deterministic_witness :
  ({["ACME" := [lot_2021_left]]} : LotLedger) = {["ACME" := [lot_2021_left]]} /\
  forall sec,
    lots_of ({["ACME" := [lot_2021_left]]} : LotLedger) sec
      = lots_of {["ACME" := [lot_2021_left]]} sec.
Proof.
  assert (reconstruct (FullHistory history_example)
            = inr {["ACME" := [lot_2021_left]]}) as Hrun
    by (vm_compute; reflexivity).
  assert (sound_input (FullHistory history_example)) as Hsound
    by (repeat constructor).
  pose proof (reconstruct_runs (FullHistory history_example) Hsound) as Hrel.
  rewrite Hrun in Hrel.
  exact (reconstruction_is_deterministic (FullHistory history_example) _ _
           Hrel Hrel).
Defined.

End CoreProps.

(** ** Holdings snapshots *)

Module SnapshotProps.
Import DataModels Core PyFloat Json Snapshot.

Lemma digit_value_digit n : 0 <= n <= 9 -> digit_value (digit n) = Some n.
Proof.
  intros Hn.
  assert (exists k, n = Z.of_nat k /\ (k < 10)%nat) as (k & -> & Hk)
    by (exists (Z.to_nat n); split; lia).
  do 10 (destruct k as [|k]; [reflexivity|]). lia.
Qed.

Lemma days_in_month_le y m : days_in_month y m <= 31.
Proof. unfold days_in_month. repeat case_match; lia. Qed.

Lemma fromisoformat_isoformat d :
  valid_date d = true -> fromisoformat (isoformat d) = Some d.
Proof.
  intros Hv. pose proof Hv as Hv'.
  unfold valid_date in Hv'. rewrite !andb_true_iff, !Z.leb_le in Hv'.
  destruct Hv' as (((((Hy1 & Hy2) & Hm1) & Hm2) & Hd1) & Hd2).
  pose proof (days_in_month_le (year d) (month d)).
  unfold isoformat, fromisoformat.
  rewrite !digit_value_digit by (Z.div_mod_to_equations; lia).
  simpl.
  replace (1000 * (year d / 1000) + 100 * (year d / 100 mod 10)
           + 10 * (year d / 10 mod 10) + year d mod 10) with (year d)
    by (Z.div_mod_to_equations; lia).
  replace (10 * (month d / 10) + month d mod 10) with (month d)
    by (Z.div_mod_to_equations; lia).
  replace (10 * (day d / 10) + day d mod 10) with (day d)
    by (Z.div_mod_to_equations; lia).
  destruct d as [y m dd]. simpl in *. by rewrite Hv.
Qed.

#[local] Arguments isoformat : simpl never.
#[local] Arguments fromisoformat : simpl never.
#[local] Arguments ledger_dict : simpl never.
#[local] Arguments parse_ledger : simpl never.
#[local] Arguments dump_decimal : simpl never.
#[local] Arguments load_decimal : simpl never.

(** What is read of the document of a lot: the lot, its two amounts taken
    through JSON. *)
Lemma parse_Lot_dict l l' :
  valid_lot l ->
  parse_obj_as_Lot (Lot_dict l) = Some l' <-> Lot_through_json l l'.
Proof.
  intros Hl. unfold parse_obj_as_Lot, Lot_dict, Lot_through_json, through_json.
  cbn. rewrite fromisoformat_isoformat by done. cbn.
  destruct (load_decimal (dump_decimal (cost_basis l))) as [basis|]; cbn;
    [|split; [done|]; by intros (_ & _ & _ & _ & _ & ? & _)].
  destruct (load_decimal (dump_decimal (rate l))) as [r|]; cbn;
    [|split; [done|]; by intros (_ & _ & _ & _ & _ & _ & ?)].
  split.
  - intros [= <-]. by cbn.
  - destruct l'; cbn. intros (-> & -> & -> & -> & -> & [= ->] & [= ->]). done.
Qed.

Lemma parse_lots_dict lots lots' :
  Forall valid_lot lots ->
  parse_lots (lots_dict lots) = Some lots' <-> Forall2 Lot_through_json lots lots'.
Proof.
  intros Hlots. unfold parse_lots, lots_dict.
  rewrite mapM_Some, Forall2_fmap_l.
  split; intros HF.
  - induction HF as [|l l' ls ls' H ? IH]; constructor.
    + apply parse_Lot_dict; [by inversion Hlots|done].
    + apply IH. by inversion Hlots.
  - induction HF as [|l l' ls ls' H ? IH]; constructor.
    + cbn. apply parse_Lot_dict; [by inversion Hlots|done].
    + apply IH. by inversion Hlots.
Qed.

Lemma list_to_map_Forall2 {A B} (R : A -> B -> Prop)
    (l : list (string * A)) (k : list (string * B)) :
  Forall2 (fun kv kv' => kv'.1 = kv.1 /\ R kv.2 kv'.2) l k ->
  forall sec,
    option_Forall2 R ((list_to_map l : gmap string A) !! sec)
      ((list_to_map k : gmap string B) !! sec).
Proof.
  induction 1 as [|[s a] [s' b] l k [Hs HR] _ IH]; intros sec; cbn in *.
  - rewrite !lookup_empty. constructor.
  - subst s'. destruct (decide (s = sec)) as [->|Hne].
    + rewrite !lookup_insert_eq. by constructor.
    + rewrite !lookup_insert_ne by done. apply IH.
Qed.

Lemma parse_ledger_dict (ledger ledger' : LotLedger) :
  (forall sec lots, ledger !! sec = Some lots -> Forall valid_lot lots) ->
  parse_ledger (ledger_dict ledger) = Some ledger' ->
  forall sec,
    option_Forall2 (Forall2 Lot_through_json) (ledger !! sec) (ledger' !! sec).
Proof.
  intros Hvalid. unfold parse_ledger, ledger_dict.
  intros Hparse sec.
  apply fmap_Some in Hparse as (kvs & Hkvs & ->).
  apply mapM_Some in Hkvs. rewrite Forall2_fmap_l in Hkvs.
  rewrite <- (list_to_map_to_list ledger) at 1.
  apply list_to_map_Forall2.
  assert (Forall (fun kv => Forall valid_lot kv.2) (map_to_list ledger)) as Hall.
  { apply Forall_forall. intros [s lots] Hin%elem_of_map_to_list. eauto. }
  induction Hkvs as [|[s lots] [s' lots'] l k Hhd _ IH]; constructor.
  - cbn in Hhd. apply bind_Some in Hhd as (lots'' & Hlots & [= <- <-]).
    split; [done|]. cbn. apply parse_lots_dict; [|done].
    by inversion Hall.
  - apply IH. by inversion Hall.
Qed.

Lemma parse_ledger_dict_is_Some (ledger : LotLedger) :
  (forall sec lots, ledger !! sec = Some lots -> Forall valid_lot lots) ->
  (forall sec lots, ledger !! sec = Some lots ->
     Forall (fun l => is_Some (through_json (cost_basis l)) /\
                      is_Some (through_json (rate l))) lots) ->
  is_Some (parse_ledger (ledger_dict ledger)).
Proof.
  intros Hvalid Hsome. unfold parse_ledger, ledger_dict.
  apply fmap_is_Some, mapM_is_Some, Forall_fmap, Forall_forall.
  intros [sec lots] Hin%elem_of_map_to_list.
  unfold compose, prod_map. cbn [fst snd id].
  assert (is_Some (parse_lots (lots_dict lots))) as [lots' ->]; [|by eexists].
  specialize (Hvalid _ _ Hin). specialize (Hsome _ _ Hin).
  clear Hin. induction lots as [|l lots IH].
  - by eexists.
  - inversion Hvalid; inversion Hsome; subst.
    destruct IH as [lots' Hlots']; [done..|].
    match goal with H : is_Some _ /\ is_Some _ |- _ =>
      destruct H as [[basis Hbasis] [r Hr]] end.
    exists ({| security := security l; acquired := acquired l;
               sequence := sequence l; quantity := quantity l;
               cost_basis := basis; lot_currency := lot_currency l;
               rate := r |} :: lots').
    apply parse_lots_dict; [by constructor|].
    constructor; [by repeat split|].
    by apply parse_lots_dict.
Qed.

(** What is read of the document of a snapshot. *)
Lemma parse_Holdings_dict h h' :
  valid_holdings h ->
  parse_obj_as_Holdings (Holdings_dict h) = Some h' ->
  Holdings_through_json h h'.
Proof.
  intros [Hdate Hlots]. unfold parse_obj_as_Holdings, Holdings_dict. cbn.
  rewrite fromisoformat_isoformat by done. cbn.
  destruct (parse_ledger (ledger_dict (ledger h))) as [ledger'|] eqn:Hledger;
    [|done].
  cbn. intros [= <-]. split; [done|]. cbn.
  by apply parse_ledger_dict.
Qed.

Lemma parse_Holdings_dict_is_Some h :
  valid_holdings h ->
  (forall sec lots, ledger h !! sec = Some lots ->
     Forall (fun l => is_Some (through_json (cost_basis l)) /\
                      is_Some (through_json (rate l))) lots) ->
  is_Some (parse_obj_as_Holdings (Holdings_dict h)).
Proof.
  intros [Hdate Hlots] Hsome. unfold parse_obj_as_Holdings, Holdings_dict. cbn.
  rewrite fromisoformat_isoformat by done. cbn.
  destruct (parse_ledger_dict_is_Some (ledger h)) as [ledger' ->]; [done..|].
  by eexists.
Qed.

Lemma survives_is_Some d : survives d = true -> is_Some (through_json d).
Proof. unfold survives. destruct (through_json d); [by eexists|done]. Qed.

(** Lots read back are equal to the lots written where the amounts
    survive, and only there. *)
Lemma equal_Lot_iff l l' :
  Lot_through_json l l' ->
  equal_Lot l l' <-> survives (cost_basis l) = true /\ survives (rate l) = true.
Proof.
  unfold Lot_through_json, equal_Lot, survives.
  intros (-> & -> & -> & -> & -> & -> & ->). tauto.
Qed.

Lemma equal_lots_iff lots lots' :
  Forall2 Lot_through_json lots lots' ->
  Forall2 equal_Lot lots lots' <->
  Forall (fun l => survives (cost_basis l) = true /\ survives (rate l) = true)
    lots.
Proof.
  induction 1 as [|l l' lots lots' Hl _ IH].
  - split; constructor.
  - split.
    + inversion 1; subst. constructor; [by apply (equal_Lot_iff l l')|by apply IH].
    + inversion 1; subst. constructor; [by apply equal_Lot_iff|by apply IH].
Qed.

Lemma equal_Holdings_iff h h' :
  Holdings_through_json h h' ->
  equal_Holdings h h' <-> amounts_survive h.
Proof.
  intros [Hdate Hledger]. unfold equal_Holdings, amounts_survive. split.
  - intros [_ Heq] sec lots Hsec.
    specialize (Hledger sec). specialize (Heq sec). rewrite Hsec in *.
    inversion Hledger as [lots0 lots' Hthrough Hlots0 Hsec'|]; subst.
    rewrite <- Hsec' in Heq. inversion Heq; subst.
    by apply (equal_lots_iff lots lots').
  - intros Hsurvive. split; [done|]. intros sec.
    specialize (Hledger sec).
    destruct (ledger h !! sec) as [lots|] eqn:Hsec;
      inversion Hledger as [lots0 lots' Hthrough Hlots0 Hsec'|]; subst;
      constructor.
    apply equal_lots_iff; [done|]. eauto.
Qed.

(** C6, as the code has it.  A holdings snapshot, written as the text
    [holdings.json(indent=4)] and read with [json.loads] and [parse_obj_as],
    where [json.loads] reads of the text the document that was written: what
    is read is the snapshot with every amount taken through JSON (an amount
    with fraction digits through a [float]), the boundary date and, under
    every security, the lots and their order as they were; it is equal to
    the snapshot written exactly when every amount survives that passage. *)
Theorem holdings_snapshot_round_trip h :
  valid_holdings h ->
  loads (Holdings_json_text h) = Some (Holdings_dict h) ->
  (forall h', read_back (Holdings_json_text h) = Py.Returned h' ->
     Holdings_through_json h h' /\ (equal_Holdings h h' <-> amounts_survive h)) /\
  (amounts_survive h ->
     exists h', read_back (Holdings_json_text h) = Py.Returned h' /\
                equal_Holdings h h').
Proof.
  intros Hvalid Hloads. unfold read_back, json_loads. rewrite Hloads.
  unfold call_parse_obj_as_Holdings.
  assert (forall h', parse_obj_as_Holdings (Holdings_dict h) = Some h' ->
            Holdings_through_json h h' /\
            (equal_Holdings h h' <-> amounts_survive h)) as Hback.
  { intros h' Hparse. pose proof (parse_Holdings_dict h h' Hvalid Hparse).
    split; [done|]. by apply equal_Holdings_iff. }
  split.
  - intros h' Hread.
    destruct (parse_obj_as_Holdings (Holdings_dict h)) as [h''|] eqn:Hparse;
      [|done].
    injection Hread as ->. by apply Hback.
  - intros Hsurvive.
    destruct (parse_Holdings_dict_is_Some h Hvalid) as [h' Hparse].
    { intros sec lots Hsec. eapply Forall_impl; [by eapply Hsurvive|].
      intros l [? ?]. split; by apply survives_is_Some. }
    rewrite Hparse. exists h'. split; [done|].
    by apply Hback.
Qed.

Lemma holdings_2022_cents_valid : valid_holdings holdings_2022_cents.
Proof.
  split; [reflexivity|].
  intros sec lots Hlots. cbn [ledger holdings_2022_cents] in Hlots.
  apply lookup_singleton_Some in Hlots as [_ <-].
  by repeat constructor.
Qed.

Lemma holdings_2022_cents_survive : amounts_survive holdings_2022_cents.
Proof.
  intros sec lots Hlots. cbn [ledger holdings_2022_cents] in Hlots.
  apply lookup_singleton_Some in Hlots as [_ <-].
  repeat constructor; by vm_compute.
Qed.

Lemma holdings_snapshot_round_trip_witness :
  exists h',
    read_back (Holdings_json_text holdings_2022_cents) = Py.Returned h' /\
    equal_Holdings holdings_2022_cents h'.
Proof.
  refine (proj2 (holdings_snapshot_round_trip holdings_2022_cents
                   holdings_2022_cents_valid _) holdings_2022_cents_survive).
  vm_compute. reflexivity.
Defined.

(** A rate of nineteen fraction digits is read back with seventeen: the
    snapshot read is not the snapshot written. *)
Lemma long_rate_is_read_back_shorter :
  read_back (Holdings_json_text holdings_2022_long_rate)
  = Py.Returned holdings_2022_long_rate_back /\
  through_json {| Py.coefficient := 1234567890123456789; Py.exponent := -19 |}
  = Some {| Py.coefficient := 12345678901234568; Py.exponent := -17 |} /\
  survives (rate lot_2021_long_rate) = false /\
  ~ equal_Holdings holdings_2022_long_rate holdings_2022_long_rate_back.
Proof.
  split_and!.
  - vm_compute. reflexivity.
  - vm_compute. reflexivity.
  - vm_compute. reflexivity.
  - intros [_ Heq]. specialize (Heq "ACME").
    cbn [ledger holdings_2022_long_rate holdings_2022_long_rate_back] in Heq.
    rewrite !lookup_singleton_eq in Heq.
    inversion Heq as [lots lots' Hlots|]; subst.
    inversion Hlots as [|l l' ? ? Hl]; subst.
    destruct Hl as (_ & _ & _ & _ & _ & _ & Hrate).
    vm_compute in Hrate. discriminate.
Qed.

(** *** In the command-line wrapper *)

#[local] Arguments Holdings_dict : simpl never.
#[local] Arguments parse_obj_as_Holdings : simpl never.

Section Cli.
Context {Summary ReportBody FileBinaryRead FileText : Type}.
Variable do_taxes :
  Cli.BrokerEnum -> list FileBinaryRead -> option FileText -> option FileText ->
  Z -> bool -> Cli.OpeningBalance Holdings ->
  Py.called (Cli.TaxResult Holdings Summary ReportBody).
Variable pydantic : Cli.Pydantic Holdings ReportBody.

Local Abbreviation run a :=
  (Cli.main json_loads call_parse_obj_as_Holdings do_taxes pydantic a).

(** A run whose opening balance is a text, not the empty one: [do_taxes] is
    called once, with what lines 53 and 54 read of the text; when they raise,
    it is not called and the run ends with their exception. *)
Lemma opening_text_read (a : Cli.Args FileBinaryRead FileText) s :
  is_Some (Cli.getLevelNamesMapping !! Cli.loglevel a) ->
  Cli.opening_balance a = Some s ->
  Py.truthy_str s = true ->
  match read_back s with
  | Py.Returned h' =>
      Cli.do_taxes_calls (Cli.trace (run a))
      = [(Cli.ob_Holdings h',
          do_taxes (Cli.broker a) (Cli.transaction_files a) (Cli.inholdings a)
            (Cli.wires a) (Cli.year a) (Cli.verbose a) (Cli.ob_Holdings h'))]
  | Py.Raised e =>
      Cli.do_taxes_calls (Cli.trace (run a)) = [] /\
      Cli.outcome (run a) = Py.Raise (Py.Foreign e)
  end.
Proof.
  intros [level Hlevel] Hob Htext.
  pose proof (CliProps.main_do_taxes_calls json_loads
    call_parse_obj_as_Holdings do_taxes pydantic a) as Hcalls.
  unfold read_back.
  unfold Cli.main, Cli.configure_logging, Cli.read_opening_balance in Hcalls |- *.
  rewrite Hlevel, Hob, Htext in Hcalls |- *. revert Hcalls.
  generalize (json_loads s) call_parse_obj_as_Holdings. clear.
  intros [j|e] parse Hcalls.
  - cbn in Hcalls |- *. destruct (parse j) as [h'|e] eqn:Hparse.
    + by rewrite Hcalls.
    + split; [by rewrite Hcalls|done].
  - split; [by rewrite Hcalls|done].
Qed.

(** A run given, as its opening balance, the text an earlier run wrote for a
    snapshot calls [do_taxes] once, with what is read back of the text: the
    snapshot, its amounts taken through JSON.  When the text cannot be read
    back, [do_taxes] is not called. *)
Lemma opening_balance_is_the_snapshot (a : Cli.Args FileBinaryRead FileText) h :
  valid_holdings h ->
  loads (Holdings_json_text h) = Some (Holdings_dict h) ->
  is_Some (Cli.getLevelNamesMapping !! Cli.loglevel a) ->
  Cli.opening_balance a = Some (Holdings_json_text h) ->
  (forall h', read_back (Holdings_json_text h) = Py.Returned h' ->
     Holdings_through_json h h' /\
     Cli.do_taxes_calls (Cli.trace (run a))
     = [(Cli.ob_Holdings h',
         do_taxes (Cli.broker a) (Cli.transaction_files a) (Cli.inholdings a)
           (Cli.wires a) (Cli.year a) (Cli.verbose a) (Cli.ob_Holdings h'))]) /\
  (forall e, read_back (Holdings_json_text h) = Py.Raised e ->
     Cli.do_taxes_calls (Cli.trace (run a)) = [] /\
     Cli.outcome (run a) = Py.Raise (Py.Foreign e)).
Proof.
  intros Hvalid Hloads Hlevel Hob.
  pose proof (holdings_snapshot_round_trip h Hvalid Hloads) as [Hback _].
  revert Hloads Hob Hback. generalize (Holdings_json_text h). intros s Hloads Hob Hback.
  assert (Py.truthy_str s = true) as Htext.
  { destruct s; [discriminate Hloads|done]. }
  pose proof (opening_text_read a s Hlevel Hob Htext) as Hrun.
  split.
  - intros h' Hread. rewrite Hread in Hrun. split; [by apply Hback|done].
  - intros e Hread. by rewrite Hread in Hrun.
Qed.

End Cli.

Lemma opening_balance_is_the_snapshot_witness :
  Cli.do_taxes_calls
    (Cli.trace (Cli.main json_loads call_parse_obj_as_Holdings do_taxes_holdings
                  (Cli.pydantic_1 Cli.copy_shallow) (args_opening_balance holdings_2022_cents)))
  = [(Cli.ob_Holdings holdings_2022_cents,
      Py.Returned (Cli.is_Holdings holdings_2022_cents))].
Proof.
  refine (proj2 (proj1 (opening_balance_is_the_snapshot do_taxes_holdings
            (Cli.pydantic_1 Cli.copy_shallow) (args_opening_balance holdings_2022_cents)
            holdings_2022_cents holdings_2022_cents_valid _ _ eq_refl)
            holdings_2022_cents _)).
  - vm_compute. reflexivity.
  - by eexists.
  - vm_compute. reflexivity.
Defined.

(** The text of the example, as it stands in the file. *)
Example holdings_2022_cents_text :
  Holdings_json_text holdings_2022_cents
  = text
      (chars "{" ++ newline_indent 1
         ++ [quote] ++ chars "as_of" ++ [quote] ++ chars ": "
         ++ [quote] ++ chars "2022-12-31" ++ [quote] ++ chars ","
         ++ newline_indent 1
         ++ [quote] ++ chars "ledger" ++ [quote] ++ chars ": {"
         ++ newline_indent 2
         ++ [quote] ++ chars "ACME" ++ [quote] ++ chars ": ["
         ++ newline_indent 3 ++ chars "{"
         ++ newline_indent 4
         ++ [quote] ++ chars "security" ++ [quote] ++ chars ": "
         ++ [quote] ++ chars "ACME" ++ [quote] ++ chars ","
         ++ newline_indent 4
         ++ [quote] ++ chars "acquired" ++ [quote] ++ chars ": "
         ++ [quote] ++ chars "2021-01-01" ++ [quote] ++ chars ","
         ++ newline_indent 4
         ++ [quote] ++ chars "sequence" ++ [quote] ++ chars ": 1,"
         ++ newline_indent 4
         ++ [quote] ++ chars "quantity" ++ [quote] ++ chars ": 5,"
         ++ newline_indent 4
         ++ [quote] ++ chars "cost_basis" ++ [quote] ++ chars ": 150.75,"
         ++ newline_indent 4
         ++ [quote] ++ chars "lot_currency" ++ [quote] ++ chars ": "
         ++ [quote] ++ chars "USD" ++ [quote] ++ chars ","
         ++ newline_indent 4
         ++ [quote] ++ chars "rate" ++ [quote] ++ chars ": 9.8765"
         ++ newline_indent 3 ++ chars "}"
         ++ newline_indent 2 ++ chars "]"
         ++ newline_indent 1 ++ chars "}"
         ++ newline_indent 0 ++ chars "}").
Proof. vm_compute. reflexivity. Qed.

(** The document of the example of the design document, member by member:
    its amounts have no fraction digits and are written as [int]s. *)
Example holdings_2022_document :
  Holdings_dict holdings_2022
  = JObject
      [("as_of", JString "2022-12-31");
       ("ledger",
        JObject
          [("ACME",
            JArray
              [JObject
                 [("security", JString "ACME");
                  ("acquired", JString "2021-01-01");
                  ("sequence", JInt 1);
                  ("quantity", JInt 5);
                  ("cost_basis", JInt 150);
                  ("lot_currency", JString "USD");
                  ("rate", JInt 1)]])])].
Proof. vm_compute. reflexivity. Qed.

(** Amounts in cents and rates of four fraction digits survive. *)
Example cents_survive :
  through_json {| Py.coefficient := 15075; Py.exponent := -2 |}
  = Some {| Py.coefficient := 15075; Py.exponent := -2 |} /\
  through_json {| Py.coefficient := 98765; Py.exponent := -4 |}
  = Some {| Py.coefficient := 98765; Py.exponent := -4 |}.
Proof. split; vm_compute; reflexivity. Qed.

(** An amount that ends in zeros comes back without them, [150.00] as
    [150.0], and an amount without fraction digits as it was: equal as
    numbers, which is how [Decimal] compares. *)
Example trailing_zeros_dropped :
  through_json {| Py.coefficient := 15000; Py.exponent := -2 |}
  = Some {| Py.coefficient := 1500; Py.exponent := -1 |} /\
  survives {| Py.coefficient := 15000; Py.exponent := -2 |} = true /\
  through_json {| Py.coefficient := 15; Py.exponent := 1 |}
  = Some {| Py.coefficient := 150; Py.exponent := 0 |}.
Proof. split_and!; vm_compute; reflexivity. Qed.

End SnapshotProps.
